(** * Hephaestus: domain and certificate lifecycle orchestrator

    A shallow embedding of the Go services of Hephaestus (package
    [services], with the parts of [clients], [models] and [repositories]
    they call) and the properties of the three workflows Create, Delete and
    Renew, of the renewal sweep, of the provider selector and of the
    pagination of the domain list; then the code that runs at start-up (the
    loading of the configuration, the registry of provider handles) and
    the helpers for writes in bulk, with their properties. *)

From Stdlib Require Import ZArith Ascii String List Lia.
From stdpp Require Import base option list strings pretty gmap fin_maps.

Local Open Scope Z_scope.
Local Open Scope string_scope.
Local Open Scope list_scope.

(** ** Go values *)

(** Go's [error]: [None] is the nil error, [Some msg] an error whose
    [Error()] text is [msg]. *)
Abbreviation error := (option string).

(** [fmt.Errorf("<prefix>: %w", err)] for a non-nil [err]. *)
Definition wrap (prefix : string) (msg : string) : string :=
  prefix +:+ ": " +:+ msg.

(** How [fmt] prints an error operand of [%v] or [%w]: the text of a non-nil
    error; a nil one prints as a bad-verb marker. *)
Definition fmt_v (e : error) : string :=
  match e with Some m => m | None => "<nil>" end.
Definition fmt_w (e : error) : string :=
  match e with Some m => m | None => "%!w(<nil>)" end.

(** [time.Time] as an instant in nanoseconds; [time.Duration] likewise. *)
Abbreviation Time := Z.
Definition Hour : Z := 3600 * 1000000000.
Definition Time_Add (t : Time) (d : Z) : Time := t + d.
Definition Time_Before (t u : Time) : bool := Z.ltb t u.

(** Go's [int] on the 64-bit targets: two's complement wrap-around. *)
Definition wrap64 (z : Z) : Z := (z + 2 ^ 63) mod 2 ^ 64 - 2 ^ 63.
Definition int_add (a b : Z) : Z := wrap64 (a + b).
Definition int_sub (a b : Z) : Z := wrap64 (a - b).
Definition int_mul (a b : Z) : Z := wrap64 (a * b).
(** Integer division truncates toward zero; the caller checks the divisor. *)
Definition int_quo (a b : Z) : Z := wrap64 (Z.quot a b).

(** ** path/filepath and the artifact store *)

Module filepath.

(** A cleaned path: whether it starts at the root, and its components. *)
Record Path := mkPath { rooted : bool; comps : list string }.

#[global] Instance Path_eq_dec : EqDecision Path.
Proof. solve_decision. Defined.

(** [strings.Split(s, "/")]. *)
Fixpoint split_slash (s : string) : list string :=
  match s with
  | EmptyString => [EmptyString]
  | String c rest =>
      if Ascii.eqb c "/"%char then EmptyString :: split_slash rest
      else match split_slash rest with
           | [] => [String c EmptyString]
           | x :: xs => String c x :: xs
           end
  end.

Definition is_rooted (s : string) : bool :=
  match s with
  | String c _ => Ascii.eqb c "/"%char
  | EmptyString => false
  end.

(** One component of [Clean]'s lexical walk; [stack] holds the components
    kept so far, last first. Empty and [.] components vanish; [..] removes
    the component before it, is dropped at the root, and is kept at the
    front of a relative path. *)
Definition clean_step (root : bool) (stack : list string) (c : string)
  : list string :=
  if decide (c = "" ∨ c = ".") then stack
  else if decide (c = "..") then
    match stack with
    | top :: below => if decide (top = "..") then c :: stack else below
    | [] => if root then [] else [c]
    end
  else c :: stack.

Definition clean_comps (root : bool) (parts : list string) : Path :=
  mkPath root (rev (fold_left (clean_step root) parts [])).

(** [filepath.Clean]. *)
Definition Clean (s : string) : Path :=
  clean_comps (is_rooted s) (split_slash s).

(** [filepath.Join]: the elements from the first non-empty one on, joined
    by slashes and cleaned; [None] is the empty string Go returns when
    every element is empty. *)
Fixpoint Join (elem : list string) : option Path :=
  match elem with
  | [] => None
  | e :: rest =>
      if decide (e = "") then Join rest
      else Some (clean_comps (is_rooted e) (flat_map split_slash elem))
  end.

(** [filepath.Join(dir, e)] where [dir] is itself the result of a
    [Join]: the lexical walk goes on from the components of [dir], which
    are clean already. *)
Definition JoinTo (dir : option Path) (e : string) : option Path :=
  match dir with
  | None => Join [e]
  | Some p =>
      Some (mkPath (rooted p)
              (rev (fold_left (clean_step (rooted p)) (split_slash e)
                      (rev (comps p)))))
  end.

(** A name of one component that [Clean] keeps as it is. *)
Definition plain (name : string) : Prop :=
  split_slash name = [name] ∧ name ≠ "" ∧ name ≠ "." ∧ name ≠ "..".

(** [q] is [p] or lies below it. *)
Definition under (p q : Path) : bool :=
  bool_decide (rooted p = rooted q ∧ comps p `prefix_of` comps q).

End filepath.

Module Import path_text.
Import filepath.

(** The text of a cleaned path, as Go holds it in a [string]. *)
Definition Path_string (p : Path) : string :=
  match comps p with
  | [] => if rooted p then "/" else "."
  | cs => (if rooted p then "/" else "") +:+ String.concat "/" cs
  end.

(** The text of a [Join] result. *)
Definition joined_string (p : option Path) : string :=
  match p with Some q => Path_string q | None => "" end.
End path_text.

(** ** Package models *)

Module models.

(** A value of the empty interface [any], by its dynamic type. *)
Inductive any :=
| any_string (s : string)
| any_int (z : Z)
| any_time (t : Time)
| any_bool (b : bool)
| any_other.

Record Entity := mkEntity {
  EntityName : string;
  StringParameters : gmap string string;
  IntegerParameters : gmap string Z;
  TimeParameters : gmap string Time;
  BoolParameters : gmap string bool
}.

Record DomainsFilters := mkDomainsFilters {
  Limit : option Z;
  Offset : option Z;
  flt_DomainName : string;
  flt_Status : string;
  flt_UserID : string
}.

Record GetDomainsReq := mkGetDomainsReq {
  Page : Z;
  PageSize : Z;
  get_UserID : string;
  get_Status : string;
  get_DomainName : string
}.

Record CreateDomainReq := mkCreateDomainReq {
  CreatedBy : string;
  Domain : string;
  AltDomains : list string;
  VerificationMethod : string;
  AutoRenew : bool;
  NginxContainerName : string;
  DNSProvider : string
}.

Record DeleteDomainReq := mkDeleteDomainReq {
  DomainID : string;
  DomainName : string;
  UserID : string
}.

(** The fields of [DomainsDTO] and of its [Details] that the services
    read. *)
Record DomainDetails := mkDomainDetails {
  det_Status : string;
  det_AutoRenew : bool;
  det_CertValidTo : Time;
  det_DNSProvider : string;
  det_NginxContainerName : string
}.

Record DomainsDTO := mkDomainsDTO {
  ID : string;
  dto_DomainName : string;
  Sub : list string;
  Details : DomainDetails
}.

(** The entries stay DTOs: the API type of an entry only renames
    fields. *)
Record GetDomainsResp := mkGetDomainsResp {
  TotalPages : Z;
  resp_Page : Z;
  resp_PageSize : Z;
  TotalElements : Z;
  HasNext : bool;
  HasPrev : bool;
  NextPage : Z;
  PrevPage : Z;
  Domains : list DomainsDTO
}.

Definition GetDomainsResp_zero : GetDomainsResp :=
  mkGetDomainsResp 0 0 0 0 false false 0 0 [].

Record CertificateData := mkCertificateData {
  Cert : list Byte.byte;
  Key : list Byte.byte;
  Chain : list Byte.byte;
  ValidFrom : Time;
  ValidTo : Time
}.

Record CertificatePaths := mkCertificatePaths {
  paths_Cert : string;
  paths_Key : string;
  paths_Chain : string
}.

End models.

(** ** The world the services run in *)

Import models.

(** A stored row: its identifier and its columns, held as the attribute
    bags of an [Entity] whose [EntityName] is the table. *)
Record Row := mkRow { row_id : string; row_data : Entity }.

Abbreviation Db := (list Row).

(** A write of a transaction. *)
Inductive Write :=
| WInsert (id : string) (e : Entity)
| WUpdate (e : Entity) (id : string).

(** The columns of [e] over those of [old]: an update sets the columns it
    names and keeps the others. *)
Definition merge_columns (e old : Entity) : Entity :=
  mkEntity (EntityName old)
           (StringParameters e ∪ StringParameters old)
           (IntegerParameters e ∪ IntegerParameters old)
           (TimeParameters e ∪ TimeParameters old)
           (BoolParameters e ∪ BoolParameters old).

Definition update_row (e : Entity) (id : string) (r : Row) : Row :=
  if decide (row_id r = id ∧ EntityName (row_data r) = EntityName e)
  then mkRow (row_id r) (merge_columns e (row_data r))
  else r.

Definition apply_write (d : Db) (w : Write) : Db :=
  match w with
  | WInsert id e => d ++ [mkRow id e]
  | WUpdate e id => map (update_row e id) d
  end.

Definition apply_writes (ws : list Write) (d : Db) : Db :=
  fold_left apply_write ws d.

Inductive Level := Debug | Info | Warn | Error.

(** Work started with [go]: the file cleanup after a Delete, with its
    argument. *)
Inductive Goroutine := go_cleanup (domain : string).

Record World := mkWorld {
  db : Db;                                  (* committed rows *)
  txs : gmap nat (list Write);              (* open transactions *)
  next_tx : nat;
  next_id : nat;
  clock : Time;
  files : list filepath.Path;               (* directories and files *)
  issued : list (string * string * list string);
                                            (* issuance calls: provider,
                                               domain, alternative names *)
  reloaded : list string;                   (* containers told to reload *)
  goroutines : list Goroutine;
  logged : list (Level * string)
}.

Definition set_db (d : Db) (w : World) : World :=
  mkWorld d (txs w) (next_tx w) (next_id w) (clock w) (files w) (issued w)
          (reloaded w) (goroutines w) (logged w).
Definition set_txs (t : gmap nat (list Write)) (w : World) : World :=
  mkWorld (db w) t (next_tx w) (next_id w) (clock w) (files w) (issued w)
          (reloaded w) (goroutines w) (logged w).
Definition set_next_tx (n : nat) (w : World) : World :=
  mkWorld (db w) (txs w) n (next_id w) (clock w) (files w) (issued w)
          (reloaded w) (goroutines w) (logged w).
Definition set_next_id (n : nat) (w : World) : World :=
  mkWorld (db w) (txs w) (next_tx w) n (clock w) (files w) (issued w)
          (reloaded w) (goroutines w) (logged w).
Definition set_clock (t : Time) (w : World) : World :=
  mkWorld (db w) (txs w) (next_tx w) (next_id w) t (files w) (issued w)
          (reloaded w) (goroutines w) (logged w).
Definition set_files (f : list filepath.Path) (w : World) : World :=
  mkWorld (db w) (txs w) (next_tx w) (next_id w) (clock w) f (issued w)
          (reloaded w) (goroutines w) (logged w).
Definition set_issued (i : list (string * string * list string)) (w : World)
  : World :=
  mkWorld (db w) (txs w) (next_tx w) (next_id w) (clock w) (files w) i
          (reloaded w) (goroutines w) (logged w).
Definition set_reloaded (r : list string) (w : World) : World :=
  mkWorld (db w) (txs w) (next_tx w) (next_id w) (clock w) (files w)
          (issued w) r (goroutines w) (logged w).
Definition set_goroutines (g : list Goroutine) (w : World) : World :=
  mkWorld (db w) (txs w) (next_tx w) (next_id w) (clock w) (files w)
          (issued w) (reloaded w) g (logged w).
Definition set_logged (l : list (Level * string)) (w : World) : World :=
  mkWorld (db w) (txs w) (next_tx w) (next_id w) (clock w) (files w)
          (issued w) (reloaded w) (goroutines w) l.

(** A call of the repository, as far as its failure can depend on it. *)
Inductive DbOp :=
| OpBegin
| OpCommit
| OpRollback
| OpInsert (e : Entity)
| OpUpdate (e : Entity) (id : string)
| OpGetIDByName (e : Entity)
| OpIsDomainExists (name : string)
| OpGetListOfSubDomains (domainID : string)
| OpGetCertificatesByDomain (domainID : string)
| OpGetDomainsList (f : DomainsFilters)
| OpGetDomainsCount (f : DomainsFilters).

Inductive FsOp :=
| FsMkdirAll (p : option filepath.Path)
| FsWriteFile (p : option filepath.Path)
| FsRemoveAll (p : option filepath.Path).

(** What lies outside the program: which storage and file calls fail and
    with what text, the identifiers the store generates, the order in which
    a [range] walks a map, the answer of the certificate authority, the
    reload command, and the two list queries of the repository. *)
Record Env := mkEnv {
  db_fault : DbOp → error;
  gen_id : nat → string;
  range_order : gmap string Entity → list (string * Entity);
  acme : string → string → list string → CertificateData + string;
  fs_fault : FsOp → error;
  docker_exec : string → error;
  domains_list : Db → DomainsFilters → list DomainsDTO;
  domains_count : Db → DomainsFilters → Z
}.

(** A [range] over a map visits every entry once, in some order. *)
Definition range_ok (env : Env) : Prop :=
  ∀ m, range_order env m ≡ₚ map_to_list m.

(** ** Running Go code: state, and panics *)

Inductive Outcome (A : Type) :=
| Return (a : A) (w : World)
| Panic (msg : string) (w : World).
Arguments Return {A} a w.
Arguments Panic {A} msg w.

Definition Go (A : Type) : Type := World → Outcome A.

#[global] Instance Go_ret : MRet Go := λ A a w, Return a w.
#[global] Instance Go_bind : MBind Go := λ A B f m w,
  match m w with
  | Return a w' => f a w'
  | Panic msg w' => Panic msg w'
  end.

Definition panic {A} (msg : string) : Go A := λ w, Panic msg w.
Definition modify (f : World → World) : Go unit := λ w, Return tt (f w).
Definition gets {A} (f : World → A) : Go A := λ w, Return (f w) w.

(** A call of the logger: its level and the text of its first operand. *)
Definition log (l : Level) (msg : string) : Go unit :=
  modify (λ w, set_logged (logged w ++ [(l, msg)]) w).

(** [time.Now()]: two calls never read the same instant. *)
Definition time_Now : Go Time :=
  λ w, Return (clock w) (set_clock (clock w + 1)%Z w).

Definition nil_deref : string :=
  "runtime error: invalid memory address or nil pointer dereference".

(** ** Package repositories *)

Module repositories.

(** A [pgx.Tx] value: nil, or the handle of a transaction. *)
Abbreviation Tx := (option nat).

(** The certificate row of a domain, as far as the services read it. *)
Record Certificate := mkCertificate { cert_ID : string }.

Definition in_table (t : string) (r : Row) : Prop :=
  EntityName (row_data r) = t.
Definition not_deleted (r : Row) : Prop :=
  TimeParameters (row_data r) !! "deleted_at" = None.
Definition has_string (k v : string) (r : Row) : Prop :=
  StringParameters (row_data r) !! k = Some v.

(** The rows the query of [GetListOfSubDomains] selects. *)
Definition is_subdomain_of (domainID : string) (r : Row) : Prop :=
  in_table "alternative_domains" r ∧ not_deleted r ∧
  has_string "domain_id" domainID r.

Definition is_live_domain (name : string) (r : Row) : Prop :=
  in_table "domains" r ∧ not_deleted r ∧ has_string "domain_name" name r.

Definition is_certificate_of (domainID : string) (r : Row) : Prop :=
  in_table "certificates" r ∧ not_deleted r ∧
  has_string "domain_id" domainID r.

Definition matches (e : Entity) (r : Row) : Prop :=
  in_table (EntityName e) r ∧ not_deleted r ∧
  map_Forall (λ k v, has_string k v r) (StringParameters e).

#[global] Instance in_table_dec t r : Decision (in_table t r).
Proof. unfold in_table. apply _. Defined.
#[global] Instance not_deleted_dec r : Decision (not_deleted r).
Proof. unfold not_deleted. apply _. Defined.
#[global] Instance has_string_dec k v r : Decision (has_string k v r).
Proof. unfold has_string. apply _. Defined.
#[global] Instance is_subdomain_of_dec id r : Decision (is_subdomain_of id r).
Proof. unfold is_subdomain_of, in_table, not_deleted, has_string. apply _. Defined.
#[global] Instance is_live_domain_dec n r : Decision (is_live_domain n r).
Proof. unfold is_live_domain, in_table, not_deleted, has_string. apply _. Defined.
#[global] Instance is_certificate_of_dec id r : Decision (is_certificate_of id r).
Proof. unfold is_certificate_of, in_table, not_deleted, has_string. apply _. Defined.
#[global] Instance matches_dec e r : Decision (matches e r).
Proof. unfold matches, in_table, not_deleted, has_string. apply _. Defined.

Definition first_id (rows : list Row) : string :=
  match rows with r :: _ => row_id r | [] => "" end.

Section repository.
Context (env : Env).

(** Modelled from the spec: [Repository.BeginTx], whose source file is
    missing ([beginTransaction() -> TxHandle]). A transaction collects its
    writes until it is committed. *)
Definition BeginTx : Go (Tx * error) := λ w,
  match db_fault env OpBegin with
  | Some e => Return (None, Some e) w
  | None =>
      let h := next_tx w in
      Return (Some h, None) (set_next_tx (S h) (set_txs (<[h := []]> (txs w)) w))
  end.

(** Modelled from the spec: [Commit] of the transaction handle, which the
    missing repository hands out (transaction [.commit()]). The writes
    become visible together; a commit that fails leaves nothing behind. *)
Definition Commit (tx : Tx) : Go error := λ w,
  match tx with
  | None => Panic nil_deref w
  | Some h =>
      match txs w !! h with
      | None => Return (Some "tx is closed") w
      | Some ws =>
          match db_fault env OpCommit with
          | Some e => Return (Some e) (set_txs (delete h (txs w)) w)
          | None =>
              Return None
                (set_txs (delete h (txs w)) (set_db (apply_writes ws (db w)) w))
          end
      end
  end.

(** Modelled from the spec: [Rollback] of the transaction handle
    (transaction [.rollback()]). The writes are dropped, whatever the call
    reports. *)
Definition Rollback (tx : Tx) : Go error := λ w,
  match tx with
  | None => Panic nil_deref w
  | Some h =>
      match txs w !! h with
      | None => Return (Some "tx is closed") w
      | Some _ => Return (db_fault env OpRollback) (set_txs (delete h (txs w)) w)
      end
  end.

(** A write, in the transaction [tx], or at once when [tx] is nil. *)
Definition write (tx : Tx) (wr : Write) : Go error := λ w,
  match tx with
  | None => Return None (set_db (apply_write (db w) wr) w)
  | Some h =>
      match txs w !! h with
      | None => Return (Some "tx is closed") w
      | Some ws => Return None (set_txs (<[h := ws ++ [wr]]> (txs w)) w)
      end
  end.

(** Modelled from the spec: [Repository.InsertTx], whose source file is
    missing ([insert(tx, Entity) -> id]). The store generates the
    identifier; with a nil transaction the row is written at once, which is
    how the event writer outside a transaction calls it. *)
Definition InsertTx (tx : Tx) (e : Entity) : Go (string * error) :=
  match db_fault env (OpInsert e) with
  | Some msg => mret ("", Some msg)
  | None =>
      n ← gets next_id;
      modify (set_next_id (S n));;
      err ← write tx (WInsert (gen_id env n) e);
      match err with
      | Some msg => mret ("", Some msg)
      | None => mret (gen_id env n, None)
      end
  end.

(** Modelled from the spec: [Repository.UpdateTx], whose source file is
    missing ([update(tx, Entity, id) -> ok]). The row [id] of the entity's
    table takes the entity's columns. *)
Definition UpdateTx (tx : Tx) (e : Entity) (id : string) : Go error :=
  match db_fault env (OpUpdate e id) with
  | Some msg => mret (Some msg)
  | None => write tx (WUpdate e id)
  end.

(** The rows a query inside [tx] sees. *)
Definition view (tx : Tx) (w : World) : Db :=
  match tx with
  | None => db w
  | Some h => apply_writes (default [] (txs w !! h)) (db w)
  end.

(** Modelled from the spec: [Repository.GetIDByNameTx], whose source file
    is missing ([lookupIdByName(tx, Entity) -> id | ""]): the first row that
    is not deleted and carries the entity's text columns. *)
Definition GetIDByNameTx (tx : Tx) (e : Entity) : Go (string * error) := λ w,
  match db_fault env (OpGetIDByName e) with
  | Some msg => Return ("", Some msg) w
  | None => Return (first_id (filter (matches e) (view tx w)), None) w
  end.

(** Modelled from the spec: [Repository.IsDomainExists], whose source file
    is missing ([domainExists(name) -> bool]): true when a domain of that
    name exists that is not deleted. *)
Definition IsDomainExists (name : string) : Go (bool * error) := λ w,
  match db_fault env (OpIsDomainExists name) with
  | Some msg => Return (false, Some msg) w
  | None => Return (bool_decide (Exists (is_live_domain name) (db w)), None) w
  end.

(** The identifiers of the alternative domains of [domainID] that are
    not deleted, read outside any transaction. *)
Definition GetListOfSubDomains (domainID : string)
  : Go (list string * error) :=
  log Debug "Filters in repo layer: ";;
  match db_fault env (OpGetListOfSubDomains domainID) with
  | Some msg => mret ([], Some msg)
  | None =>
      rows ← gets db;
      mret (map row_id (filter (is_subdomain_of domainID) rows), None)
  end.

(** Modelled from the spec: [Repository.GetCertificatesByDomain], whose
    source file is missing ([getCertificateForDomain(domainId) ->
    Certificate]); the zero certificate when the domain has none. *)
Definition GetCertificatesByDomain (domainID : string)
  : Go (Certificate * error) := λ w,
  match db_fault env (OpGetCertificatesByDomain domainID) with
  | Some msg => Return (mkCertificate "", Some msg) w
  | None =>
      Return (mkCertificate
                (first_id (filter (is_certificate_of domainID) (db w))),
              None) w
  end.

(** [GetDomainsList] and [GetDomainsCount]: their source file is missing,
    and what they answer is a parameter, held by the environment. *)
Definition GetDomainsList (f : DomainsFilters)
  : Go (list DomainsDTO * error) := λ w,
  match db_fault env (OpGetDomainsList f) with
  | Some msg => Return ([], Some msg) w
  | None => Return (domains_list env (db w) f, None) w
  end.

Definition GetDomainsCount (f : DomainsFilters) : Go (Z * error) := λ w,
  match db_fault env (OpGetDomainsCount f) with
  | Some msg => Return (0%Z, Some msg) w
  | None => Return (domains_count env (db w) f, None) w
  end.

End repository.
End repositories.

(** ** Package clients *)

Module clients.
Import filepath.

(** The part of the configuration the clients read. *)
Record Config := mkConfig { StorageDir : string }.

Record Client := mkClient {
  Name : string;
  URL : string;
  client_Key : string;
  cfg : Config
}.

(** Where [NewClient] keeps the ACME account key. *)
Definition acme_user_key (c : Config) : option Path :=
  Join [StorageDir c; "acme_user.key"].

Definition add_path (fs : list Path) (p : Path) : list Path :=
  if decide (p ∈ fs) then fs else fs ++ [p].

(** A directory and the directories above it, outermost first. *)
Definition with_parents (p : Path) : list Path :=
  map (λ n, mkPath (rooted p) (take n (comps p))) (seq 0 (S (length (comps p)))).

Section files.
Context (env : Env).

(** [os.MkdirAll]. *)
Definition MkdirAll (p : option Path) : Go error :=
  match p with
  | None => mret (Some "mkdir : no such file or directory")
  | Some q =>
      match fs_fault env (FsMkdirAll p) with
      | Some msg => mret (Some msg)
      | None =>
          modify (λ w, set_files (fold_left add_path (with_parents q) (files w)) w);;
          mret None
      end
  end.

(** [os.WriteFile]; what the files hold is not kept. *)
Definition WriteFile (p : option Path) : Go error :=
  match p with
  | None => mret (Some "open : no such file or directory")
  | Some q =>
      match fs_fault env (FsWriteFile p) with
      | Some msg => mret (Some msg)
      | None => modify (λ w, set_files (add_path (files w) q) w);; mret None
      end
  end.

(** [os.Stat] followed by [os.IsNotExist] on its error. *)
Definition Stat_IsNotExist (p : option Path) : Go bool :=
  match p with
  | None => mret true
  | Some q => fs ← gets files; mret (bool_decide (q ∉ fs))
  end.

(** [os.RemoveAll]: the path and everything below it; the empty path
    removes nothing and succeeds. *)
Definition RemoveAll (p : option Path) : Go error :=
  match p with
  | None => mret None
  | Some q =>
      match fs_fault env (FsRemoveAll p) with
      | Some msg => mret (Some msg)
      | None =>
          modify (λ w, set_files (filter (λ f, under q f = false) (files w)) w);;
          mret None
      end
  end.

(** The issuance call. The exchange with the certificate authority
    (account registration, DNS challenge, order) lies outside the
    program: the call is recorded and the environment answers it. *)
Definition CreateCertificate (c : option Client) (domain : string)
  (san : list string) : Go (option CertificateData * error) :=
  match c with
  | None => panic nil_deref
  | Some c =>
      log Debug "CreateCertificate(): called";;
      modify (λ w, set_issued (issued w ++ [(Name c, domain, san)]) w);;
      match acme env (Name c) domain san with
      | inr msg => mret (None, Some msg)
      | inl data =>
          log Debug "CreateCertificate(): completed successfully";;
          mret (Some data, None)
      end
  end.

Definition SaveCertificateFiles (c : option Client) (domain : string)
  (certData : option CertificateData)
  : Go (option CertificatePaths * error) :=
  match c with
  | None => panic nil_deref
  | Some c =>
      log Debug "SaveCertificateFiles(): called for domain: ";;
      let baseDir := Join [StorageDir (cfg c); domain] in
      log Debug "Ensuring domain directory: ";;
      err ← MkdirAll baseDir;
      match err with
      | Some e => mret (None, Some (wrap "failed to create domain dir" e))
      | None =>
          let certPath := JoinTo baseDir "cert.pem" in
          let keyPath := JoinTo baseDir "privkey.pem" in
          let chainPath := JoinTo baseDir "chain.pem" in
          log Debug "Writing cert file: ";;
          match certData with
          | None => panic nil_deref
          | Some data =>
              err ← WriteFile certPath;
              match err with
              | Some e => mret (None, Some (wrap "write cert" e))
              | None =>
                  log Debug "Writing key file: ";;
                  err ← WriteFile keyPath;
                  match err with
                  | Some e => mret (None, Some (wrap "write key" e))
                  | None =>
                      log Debug "Writing chain file: ";;
                      err ← WriteFile chainPath;
                      match err, Chain data with
                      | Some e, _ :: _ => mret (None, Some (wrap "write chain" e))
                      | _, _ =>
                          log Debug "Certificate files saved successfully";;
                          mret (Some (mkCertificatePaths
                                        (joined_string certPath)
                                        (joined_string keyPath)
                                        (joined_string chainPath)), None)
                      end
                  end
              end
          end
      end
  end.

Definition DeleteCertificateFiles (c : option Client) (domain : string)
  : Go error :=
  match c with
  | None => panic nil_deref
  | Some c =>
      log Info "Deleting certificate files for domain: ";;
      let dir := Join [StorageDir (cfg c); domain] in
      missing ← Stat_IsNotExist dir;
      if (missing : bool) then
        mret (Some ("certificate not found for domain: " +:+ domain))
      else
        err ← RemoveAll dir;
        match err with
        | Some e => mret (Some (wrap "failed to remove certificate directory" e))
        | None => mret None
        end
  end.

End files.
End clients.

(** ** Package services *)

Module services.
Import repositories clients.

Record Service := mkService {
  client : list Client;
  svc_cfg : Config
}.

(** The loop of [SelectClientByName] over the registry. *)
Fixpoint select_loop (cs : list Client) (name : string)
  : option Client * error :=
  match cs with
  | [] => (None, Some "client not found")
  | c :: rest =>
      if decide (Name c = name) then (Some c, None) else select_loop rest name
  end.

Definition SelectClientByName (s : Service) (name : string)
  : Go (option Client * error) :=
  if decide (name = "no") then
    match client s with
    | c :: _ => mret (Some c, None)
    | [] => panic "runtime error: index out of range [0] with length 0"
    end
  else mret (select_loop (client s) name).

(** One round of the loop of [NewEntity]; [None] is its panic. *)
Definition NewEntity_put (k : string) (v : any) (acc : option Entity)
  : option Entity :=
  match acc with
  | None => None
  | Some e =>
      match v with
      | any_string val =>
          Some (mkEntity (EntityName e) (<[k := val]> (StringParameters e))
                  (IntegerParameters e) (TimeParameters e) (BoolParameters e))
      | any_int val =>
          Some (mkEntity (EntityName e) (StringParameters e)
                  (<[k := val]> (IntegerParameters e)) (TimeParameters e)
                  (BoolParameters e))
      | any_time val =>
          Some (mkEntity (EntityName e) (StringParameters e)
                  (IntegerParameters e) (<[k := val]> (TimeParameters e))
                  (BoolParameters e))
      | any_bool val =>
          Some (mkEntity (EntityName e) (StringParameters e)
                  (IntegerParameters e) (TimeParameters e)
                  (<[k := val]> (BoolParameters e)))
      | any_other => None
      end
  end.

Definition NewEntity (table : string) (params : gmap string any)
  : option Entity :=
  map_fold NewEntity_put (Some (mkEntity table ∅ ∅ ∅ ∅)) params.

Definition new_entity (table : string) (params : gmap string any)
  : Go Entity :=
  match NewEntity table params with
  | Some e => mret e
  | None => panic "unsupported type for key"
  end.

Section service.
Context (env : Env) (s : Service).

Definition writeEvent (tx : Tx) (domainID eventType message createdBy : string)
  : Go error :=
  entity ← new_entity "events"
    (<["domain_id" := any_string domainID]>
       (<["event_type" := any_string eventType]>
          (<["message" := any_string message]>
             {["created_by" := any_string createdBy]})));
  '(_, err) ← InsertTx env tx entity;
  match err with
  | Some e => mret (Some (wrap "failed to write event" e))
  | None => mret None
  end.

Definition safeWriteEvent (user domainID eventType details : string)
  : Go error :=
  err ← writeEvent None domainID eventType details user;
  match err with
  | Some _ => log Error "event writing failed (non-fatal):";; mret err
  | None => mret err
  end.

Fixpoint updateMany_loop (tx : Tx) (l : list (string * Entity)) : Go error :=
  match l with
  | [] => mret None
  | (id, entity) :: rest =>
      err ← UpdateTx env tx entity id;
      match err with
      | Some e =>
          mret (Some ("failed to update " +:+ EntityName entity +:+ " id="
                      +:+ id +:+ ": " +:+ e))
      | None => updateMany_loop tx rest
      end
  end.

Definition updateMany (tx : Tx) (updateData : gmap string Entity) : Go error :=
  updateMany_loop tx (range_order env updateData).

Definition GetDomains (filters : GetDomainsReq) : Go (GetDomainsResp * error) :=
  log Debug "Fetching list of domains started............";;
  let offset := int_mul (int_sub (Page filters) 1) (PageSize filters) in
  let repoFilters :=
    mkDomainsFilters (Some (PageSize filters)) (Some offset)
      (get_DomainName filters) (get_Status filters) (get_UserID filters) in
  log Debug "Fetching stocks count from repo...";;
  '(totalElements, err) ← GetDomainsCount env repoFilters;
  match err with
  | Some e =>
      log Error "Error while getting total stock count: ";;
      mret (GetDomainsResp_zero, Some e)
  | None =>
      log Debug "Count: ";;
      if decide (PageSize filters = 0%Z) then
        panic "runtime error: integer divide by zero"
      else
      let totalPages :=
        int_quo (int_sub (int_add totalElements (Page filters)) 1)
                (PageSize filters) in
      let hasNext := Z.ltb (Page filters) totalPages in
      let hasPrev := Z.ltb 1 (Page filters) in
      let nextPage := if hasNext then int_add (Page filters) 1 else 0%Z in
      let prevPage := if hasPrev then int_sub (Page filters) 1 else 0%Z in
      log Debug "Fetching list of domains from repo...";;
      '(domains, err) ← GetDomainsList env repoFilters;
      match err with
      | Some e =>
          log Error "Error while getting list of domains: ";;
          mret (GetDomainsResp_zero, Some e)
      | None =>
          log Debug "List of domains: ";;
          mret (mkGetDomainsResp totalPages (Page filters) (PageSize filters)
                  totalElements hasNext hasPrev nextPage prevPage domains,
                None)
      end
  end.

(** [*certData] for a certificate the issuance call returned. *)
Definition deref {A} (p : option A) : Go A :=
  match p with Some a => mret a | None => panic nil_deref end.

(** The function [CreateDomain] defers: it runs at every return after
    the transaction is open, and reads the results [domainID] and [err]
    as the return statement set them. *)
Definition CreateDomain_deferred (req : CreateDomainReq) (tx : Tx)
  (domainID : string) (err : error) : Go unit :=
  match err with
  | Some e =>
      log Warn "CreateDomain: rollback due to error:";;
      _ ← Rollback env tx;
      _ ← safeWriteEvent (CreatedBy req) domainID "failed"
            ("Domain creation failed: " +:+ e);
      mret tt
  | None => mret tt
  end.

(** The loop of [CreateDomain] over the alternative names: the error of
    the first insert that fails, with its wrapping. *)
Fixpoint CreateDomain_subs (req : CreateDomainReq) (tx : Tx)
  (domainID : string) (subs : list string) : Go error :=
  match subs with
  | [] => mret None
  | sub :: rest =>
      subEntity ← new_entity "alternative_domains"
        (<["domain_id" := any_string domainID]>
           (<["domain_name" := any_string sub]>
              {["created_by" := any_string (CreatedBy req)]}));
      '(_, err) ← InsertTx env tx subEntity;
      match err with
      | Some e => mret (Some ("insert alt domain '" +:+ sub +:+ "': " +:+ e))
      | None => CreateDomain_subs req tx domainID rest
      end
  end.

Definition CreateDomain (req : CreateDomainReq) : Go (string * error) :=
  log Debug "CreateDomain: start";;
  '(exists_, err) ← IsDomainExists env (Domain req);
  match err with
  | Some e => mret ("", Some (wrap "check domain exists" e))
  | None =>
  if (exists_ : bool) then mret ("", Some "domain already exists") else
  '(client, err) ← SelectClientByName s (DNSProvider req);
  match err with
  | Some e => mret ("", Some (wrap "select DNS client" e))
  | None =>
  '(certData, err) ← CreateCertificate env client (Domain req) (AltDomains req);
  match err with
  | Some e =>
      log Error "certificate creation failed:";;
      _ ← safeWriteEvent (CreatedBy req) "" "failed"
            ("Certificate creation failed: " +:+ e);
      mret ("", Some (wrap "certificate creation failed" e))
  | None =>
  '(certPaths, err) ← SaveCertificateFiles env client (Domain req) certData;
  match err with
  | Some e =>
      log Error "saving certificate files failed:";;
      _ ← safeWriteEvent (CreatedBy req) "" "failed"
            ("Saving certificate files failed: " +:+ e);
      mret ("", Some (wrap "save certificate files" e))
  | None =>
  '(tx, err) ← BeginTx env;
  match err with
  | Some e => mret ("", Some (wrap "begin tx" e))
  | None =>
  (* from here on every return runs the deferred function; the calls
     that could panic do so while [err] is nil, when it does nothing *)
  let leave (domainID : string) (err : error) : Go (string * error) :=
    CreateDomain_deferred req tx domainID err;; mret (domainID, err) in
  domainEntity ← new_entity "domains"
    (<["domain_name" := any_string (Domain req)]>
       (<["dns_provider" := any_string (DNSProvider req)]>
          (<["status" := any_string "pending"]>
             (<["verification_method" := any_string (VerificationMethod req)]>
                (<["nginx_container_name" := any_string (NginxContainerName req)]>
                   (<["created_by" := any_string (CreatedBy req)]>
                      {["auto_renew" := any_bool (AutoRenew req)]}))))));
  '(domainID, err) ← InsertTx env tx domainEntity;
  match err with
  | Some e => leave "" (Some (wrap "insert domain" e))
  | None =>
  err ← CreateDomain_subs req tx domainID (AltDomains req);
  match err with
  | Some e => leave "" (Some e)
  | None =>
  paths ← deref certPaths;
  data ← deref certData;
  certEntity ← new_entity "certificates"
    (<["domain_id" := any_string domainID]>
       (<["issuer" := any_string "Let's Encrypt"]>
          (<["cert_path" := any_string (paths_Cert paths)]>
             (<["key_path" := any_string (paths_Key paths)]>
                (<["chain_path" := any_string (paths_Chain paths)]>
                   (<["created_by" := any_string (CreatedBy req)]>
                      (<["valid_from" := any_time (ValidFrom data)]>
                         {["valid_to" := any_time (ValidTo data)]})))))));
  '(_, err) ← InsertTx env tx certEntity;
  match err with
  | Some e => leave "" (Some (wrap "insert certificate" e))
  | None =>
  activeEntity ← new_entity "domains"
    (<["status" := any_string "active"]>
       {["updated_by" := any_string (CreatedBy req)]});
  err ← updateMany tx {[domainID := activeEntity]};
  match err with
  | Some e => leave "" (Some (wrap "update domain status" e))
  | None =>
  err ← Commit env tx;
  match err with
  | Some e => leave "" (Some (wrap "commit tx" e))
  | None =>
  _ ← safeWriteEvent (CreatedBy req) domainID "created"
        "Domain and certificate created successfully";
  log Debug "CreateDomain: success";;
  leave domainID None
  end end end end end end end end end end.

(** The function [DeleteDomain] defers; [err] is the named result. *)
Definition DeleteDomain_deferred (tx : Tx) (err : error) : Go unit :=
  match err with
  | Some _ =>
      log Warn "Rollback started";;
      rollbackErr ← Rollback env tx;
      match rollbackErr with
      | Some _ => log Error "Rollback error:"
      | None => mret tt
      end
  | None => mret tt
  end.

(** The loop of [DeleteDomain] that enters each alternative domain in
    the map of updates, under its identifier. *)
Fixpoint DeleteDomain_subs (filters : DeleteDomainReq) (now : Time)
  (subDomains : list string) (updateDomains : gmap string Entity)
  : Go (gmap string Entity) :=
  match subDomains with
  | [] => mret updateDomains
  | id :: rest =>
      e ← new_entity "alternative_domains"
        (<["status" := any_string "deleted"]>
           (<["deleted_by" := any_string (UserID filters)]>
              (<["updated_by" := any_string (UserID filters)]>
                 {["deleted_at" := any_time now]})));
      DeleteDomain_subs filters now rest (<[id := e]> updateDomains)
  end.

(** The body of the goroutine [DeleteDomain] starts after its commit. *)
Definition cleanup (domain : string) : Go unit :=
  '(client, cErr) ← SelectClientByName s "no";
  match cErr with
  | Some _ => log Warn "Error selecting client:"
  | None =>
      dErr ← DeleteCertificateFiles env client domain;
      match dErr with
      | Some _ => log Warn "Error deleting certificate files:"
      | None => mret tt
      end
  end.

Definition run (g : Goroutine) : Go unit :=
  match g with go_cleanup domain => cleanup domain end.

Definition DeleteDomain (filters : DeleteDomainReq) : Go error :=
  log Debug "Deleting domain...";;
  '(tx, err) ← BeginTx env;
  match err with
  | Some e => mret (Some (wrap "failed to begin transaction" e))
  | None =>
  let leave (err : error) : Go error :=
    DeleteDomain_deferred tx err;; mret err in
  '(domainID, err) ←
    (if decide (DomainName filters ≠ "") then
       GetIDByNameTx env tx
         (mkEntity "domains" {["domain_name" := DomainName filters]} ∅ ∅ ∅)
     else mret (DomainID filters, None));
  match err with
  | Some e => leave (Some (wrap "error while getting domain id" e))
  | None =>
  if decide (DomainName filters ≠ "" ∧ domainID = "") then
    leave (Some "domain doesn't exist")
  else
  '(subDomains, err) ← GetListOfSubDomains env domainID;
  match err with
  | Some e => leave (Some (wrap "error getting subdomains" e))
  | None =>
  now ← time_Now;
  domainEntity ← new_entity "domains"
    (<["status" := any_string "deleted"]>
       (<["deleted_by" := any_string (UserID filters)]>
          (<["updated_by" := any_string (UserID filters)]>
             {["deleted_at" := any_time now]})));
  updateDomains ← DeleteDomain_subs filters now subDomains
                    {[domainID := domainEntity]};
  err ← updateMany tx updateDomains;
  match err with
  | Some e => leave (Some (wrap "error updating domain statuses" e))
  | None =>
  '(certs, err) ← GetCertificatesByDomain env domainID;
  match err with
  | Some e => leave (Some (wrap "error fetching certificates" e))
  | None =>
  err ← (if decide (cert_ID certs ≠ "") then
           certEntity ← new_entity "certificates"
             (<["deleted_by" := any_string (UserID filters)]>
                (<["updated_by" := any_string (UserID filters)]>
                   {["deleted_at" := any_time now]}));
           updateMany tx {[cert_ID certs := certEntity]}
         else mret None);
  match err with
  | Some e => leave (Some (wrap "error updating certificate" e))
  | None =>
  err ← writeEvent tx domainID "deleted"
          ("Domain '" +:+ DomainName filters +:+ "' and its certificates deleted")
          (UserID filters);
  match err with
  | Some e => leave (Some (wrap "error inserting event" e))
  | None =>
  err ← Commit env tx;
  match err with
  | Some e => leave (Some (wrap "commit error" e))
  | None =>
  modify (λ w, set_goroutines (goroutines w ++ [go_cleanup (DomainName filters)]) w);;
  log Debug "Domain deleted successfully";;
  leave None
  end end end end end end end end.

(** [exec.Command("docker", "exec", name, "nginx", "-s", "reload")],
    answered by the environment. *)
Definition reloadNginxInContainer (domain : DomainsDTO) : Go error :=
  if decide (det_NginxContainerName (Details domain) = "") then mret None
  else
    modify (λ w, set_reloaded
                   (reloaded w ++ [det_NginxContainerName (Details domain)]) w);;
    match docker_exec env (det_NginxContainerName (Details domain)) with
    | Some e =>
        log Error "Docker nginx reload error:";;
        mret (Some (wrap "failed to reload nginx inside container" e))
    | None =>
        log Info "Nginx inside container reloaded for domain:";;
        mret None
    end.

(** The function [RenewDomainCertificate] defers. Its result is not
    named: [err] is the local variable declared with the transaction,
    whatever the return statement returns. *)
Definition RenewDomainCertificate_deferred (tx : Tx) (err : error)
  : Go unit :=
  match err with
  | Some _ => log Warn "Rollback renewal tx";; _ ← Rollback env tx; mret tt
  | None => mret tt
  end.

(** [m], and the deferred call [d] on the way out if [m] panics. *)
Definition unwinding {A} (d : Go unit) (m : Go A) : Go A := λ w,
  match m w with
  | Return a w' => Return a w'
  | Panic msg w' =>
      match d w' with
      | Return _ w'' => Panic msg w''
      | Panic msg' w'' => Panic msg' w''
      end
  end.

Definition update_failed_params : gmap string any :=
  <["status" := any_string "update_failed"]>
    {["updated_by" := any_string "system-renewal"]}.

Definition RenewDomainCertificate (domain : DomainsDTO) : Go error :=
  log Info "Renewing certificate for domain: ";;
  '(tx, err) ← BeginTx env;
  match err with
  | Some e => mret (Some (wrap "failed to begin tx" e))
  | None =>
  (* [leave err ret]: return [ret] while the variable [err] holds [err] *)
  let deferred := RenewDomainCertificate_deferred tx in
  let leave (err ret : error) : Go error := deferred err;; mret ret in
  log Debug "Selecting client...";;
  '(client, err) ← SelectClientByName s (det_DNSProvider (Details domain));
  let san := Sub domain in
  '(certData, err) ← unwinding (deferred err)
    (CreateCertificate env client (dto_DomainName domain) san);
  match err with
  | Some e =>
      log Error "renewal certificate failed:";;
      failed ← unwinding (deferred err) (new_entity "domains" update_failed_params);
      (* a second [err], local to this block *)
      err' ← updateMany tx {[ID domain := failed]};
      err' ← writeEvent tx (ID domain) "failed"
               ("Certificate issuance failed: " +:+ fmt_v err') "system-renewal";
      leave err (Some ("failed to create new certificate: " +:+ fmt_w err'))
  | None =>
  '(certPaths, err) ← unwinding (deferred err)
    (SaveCertificateFiles env client (dto_DomainName domain) certData);
  match err with
  | Some e =>
      failed ← unwinding (deferred err) (new_entity "domains" update_failed_params);
      _ ← updateMany tx {[ID domain := failed]};
      leave err (Some (wrap "failed to save cert files" e))
  | None =>
  paths ← unwinding (deferred err) (deref certPaths);
  data ← unwinding (deferred err) (deref certData);
  updated_at ← time_Now;
  certEntity ← unwinding (deferred err) (new_entity "certificates"
    (<["cert_path" := any_string (paths_Cert paths)]>
       (<["key_path" := any_string (paths_Key paths)]>
          (<["chain_path" := any_string (paths_Chain paths)]>
             (<["updated_by" := any_string "system-renewal"]>
                (<["valid_from" := any_time (ValidFrom data)]>
                   (<["valid_to" := any_time (ValidTo data)]>
                      {["updated_at" := any_time updated_at]})))))));
  err ← updateMany tx {[ID domain := certEntity]};
  match err with
  | Some e => leave err (Some (wrap "failed to update certificate" e))
  | None =>
  activeEntity ← unwinding (deferred err) (new_entity "domains"
    (<["status" := any_string "active"]>
       {["updated_by" := any_string "system-renewal"]}));
  err ← updateMany tx {[ID domain := activeEntity]};
  match err with
  | Some e => leave err (Some (wrap "failed to update domain status" e))
  | None =>
  err ← writeEvent tx (ID domain) "renewed"
          ("Certificate for '" +:+ dto_DomainName domain +:+ "' renewed")
          "system-renewal";
  match err with
  | Some e => leave err (Some (wrap "failed to insert event" e))
  | None =>
  err ← Commit env tx;
  match err with
  | Some e => leave err (Some (wrap "failed commit" e))
  | None =>
  log Info "Domain %s successfully renewed!";;
  reloadErr ← reloadNginxInContainer domain;
  match reloadErr with
  | Some e => leave err (Some (wrap "certificate renewed but nginx reload failed" e))
  | None => leave err None
  end end end end end end end end.

(** The loop of [RenewExpiringCertificates] over the listed domains. *)
Fixpoint RenewExpiringCertificates_loop (now : Time) (domains : list DomainsDTO)
  : Go unit :=
  match domains with
  | [] => mret tt
  | d :: rest =>
      if decide (det_Status (Details d) = "deleted") then
        RenewExpiringCertificates_loop now rest
      else if negb (det_AutoRenew (Details d)) then
        RenewExpiringCertificates_loop now rest
      else
        let renewDate := Time_Add (det_CertValidTo (Details d)) (-30 * 24 * Hour) in
        if Time_Before now renewDate then
          RenewExpiringCertificates_loop now rest
        else
          log Info "Domain %s is approaching expiration (%s). Renewal triggered.";;
          err ← RenewDomainCertificate d;
          match err with
          | Some _ => log Error "Failed to renew certificate for"
          | None => mret tt
          end;;
          RenewExpiringCertificates_loop now rest
  end.

Definition RenewExpiringCertificates : Go unit :=
  '(domains, err) ← GetDomainsList env (mkDomainsFilters None None "" "" "");
  match err with
  | Some _ => log Error "failed fetch domains:"
  | None =>
      now ← time_Now;
      RenewExpiringCertificates_loop now domains
  end.

End service.
(** The dynamic type of the [ID] operand of [updateStatus]: a string, a
    slice of strings, or a value of another type, with the name [%T]
    prints for it. *)
Inductive IDs :=
| one_id (v : string)
| many_ids (v : list string)
| other_id (type_name : string).

Section bulk.
Context (env : Env).

(** The loop of [updateStatus] over the identifiers. *)
Fixpoint updateStatus_loop (tx : Tx) (tableName : string) (entity : Entity)
  (ids : list string) : Go error :=
  match ids with
  | [] => mret None
  | id :: rest =>
      err ← UpdateTx env tx entity id;
      match err with
      | Some e =>
          mret (Some ("failed to update " +:+ tableName +:+ " with id "
                      +:+ id +:+ ": " +:+ e))
      | None => updateStatus_loop tx tableName entity rest
      end
  end.

Definition updateStatus (tx : Tx) (ID : IDs) (tableName status updatedBy : string)
  : Go error :=
  match (match ID with
         | one_id v => inl [v]
         | many_ids v => inl v
         | other_id type_name => inr type_name
         end) with
  | inr type_name => mret (Some ("unsupported ID type: " +:+ type_name))
  | inl ids =>
      entity ← new_entity tableName
        (<["status" := any_string status]>
           {["updated_by" := any_string updatedBy]});
      updateStatus_loop tx tableName entity ids
  end.

(** The loop of [insertMany]; [ids] holds the identifiers so far. A failed
    insert returns a nil slice. *)
Fixpoint insertMany_loop (tx : Tx) (entities : list Entity) (ids : list string)
  : Go (list string * error) :=
  match entities with
  | [] => mret (ids, None)
  | e :: rest =>
      '(id, err) ← InsertTx env tx e;
      match err with
      | Some msg =>
          mret ([], Some ("failed to insert into " +:+ EntityName e +:+ ": "
                          +:+ msg))
      | None => insertMany_loop tx rest (ids ++ [id])
      end
  end.

Definition insertMany (tx : Tx) (entities : list Entity)
  : Go (list string * error) :=
  insertMany_loop tx entities [].

End bulk.

(** [NewService] keeps the registry and the configuration it is given. *)
Definition NewService (cfg : Config) (clientsList : list Client)
  : option Service * error :=
  (Some (mkService clientsList cfg), None).

End services.

(** ** Start-up: the configuration and the provider registry *)

(** The functions of package [strings] the code calls. They work on
    Unicode text; what they answer is a parameter. *)
Record Strings := mkStrings {
  TrimSpace : string → string;
  ToLower : string → string;
  ToUpper : string → string
}.

(** *** Package utils *)

Module utils.

Record API := mkAPI {
  api_Name : string;
  api_URL : string;
  api_Key : string
}.

Record AWSConfig := mkAWSConfig {
  AccessKey : string;
  SecretKey : string;
  Region : string
}.

(** The fields of [Config] that the clients and the loader read. *)
Record Config := mkConfig {
  APIS : list API;
  AwsConfig : AWSConfig;
  Certs : clients.Config
}.

(** What the process finds when it loads its configuration: its
    environment variables ([os.Getenv] answers the empty string for a
    variable that is not set), whether [os.Stat] finds the file, and what
    [cleanenv] reads from the file and from the environment. *)
Record Process := mkProcess {
  Getenv : string → string;
  Stat_ok : string → bool;
  ReadConfig : string → Config + string;
  ReadEnv : Config → Config + string
}.

Section loading.
Context (text : Strings) (proc : Process).

(** The loop of [LoadConfig] over the configured APIs: each takes its key
    from the variable named after it. *)
Fixpoint LoadConfig_keys (apis : list API) : list API + string :=
  match apis with
  | [] => inl []
  | api :: rest =>
      let envName := "API_KEY_" +:+ ToUpper text (api_Name api) in
      let key := Getenv proc envName in
      if decide (key = "") then
        inr ("missing environment variable " +:+ envName +:+ " for API '"
             +:+ api_Name api +:+ "'")
      else
        match LoadConfig_keys rest with
        | inl done => inl (mkAPI (api_Name api) (api_URL api) key :: done)
        | inr e => inr e
        end
  end.

Definition LoadConfig (confPath : string) : option Config * error :=
  if decide (confPath = "") then (None, Some "config path is empty")
  else if negb (Stat_ok proc confPath) then
    (None, Some ("config file does not exist: " +:+ confPath))
  else
    match ReadConfig proc confPath with
    | inr e => (None, Some e)
    | inl cfg =>
        match LoadConfig_keys (APIS cfg) with
        | inr e => (None, Some e)
        | inl apis =>
            match ReadEnv proc (mkConfig apis (AwsConfig cfg) (Certs cfg)) with
            | inr e => (None, Some e)
            | inl cfg' => (Some cfg', None)
            end
        end
    end.

End loading.
End utils.

(** *** Package clients: the registry of provider handles *)

Module providers.
Import filepath clients.

(** What reading the stored account key gives: [os.ReadFile] fails, the
    text holds no PEM block, the block is no PKCS#1 key, or a key. *)
Inductive KeyFile :=
| KeyUnreadable (e : string)
| KeyNoPem
| KeyUnparsable (e : string)
| KeyLoaded.

(** What lies outside the program at start-up: the account key on disk,
    the key generator, and the constructor of each DNS provider, which
    reads the environment variables set just before it is called. *)
Record Platform := mkPlatform {
  read_key : option Path → KeyFile;
  GenerateKey : error;
  NewDNSProvider : string → list (string * string) → error
}.

(** The directories [os.MkdirAll] makes for a path as it is written: one
    for each prefix of it, so that a component before a [..] is made
    too. *)
Definition written_parents (dir : string) : list Path :=
  map (λ n, clean_comps (is_rooted dir) (take n (split_slash dir)))
      (seq 0 (S (length (split_slash dir)))).

Section registry.
Context (text : Strings) (env : Env) (platform : Platform).

(** [os.MkdirAll] on the text of a path. *)
Definition MkdirAll_written (dir : string) : Go error :=
  if decide (dir = "") then mret (Some "mkdir : no such file or directory")
  else
    match fs_fault env (FsMkdirAll (Some (Clean dir))) with
    | Some msg => mret (Some msg)
    | None =>
        modify (λ w, set_files
                       (fold_left add_path (written_parents dir) (files w)) w);;
        mret None
    end.

(** [loadOrCreatePrivateKey]; the key is an opaque value, and the result
    here is the error alone. *)
Definition loadOrCreatePrivateKey (path : option Path) : Go error :=
  log Debug "loadOrCreatePrivateKey(): called, path=";;
  missing ← Stat_IsNotExist path;
  if (missing : bool) then
    match GenerateKey platform with
    | Some e => mret (Some (wrap "generate key" e))
    | None =>
        err ← WriteFile env path;
        match err with
        | Some e => mret (Some (wrap "write key file" e))
        | None => log Debug "Key loaded successfully";; mret None
        end
    end
  else
    log Debug "Key file exists. Loading...";;
    match read_key platform path with
    | KeyUnreadable e => mret (Some (wrap "read key file" e))
    | KeyNoPem => mret (Some "invalid pem in key file")
    | KeyUnparsable e => mret (Some (wrap "parse private key" e))
    | KeyLoaded => mret None
    end.

(** One case of the switch of [NewClient]: the variables are set, the
    provider is made, and the handle is returned. *)
Definition NewClient_provider (c : Client) (provider setting made : string)
  (vars : list (string * string)) : Go (option Client * error) :=
  log Debug setting;;
  match NewDNSProvider platform provider vars with
  | Some e => mret (None, Some (wrap (provider +:+ " provider init") e))
  | None =>
      log Debug made;;
      log Debug "NewClient(): success for provider ";;
      mret (Some c, None)
  end.

Definition NewClient (name url key : string) (cfg : utils.Config)
  : Go (option Client * error) :=
  log Debug "NewClient(): called";;
  let c := mkClient name url key (utils.Certs cfg) in
  log Debug "Ensuring storage directory exists: ";;
  err ← MkdirAll_written (StorageDir (utils.Certs cfg));
  match err with
  | Some e => mret (None, Some (wrap "failed to ensure storage dir" e))
  | None =>
  let keyPath := acme_user_key (utils.Certs cfg) in
  log Debug "Loading or creating ACME user key: ";;
  err ← loadOrCreatePrivateKey keyPath;
  match err with
  | Some e => mret (None, Some (wrap "failed to load/create acme user key" e))
  | None =>
  log Debug "ACME user key successfully loaded";;
  log Debug "Initializing DNS provider: ";;
  let lower := ToLower text name in
  if decide (lower = "cloudflare") then
    NewClient_provider c "cloudflare" "Setting CLOUDFLARE_API_TOKEN env"
      "Cloudflare DNS provider init successful"
      [("CLOUDFLARE_API_TOKEN", key)]
  else if decide (lower = "hetzner") then
    NewClient_provider c "hetzner" "Setting HETZNER_API_TOKEN env"
      "Hetzner DNS provider init successful"
      [("HETZNER_API_KEY", key)]
  else if decide (lower = "digitalocean") then
    NewClient_provider c "digitalocean" "Setting DO_AUTH_TOKEN env"
      "DigitalOcean DNS provider init successful"
      [("DO_AUTH_TOKEN", key)]
  else if decide (lower = "route53") then
    NewClient_provider c "route53" "Setting AWS credentials env"
      "Route53 DNS provider init successful"
      [("AWS_ACCESS_KEY_ID", utils.AccessKey (utils.AwsConfig cfg));
       ("AWS_SECRET_ACCESS_KEY", utils.SecretKey (utils.AwsConfig cfg));
       ("AWS_REGION", utils.Region (utils.AwsConfig cfg))]
  else
    log Error "Unknown DNS provider: ";;
    mret (None, Some ("unknown DNS provider: " +:+ name))
  end end.

(** The loop of [CreateClients] over the configured APIs. [NewClient]
    returns a handle whenever it returns no error. *)
Fixpoint CreateClients_loop (cfg : utils.Config) (apis : list utils.API)
  (clients : list Client) : Go (list Client) :=
  match apis with
  | [] => mret clients
  | api :: rest =>
      if decide (utils.api_Name api = "" ∨ utils.api_URL api = "") then
        log Warn "api configuration missing something";;
        CreateClients_loop cfg rest clients
      else
        '(client, err) ← NewClient (utils.api_Name api) (utils.api_URL api)
                           (utils.api_Key api) cfg;
        match err, client with
        | Some _, _ =>
            log Error "failed to create client: ";;
            CreateClients_loop cfg rest clients
        | None, Some c => CreateClients_loop cfg rest (clients ++ [c])
        | None, None => CreateClients_loop cfg rest clients
        end
  end.

Definition CreateClients (cfg : utils.Config) : Go (list Client * error) :=
  clients ← CreateClients_loop cfg (utils.APIS cfg) [];
  if decide (length clients = 0%nat) then mret ([], Some "0 clients created")
  else mret (clients, None).

(** The loop of [uniqueDomains]: [seen] holds the names kept so far. *)
Fixpoint uniqueDomains_loop (domains : list string) (seen : gset string)
  (out : list string) : list string :=
  match domains with
  | [] => out
  | d :: rest =>
      let d := TrimSpace text d in
      if decide (d = "") then uniqueDomains_loop rest seen out
      else if decide (d ∈ seen) then uniqueDomains_loop rest seen out
      else uniqueDomains_loop rest ({[d]} ∪ seen) (out ++ [d])
  end.

Definition uniqueDomains (domains : list string) : list string :=
  uniqueDomains_loop domains ∅ [].

End registry.
End providers.

(** ** Concrete worlds for the examples *)

Module examples.
Import filepath repositories clients services.

Definition some_certificate : CertificateData :=
  mkCertificateData [] [] [] 1000 2000.

(** An environment in which nothing fails: identifiers are numbered, a
    [range] follows the order of the keys, the authority issues. *)
Definition calm : Env :=
  mkEnv (λ _, None) (λ n, "id-" +:+ pretty n) map_to_list
        (λ _ _ _, inl some_certificate) (λ _, None) (λ _, None)
        (λ _ _, []) (λ _ _, 0%Z).

Definition config : Config := mkConfig "./certs".
Definition cloudflare : Client := mkClient "cloudflare" "https://api.cloudflare.com" "k1" config.
Definition hetzner : Client := mkClient "hetzner" "https://dns.hetzner.com" "k2" config.
Definition service : Service := mkService [cloudflare; hetzner] config.

Definition nothing : World := mkWorld [] ∅ 0 0 0%Z [] [] [] [] [].

(** Four domains are stored, whatever the filters. *)
Definition four_domains : Env :=
  mkEnv (db_fault calm) (gen_id calm) (range_order calm) (acme calm)
        (fs_fault calm) (docker_exec calm) (domains_list calm) (λ _ _, 4%Z).

(** A store with one domain, one alternative domain of it and its
    certificate. *)
Definition stored_domain : Row :=
  mkRow "d1" (mkEntity "domains"
    (<["domain_name" := "example.com"]>
       (<["dns_provider" := "cloudflare"]> {["status" := "active"]}))
    ∅ ∅ {["auto_renew" := true]}).
Definition stored_alternative : Row :=
  mkRow "a1" (mkEntity "alternative_domains"
    (<["domain_id" := "d1"]> {["domain_name" := "www.example.com"]}) ∅ ∅ ∅).
Definition stored_certificate : Row :=
  mkRow "c1" (mkEntity "certificates"
    (<["domain_id" := "d1"]> {["issuer" := "Let's Encrypt"]})
    ∅ (<["valid_from" := 1000%Z]> {["valid_to" := 2000%Z]}) ∅).

Definition stored : World :=
  mkWorld [stored_domain; stored_alternative; stored_certificate]
          ∅ 0 0 500%Z [] [] [] [] [].

Definition delete_by_name : DeleteDomainReq :=
  mkDeleteDomainReq "" "example.com" "admin".
Definition delete_by_id : DeleteDomainReq :=
  mkDeleteDomainReq "d1" "" "admin".

(** The authority refuses every order. *)
Definition refusing : Env :=
  mkEnv (db_fault calm) (gen_id calm) (range_order calm)
        (λ _ _ _, inr "acme: order refused") (fs_fault calm)
        (docker_exec calm) (domains_list calm) (domains_count calm).

(** The stored domain as the list query reports it, its certificate at
    its end. *)
Definition expiring : DomainsDTO :=
  mkDomainsDTO "d1" "example.com" ["www.example.com"]
    (mkDomainDetails "active" true 2000%Z "cloudflare" "").

(** A domain whose certificate ends a hundred days after instant 0. *)
Definition far_from_expiry : DomainsDTO :=
  mkDomainsDTO "d2" "example.net" []
    (mkDomainDetails "active" true (100 * 24 * Hour)%Z "cloudflare" "").

(** A domain configured with a provider that has no handle. *)
Definition unregistered : DomainsDTO :=
  mkDomainsDTO "d1" "example.com" ["www.example.com"]
    (mkDomainDetails "active" true 2000%Z "route53" "").

Definition create_request : CreateDomainReq :=
  mkCreateDomainReq "admin" "example.org" ["www.example.org"] "dns-01" true
    "" "cloudflare".

(** The store, with the storage directory holding the account key and the
    files of two domains, and a file outside it. *)
Definition stocked : World :=
  set_files
    [mkPath false ["certs"];
     mkPath false ["certs"; "acme_user.key"];
     mkPath false ["certs"; "example.com"];
     mkPath false ["certs"; "example.com"; "cert.pem"];
     mkPath false ["certs"; "example.com"; "privkey.pem"];
     mkPath false ["certs"; "example.net"];
     mkPath false ["certs"; "example.net"; "cert.pem"];
     mkPath false ["backup"; "notes.txt"]]
    stored.

(** A world in which the transaction 0 is open and holds no write yet. *)
Definition in_transaction : World :=
  mkWorld [] {[0%nat := []]} 1 0 0%Z [] [] [] [] [].

(** The store refuses every write to the table of the certificates. *)
Definition certificates_locked : Env :=
  mkEnv (λ op, match op with
               | OpInsert e | OpUpdate e _ =>
                   if decide (EntityName e = "certificates")
                   then Some "table is locked" else None
               | _ => None
               end)
        (gen_id calm) (range_order calm) (acme calm) (fs_fault calm)
        (docker_exec calm) (domains_list calm) (domains_count calm).

Definition a_domain : Entity :=
  mkEntity "domains" {["domain_name" := "example.org"]} ∅ ∅ ∅.
Definition a_certificate : Entity :=
  mkEntity "certificates" {["domain_id" := "id-0"]} ∅ ∅ ∅.

(** The text functions on ASCII letters and blanks. *)
Definition lower_letter (c : ascii) : ascii :=
  let n := nat_of_ascii c in
  if (65 <=? n)%nat && (n <=? 90)%nat then ascii_of_nat (n + 32) else c.
Definition upper_letter (c : ascii) : ascii :=
  let n := nat_of_ascii c in
  if (97 <=? n)%nat && (n <=? 122)%nat then ascii_of_nat (n - 32) else c.
Fixpoint map_letters (f : ascii → ascii) (s : string) : string :=
  match s with
  | EmptyString => EmptyString
  | String c rest => String (f c) (map_letters f rest)
  end.
Fixpoint drop_blanks (s : string) : string :=
  match s with
  | String " " rest => drop_blanks rest
  | _ => s
  end.
Definition ascii_text : Strings :=
  mkStrings (λ s, String.rev (drop_blanks (String.rev (drop_blanks s))))
            (map_letters lower_letter) (map_letters upper_letter).

(** A platform on which every key and every provider can be made. *)
Definition willing : providers.Platform :=
  providers.mkPlatform (λ _, providers.KeyLoaded) None (λ _ _, None).

(** The APIs of the sample configuration: two of the names are not those
    of a provider, and one entry has no URL. *)
Definition sample_config : utils.Config :=
  utils.mkConfig
    [utils.mkAPI "hetzner" "https://api.hetzner.com/api/v1/records" "k1";
     utils.mkAPI "Cloudflare" "https://api.cloudflare.com/client/v4" "k2";
     utils.mkAPI "aws" "https://route53.amazonaws.com/" "k3";
     utils.mkAPI "digitalocean" "" "k4";
     utils.mkAPI "auth" "https://authexample.com" "k5"]
    (utils.mkAWSConfig "" "" "us-east-1") config.

(** A process whose environment holds the key of hetzner alone. *)
Definition one_key : utils.Process :=
  utils.mkProcess
    (λ name, if decide (name = "API_KEY_HETZNER") then "secret" else "")
    (λ _, true) (λ _, inl sample_config) (λ cfg, inl cfg).

End examples.

(** * Vocabulary of the properties *)

Import filepath repositories clients services.

(** What a call returned, if it did not panic. *)
Definition result {A} (o : Outcome A) : option A :=
  match o with Return a _ => Some a | Panic _ _ => None end.

(** The world a call left. *)
Definition after {A} (o : Outcome A) : World :=
  match o with Return _ w => w | Panic _ w => w end.

(** The number of pages that hold [n] elements, [size] to a page. *)
Definition ceiling_div (n size : Z) : Z := (n + size - 1) / size.

(** The entity [writeEvent] builds. *)
Definition event_entity (domainID eventType message createdBy : string) : Entity :=
  mkEntity "events"
    (<["domain_id" := domainID]>
       (<["event_type" := eventType]>
          (<["message" := message]> {["created_by" := createdBy]})))
    ∅ ∅ ∅.

(** An update of the status alone. *)
Definition status_entity (table status updatedBy : string) : Entity :=
  mkEntity table (<["status" := status]> {["updated_by" := updatedBy]}) ∅ ∅ ∅.

(** The update [DeleteDomain] builds for the domain and for each of its
    alternative domains. *)
Definition deleted_entity (table user : string) (now : Time) : Entity :=
  mkEntity table
    (<["status" := "deleted"]>
       (<["deleted_by" := user]> {["updated_by" := user]}))
    ∅ {["deleted_at" := now]} ∅.

(** The update [DeleteDomain] builds for the certificate: no status. *)
Definition deleted_certificate_entity (user : string) (now : Time) : Entity :=
  mkEntity "certificates"
    (<["deleted_by" := user]> {["updated_by" := user]})
    ∅ {["deleted_at" := now]} ∅.

(** A row of a table other than the events. *)
Definition not_an_event (r : Row) : Prop := EntityName (row_data r) ≠ "events".

#[global] Instance not_an_event_dec r : Decision (not_an_event r).
Proof. unfold not_an_event. apply _. Defined.

(** Thirty days, as a [time.Duration]. *)
Definition thirty_days : Z := 30 * 24 * Hour.

(** The sweep passes over [d]: it is deleted, or not renewed automatically,
    or its certificate is more than thirty days from its end. *)
Definition passed_over (now : Time) (d : DomainsDTO) : Prop :=
  det_Status (Details d) = "deleted" ∨
  det_AutoRenew (Details d) = false ∨
  (now < det_CertValidTo (Details d) - thirty_days)%Z.

(** The write of one entry of a map of updates. *)
Definition update_of (x : string * Entity) : Write := WUpdate x.2 x.1.

(** The entity [DeleteDomain] looks the identifier up with. *)
Definition delete_lookup (filters : DeleteDomainReq) : Entity :=
  mkEntity "domains" {["domain_name" := DomainName filters]} ∅ ∅ ∅.

(** The event of a Delete. *)
Definition delete_event (filters : DeleteDomainReq) (domainID : string) : Entity :=
  event_entity domainID "deleted"
    ("Domain '" +:+ DomainName filters +:+ "' and its certificates deleted")
    (UserID filters).

(** The map of updates [DeleteDomain] fills: the domain under its
    identifier, then each alternative domain under its own. *)
Definition delete_updates (user : string) (now : Time) (domainID : string)
  (subs : list string) : gmap string Entity :=
  foldl (λ m id, <[id := deleted_entity "alternative_domains" user now]> m)
        {[domainID := deleted_entity "domains" user now]} subs.

(** The writes of a Delete that commits. *)
Definition delete_writes (env : Env) (filters : DeleteDomainReq) (now : Time)
  (domainID : string) (subs : list string) (certID evid : string) : list Write :=
  map update_of (range_order env (delete_updates (UserID filters) now domainID subs))
  ++ (if decide (certID ≠ "") then
        map update_of
          (range_order env {[certID := deleted_certificate_entity (UserID filters) now]})
      else [])
  ++ [WInsert evid (delete_event filters domainID)].

(** The domain a Delete request names, in the rows [rows]. *)
Definition delete_target (filters : DeleteDomainReq) (rows : Db) : string :=
  if decide (DomainName filters ≠ "")
  then first_id (filter (matches (delete_lookup filters)) rows)
  else DomainID filters.

(** The alternative domains and the certificate a Delete finds. *)
Definition subdomains_of (domainID : string) (rows : Db) : list string :=
  map row_id (filter (is_subdomain_of domainID) rows).

Definition certificate_of (domainID : string) (rows : Db) : string :=
  first_id (filter (is_certificate_of domainID) rows).

(** How a Delete can end. With an error, the rows, the files and the
    issuances are those it found, and no cleanup is started. Without one,
    the rows are those it found with the writes of its one transaction, and
    one cleanup is started for the name of the request. It does not
    panic. *)
Definition delete_outcome (env : Env) (filters : DeleteDomainReq) (w : World)
  (o : Outcome error) : Prop :=
  let domainID := delete_target filters (db w) in
  let subs := subdomains_of domainID (db w) in
  let certID := certificate_of domainID (db w) in
  match o with
  | Return (Some e) w' =>
      db w' = db w ∧ files w' = files w ∧ issued w' = issued w ∧
      goroutines w' = goroutines w
  | Return None w' =>
      (DomainName filters ≠ "" → domainID ≠ "") ∧
      db_fault env (OpInsert (delete_event filters domainID)) = None ∧
      db w' = apply_writes
                (delete_writes env filters (clock w) domainID subs certID
                   (gen_id env (next_id w)))
                (db w) ∧
      goroutines w' = goroutines w ++ [go_cleanup (DomainName filters)] ∧
      files w' = files w ∧ issued w' = issued w ∧ clock w' = (clock w + 1)%Z
  | Panic _ _ => False
  end.

(** The row [r] with the columns of [e] written over its own. *)
Definition marked (e : Entity) (r : Row) : Row :=
  mkRow (row_id r) (merge_columns e (row_data r)).

(** What a committed Delete does to a row: the domain and its alternative
    domains that are not deleted take the status [deleted] and the instant
    of the deletion; the certificate takes the instant, and keeps its
    status; every other row stays as it is. *)
Definition mark_deleted (user : string) (now : Time) (domainID certID : string)
  (r : Row) : Row :=
  if decide (in_table "domains" r ∧ row_id r = domainID) then
    marked (deleted_entity "domains" user now) r
  else if decide (is_subdomain_of domainID r) then
    marked (deleted_entity "alternative_domains" user now) r
  else if decide (in_table "certificates" r ∧ row_id r = certID ∧ certID ≠ "") then
    marked (deleted_certificate_entity user now) r
  else r.

(** One entry of a map of updates, applied to a row; it [hits] the row
    when it bears the row's identifier and is for its table. *)
Definition update_by (r : Row) (x : string * Entity) : Row := update_row x.2 x.1 r.

Definition hits (r : Row) (x : string * Entity) : Prop :=
  row_id r = x.1 ∧ EntityName (row_data r) = EntityName x.2.

(** [env], but with the failures of the inserts into the events decided by
    [f]. *)
Definition with_event_faults (f : Entity → error) (env : Env) : Env :=
  mkEnv (λ op, match op with
               | OpInsert e =>
                   if decide (EntityName e = "events") then f e
                   else db_fault env op
               | _ => db_fault env op
               end)
        (gen_id env) (range_order env) (acme env) (fs_fault env)
        (docker_exec env) (domains_list env) (domains_count env).

(** The event of a Renew that succeeds. *)
Definition renewed_event (domain : DomainsDTO) : Entity :=
  event_entity (ID domain) "renewed"
    ("Certificate for '" +:+ dto_DomainName domain +:+ "' renewed") "system-renewal".

(** The call did not return nil: it returned an error, or it panicked. *)
Definition not_nil (o : Outcome error) : Prop :=
  match o with Return None _ => False | _ => True end.

(** The rows, the open transactions and the two counters are those of [w]. *)
Definition same_store (w w' : World) : Prop :=
  db w' = db w ∧ txs w' = txs w ∧ next_id w' = next_id w ∧ next_tx w' = next_tx w.

(** A call that touches neither the rows nor the transactions. *)
Definition keeps_store {A} (m : Go A) : Prop := ∀ w, same_store w (after (m w)).

(** The entities [CreateDomain] inserts. *)
Definition create_domain_entity (req : CreateDomainReq) : Entity :=
  mkEntity "domains"
    (<["domain_name" := Domain req]>
       (<["dns_provider" := DNSProvider req]>
          (<["status" := "pending"]>
             (<["verification_method" := VerificationMethod req]>
                (<["nginx_container_name" := NginxContainerName req]>
                   {["created_by" := CreatedBy req]})))))
    ∅ ∅ {["auto_renew" := AutoRenew req]}.

Definition create_alternative_entity (req : CreateDomainReq) (domainID sub : string)
  : Entity :=
  mkEntity "alternative_domains"
    (<["domain_id" := domainID]>
       (<["domain_name" := sub]> {["created_by" := CreatedBy req]}))
    ∅ ∅ ∅.

Definition create_certificate_entity (req : CreateDomainReq) (domainID : string)
  (paths : CertificatePaths) (data : CertificateData) : Entity :=
  mkEntity "certificates"
    (<["domain_id" := domainID]>
       (<["issuer" := "Let's Encrypt"]>
          (<["cert_path" := paths_Cert paths]>
             (<["key_path" := paths_Key paths]>
                (<["chain_path" := paths_Chain paths]>
                   {["created_by" := CreatedBy req]})))))
    ∅ (<["valid_from" := ValidFrom data]> {["valid_to" := ValidTo data]}) ∅.

(** An insert into the table [table]. *)
Definition inserts_into (table : string) (wr : Write) : Prop :=
  match wr with
  | WInsert _ e => EntityName e = table
  | WUpdate _ _ => False
  end.

(** What a Create that returns an identifier and no error has done: its
    check found the name free, and the rows are those it found, with the
    writes of its transaction (the domain, its alternative domains, its
    certificate, the domain made active) and after them the event rows
    written outside it. *)
Definition created (env : Env) (req : CreateDomainReq) (w : World)
  (id : string) (w' : World) : Prop :=
  db_fault env (OpIsDomainExists (Domain req)) = None ∧
  ¬ Exists (is_live_domain (Domain req)) (db w) ∧
  ∃ alts cid paths data evs,
    Forall (inserts_into "alternative_domains") alts ∧
    Forall (in_table "events") evs ∧
    db w' = apply_writes
              ([WInsert id (create_domain_entity req)] ++ alts ++
               [WInsert cid (create_certificate_entity req id paths data);
                WUpdate (status_entity "domains" "active" (CreatedBy req)) id])
              (db w) ++ evs.

(** How a Create can end, as far as its success goes. *)
Definition create_outcome (env : Env) (req : CreateDomainReq) (w : World)
  (o : Outcome (string * error)) : Prop :=
  match o with
  | Return (id, None) w' => created env req w id w'
  | _ => True
  end.

(** A call that returns an error or panics. *)
Definition no_success (m : Go (string * error)) : Prop :=
  ∀ w, match m w with Return (_, None) _ => False | _ => True end.

(** A row of the domains table with the name [name], deleted or not. *)
Definition is_domain_named (name : string) (r : Row) : Prop :=
  in_table "domains" r ∧ has_string "domain_name" name r.

#[global] Instance is_domain_named_dec n r : Decision (is_domain_named n r).
Proof. unfold is_domain_named. apply _. Defined.

(** The value of a parameter, when it has the dynamic type asked for. *)
Definition as_string (v : any) : option string :=
  match v with any_string s => Some s | _ => None end.
Definition as_int (v : any) : option Z :=
  match v with any_int z => Some z | _ => None end.
Definition as_time (v : any) : option Time :=
  match v with any_time t => Some t | _ => None end.
Definition as_bool (v : any) : option bool :=
  match v with any_bool b => Some b | _ => None end.

(** The elements of a list of names in the order of their first
    occurrence, each once. *)
Fixpoint first_occurrences (l : list string) : list string :=
  match l with
  | [] => []
  | x :: rest => x :: filter (λ y, y ≠ x) (first_occurrences rest)
  end.

(** The names a list of domains holds once they are trimmed, the empty
    ones left out. *)
Definition trimmed_names (text : Strings) (domains : list string) : list string :=
  filter (λ d, d ≠ "") (map (TrimSpace text) domains).

(** The identifiers the store hands out for [k] inserts, from the counter
    [n] on. *)
Definition fresh_ids (env : Env) (n k : nat) : list string :=
  map (gen_id env) (seq n k).

(** The inserts of the entities [es], in their order, the counter of the
    identifiers being [n] before them. *)
Definition inserts_of (env : Env) (n : nat) (es : list Entity) : list Write :=
  zip_with WInsert (fresh_ids env n (length es)) es.

(** None of the inserts, or of the updates, is refused by the store. *)
Definition inserts_pass (env : Env) (es : list Entity) : Prop :=
  Forall (λ e, db_fault env (OpInsert e) = None) es.
Definition updates_pass (env : Env) (l : list (string * Entity)) : Prop :=
  Forall (λ x, db_fault env (OpUpdate x.2 x.1) = None) l.

(** The values of Go's [int]. *)
Definition in_int (z : Z) : Prop := (- 2 ^ 63 ≤ z < 2 ^ 63)%Z.

(** The filters [GetDomains] hands to the repository. *)
Definition repo_filters (filters : GetDomainsReq) : DomainsFilters :=
  mkDomainsFilters (Some (PageSize filters))
    (Some ((Page filters - 1) * PageSize filters)%Z)
    (get_DomainName filters) (get_Status filters) (get_UserID filters).

(** The world [w'] is [w] with more lines in the log, and nothing else. *)
Definition only_logged (w w' : World) : Prop :=
  w' = set_logged (logged w') w.

(** A call that leaves the committed rows as they are, however it ends. *)
Definition keeps_rows {A} (m : Go A) : Prop := ∀ w, db (after (m w)) = db w.

(** The rows of [w'] are those of [w], or those and one more row after
    them: an event of the type [failed]. *)
Definition at_most_a_failed_event (w w' : World) : Prop :=
  db w' = db w ∨
  ∃ r, db w' = db w ++ [r] ∧ in_table "events" r ∧
       has_string "event_type" "failed" r.

(** A Create, or the rest of one, that reports success or else leaves the
    rows alone but for a [failed] event, and returns no identifier. *)
Definition fails_clean (m : Go (string * error)) : Prop :=
  ∀ w, match m w with
       | Return (_, None) _ => True
       | Return (id, Some _) w' => id = "" ∧ at_most_a_failed_event w w'
       | Panic _ w' => at_most_a_failed_event w w'
       end.

(** A call that returns, without an error. *)
Definition succeeds (m : Go (string * error)) : Prop :=
  ∀ w, ∃ id w', m w = Return (id, None) w'.

(** The update of the certificate a Renew builds once the files are
    saved. *)
Definition renew_certificate_entity (paths : CertificatePaths)
  (data : CertificateData) (updated_at : Time) : Entity :=
  mkEntity "certificates"
    (<["cert_path" := paths_Cert paths]>
       (<["key_path" := paths_Key paths]>
          (<["chain_path" := paths_Chain paths]>
             {["updated_by" := "system-renewal"]})))
    ∅
    (<["valid_from" := ValidFrom data]>
       (<["valid_to" := ValidTo data]> {["updated_at" := updated_at]}))
    ∅.

(** The writes of a Renew that commits: the update of the certificates
    table and the update of the domain, both under the identifier of the
    domain, and the event. *)
Definition renew_writes (domain : DomainsDTO) (paths : CertificatePaths)
  (data : CertificateData) (updated_at : Time) (evid : string) : list Write :=
  [WUpdate (renew_certificate_entity paths data updated_at) (ID domain);
   WUpdate (status_entity "domains" "active" "system-renewal") (ID domain);
   WInsert evid (renewed_event domain)].

(** A call that does not return nil, and leaves the committed rows as
    they are. *)
Definition fails_back (m : Go error) : Prop :=
  ∀ w, match m w with
       | Return None _ => False
       | Return (Some _) w' => db w' = db w
       | Panic _ w' => db w' = db w
       end.

(** How a Renew can end: with the rows as it found them and an error or a
    panic, or with the writes of its one transaction committed, and then
    with nil or with the error of the reload. *)
Definition renew_outcome (env : Env) (domain : DomainsDTO) (w : World)
  (o : Outcome error) : Prop :=
  match o with
  | Return ret w' =>
      (ret ≠ None ∧ db w' = db w) ∨
      (∃ paths data updated_at,
         db w' = apply_writes
                   (renew_writes domain paths data updated_at
                      (gen_id env (next_id w)))
                   (db w) ∧
         (ret = None ∨
          ∃ e, ret = Some (wrap "certificate renewed but nginx reload failed" e)))
  | Panic _ w' => db w' = db w
  end.

#[global] Instance passed_over_dec now d : Decision (passed_over now d).
Proof. unfold passed_over. apply _. Defined.


(** The line the sweep logs before it renews a domain. *)
Definition triggered (w : World) : World :=
  set_logged
    (logged w
     ++ [(Info, "Domain %s is approaching expiration (%s). Renewal triggered.")])
    w.

(** The directory of a domain under the storage directory [storage], and
    a file in it. *)
Definition domain_dir (storage domain : string) : Path :=
  mkPath (rooted (Clean storage)) (comps (Clean storage) ++ [domain]).

Definition file_in (dir : Path) (name : string) : Path :=
  mkPath (rooted dir) (comps dir ++ [name]).

(** The names [NewClient] knows, in lower case. *)
Definition supported_providers : list string :=
  ["cloudflare"; "hetzner"; "digitalocean"; "route53"].

(** The handle [NewClient] makes for a configured API. *)
Definition handle_of (cfg : utils.Config) (api : utils.API) : Client :=
  mkClient (utils.api_Name api) (utils.api_URL api) (utils.api_Key api)
    (utils.Certs cfg).

(** A configured API that can get a handle: it has a name and a URL, and
    its name is that of a provider [NewClient] knows, whatever the case of
    its letters. *)
Definition usable (text : Strings) (api : utils.API) : Prop :=
  utils.api_Name api ≠ "" ∧ utils.api_URL api ≠ "" ∧
  ToLower text (utils.api_Name api) ∈ supported_providers.

(** The files of [w] are still there in [w']. *)
Definition files_kept (w w' : World) : Prop :=
  ∀ p, p ∈ files w → p ∈ files w'.

(** The variable that holds the key of a configured API, and the APIs
    with their keys read from the environment. *)
Definition key_variable (text : Strings) (api : utils.API) : string :=
  "API_KEY_" +:+ ToUpper text (utils.api_Name api).

Definition with_keys (text : Strings) (proc : utils.Process)
  (apis : list utils.API) : list utils.API :=
  map (λ api, utils.mkAPI (utils.api_Name api) (utils.api_URL api)
                (utils.Getenv proc (key_variable text api))) apis.

(** A call that returns, with a result that satisfies [P]: it does not
    panic. *)
Definition returns_with {A} (P : A → Prop) (m : Go A) : Prop :=
  ∀ w, ∃ a w', m w = Return a w' ∧ P a.

Definition returns {A} (m : Go A) : Prop := returns_with (λ _, True) m.

(** A result with no error holds a value. *)
Definition value_or_error {A} (r : option A * error) : Prop :=
  r.2 = None → is_Some r.1.


(** * Properties *)

(** ** The provider selector *)

Lemma select_loop_not_found cs name :
  (∀ c, c ∈ cs → Name c ≠ name) →
  select_loop cs name = (None, Some "client not found").
Proof.
  induction cs as [|c cs IH]; intros Hno; [reflexivity|].
  cbn. rewrite decide_False by (apply Hno; left).
  apply IH. intros c' Hc'. apply Hno. by right.
Qed.

Lemma select_loop_found cs name :
  (∃ c, c ∈ cs ∧ Name c = name) →
  ∃ before c rest,
    cs = before ++ c :: rest ∧ Name c = name ∧
    (∀ c', c' ∈ before → Name c' ≠ name) ∧
    select_loop cs name = (Some c, None).
Proof.
  induction cs as [|c0 cs IH]; intros (c & Hin & Hname).
  - by apply elem_of_nil in Hin.
  - cbn. destruct (decide (Name c0 = name)) as [Heq|Hne].
    + exists [], c0, cs. split_and!; try done. intros c' Hc'. by apply elem_of_nil in Hc'.
    + apply elem_of_cons in Hin as [->|Hin]; [done|].
      destruct IH as (before & c1 & rest & -> & Hn & Hbefore & Hsel); [by eauto|].
      exists (c0 :: before), c1, rest. split_and!; try done.
      intros c' [->|Hc']%elem_of_cons; [done|by apply Hbefore].
Qed.

(** C8. With a registry that is not empty, the sentinel name [no] resolves
    to the first registered handle; any other name resolves to the first
    handle whose [Name] is exactly that name, and to the error
    [client not found] with a nil handle when no handle bears it. The
    lookup leaves the world as it was. *)
Theorem SelectClientByName_resolves (s : Service) (name : string) (w : World) :
  client s ≠ [] →
  (name = "no" →
     ∃ first rest, client s = first :: rest ∧
       SelectClientByName s name w = Return (Some first, None) w) ∧
  (name ≠ "no" → (∃ c, c ∈ client s ∧ Name c = name) →
     ∃ before c rest,
       client s = before ++ c :: rest ∧ Name c = name ∧
       (∀ c', c' ∈ before → Name c' ≠ name) ∧
       SelectClientByName s name w = Return (Some c, None) w) ∧
  (name ≠ "no" → (∀ c, c ∈ client s → Name c ≠ name) →
     SelectClientByName s name w = Return (None, Some "client not found") w).
Proof.
  intros Hne. split_and!.
  - intros ->. unfold SelectClientByName. rewrite decide_True by done.
    destruct (client s) as [|c cs]; [done|]. by exists c, cs.
  - intros Hname Hex. unfold SelectClientByName. rewrite decide_False by done.
    destruct (select_loop_found _ _ Hex) as (before & c & rest & ? & ? & ? & Hsel).
    exists before, c, rest. rewrite Hsel. by split_and!.
  - intros Hname Hno. unfold SelectClientByName. rewrite decide_False by done.
    by rewrite select_loop_not_found.
Qed.

Lemma SelectClientByName_resolves_witness :
  (∃ first rest, client examples.service = first :: rest ∧
     SelectClientByName examples.service "no" examples.nothing
     = Return (Some first, None) examples.nothing) ∧
  SelectClientByName examples.service "route53" examples.nothing
  = Return (None, Some "client not found") examples.nothing.
Proof.
  destruct (SelectClientByName_resolves examples.service "no" examples.nothing)
    as (Hno & _ & _); [done|].
  destruct (SelectClientByName_resolves examples.service "route53" examples.nothing)
    as (_ & _ & Hother); [done|].
  split; [by apply Hno|].
  apply Hother; [done|]. intros c Hc. vm_compute in Hc.
  repeat (apply elem_of_cons in Hc as [->|Hc]; [done|]). by apply elem_of_nil in Hc.
Defined.

(** ** Pagination of the domain list *)

(** C4. The page count of [GetDomains] is computed from the page number, not
    from the page size: with four stored domains and three to a page, the
    first page reports one page in all and no next page, where the ceiling
    of 4/3 is two pages and a next page 2. *)
Theorem GetDomains_page_count_is_not_the_ceiling :
  ∃ resp w,
    GetDomains examples.four_domains (mkGetDomainsReq 1 3 "" "" "") examples.nothing
    = Return (resp, None) w ∧
    TotalElements resp = 4%Z ∧
    TotalPages resp = 1%Z ∧ HasNext resp = false ∧ NextPage resp = 0%Z ∧
    ceiling_div 4 3 = 2%Z.
Proof. eexists _, _. vm_compute. split_and!; reflexivity. Qed.

(** ** Stepping through a call *)

Lemma bind_Return {A B} (m : Go A) (k : A → Go B) w a w' :
  m w = Return a w' → (m ≫= k) w = k a w'.
Proof. unfold mbind, Go_bind. by intros ->. Qed.

Lemma bind_Panic {A B} (m : Go A) (k : A → Go B) w msg w' :
  m w = Panic msg w' → (m ≫= k) w = Panic msg w'.
Proof. unfold mbind, Go_bind. by intros ->. Qed.

Lemma bind_log {B} l msg (k : unit → Go B) w :
  (log l msg ≫= k) w = k tt (set_logged (logged w ++ [(l, msg)]) w).
Proof. reflexivity. Qed.

Lemma bind_ret {A B} (a : A) (k : A → Go B) w : (mret a ≫= k) w = k a w.
Proof. reflexivity. Qed.

Lemma ret_eq {A} (a : A) w : (mret a : Go A) w = Return a w.
Proof. reflexivity. Qed.

(** Reading a field of a world that was written. *)
Ltac fields :=
  cbn [db txs next_tx next_id clock files issued reloaded goroutines logged
       set_db set_txs set_next_tx set_next_id set_clock set_files set_issued
       set_reloaded set_goroutines set_logged] in *.

(** Every case of a bind: the first call returned, or it panicked. *)
Lemma bind_cases {A B} (m : Go A) (k : A → Go B) w :
  (∃ a w', m w = Return a w' ∧ (m ≫= k) w = k a w') ∨
  (∃ msg w', m w = Panic msg w' ∧ (m ≫= k) w = Panic msg w').
Proof.
  unfold mbind, Go_bind. destruct (m w) as [a w'|msg w']; [left|right]; eauto.
Qed.

(** ** Create: a name that is taken *)

Lemma CreateDomain_taken env s req w :
  db_fault env (OpIsDomainExists (Domain req)) = None →
  Exists (is_live_domain (Domain req)) (db w) →
  CreateDomain env s req w
  = Return ("", Some "domain already exists")
      (set_logged (logged w ++ [(Debug, "CreateDomain: start")]) w).
Proof.
  intros Hf Hex. unfold CreateDomain. rewrite bind_log.
  erewrite bind_Return; last first.
  { unfold IsDomainExists. rewrite Hf. cbn. by rewrite bool_decide_eq_true_2. }
  reflexivity.
Qed.

(** ** The entities the workflows build *)

Lemma new_entity_event d t m u w :
  new_entity "events"
    (<["domain_id" := any_string d]>
       (<["event_type" := any_string t]>
          (<["message" := any_string m]> {["created_by" := any_string u]}))) w
  = Return (event_entity d t m u) w.
Proof. reflexivity. Qed.

Lemma new_entity_update_failed w :
  new_entity "domains" update_failed_params w
  = Return (status_entity "domains" "update_failed" "system-renewal") w.
Proof. reflexivity. Qed.

Lemma new_entity_deleted table user now w :
  new_entity table
    (<["status" := any_string "deleted"]>
       (<["deleted_by" := any_string user]>
          (<["updated_by" := any_string user]> {["deleted_at" := any_time now]}))) w
  = Return (deleted_entity table user now) w.
Proof. reflexivity. Qed.

Lemma new_entity_deleted_certificate user now w :
  new_entity "certificates"
    (<["deleted_by" := any_string user]>
       (<["updated_by" := any_string user]> {["deleted_at" := any_time now]})) w
  = Return (deleted_certificate_entity user now) w.
Proof. reflexivity. Qed.

(** The event writer outside a transaction: one row more, or none. *)
Lemma writeEvent_nil env d t m u w :
  writeEvent env None d t m u w
  = match db_fault env (OpInsert (event_entity d t m u)) with
    | Some e => Return (Some (wrap "failed to write event" e)) w
    | None =>
        Return None
          (set_db (db w ++ [mkRow (gen_id env (next_id w)) (event_entity d t m u)])
             (set_next_id (S (next_id w)) w))
    end.
Proof.
  unfold writeEvent. erewrite bind_Return by apply new_entity_event.
  unfold InsertTx. destruct (db_fault env _); reflexivity.
Qed.

Lemma safeWriteEvent_eq env user d t m w :
  safeWriteEvent env user d t m w
  = match db_fault env (OpInsert (event_entity d t m user)) with
    | Some e =>
        Return (Some (wrap "failed to write event" e))
          (set_logged (logged w ++ [(Error, "event writing failed (non-fatal):")]) w)
    | None =>
        Return None
          (set_db (db w ++ [mkRow (gen_id env (next_id w)) (event_entity d t m user)])
             (set_next_id (S (next_id w)) w))
    end.
Proof.
  unfold safeWriteEvent, mbind, Go_bind. rewrite writeEvent_nil.
  destruct (db_fault env _); reflexivity.
Qed.

(** The selector reads the registry only. *)
Lemma SelectClientByName_pure s name w r w' :
  SelectClientByName s name w = Return r w' →
  w' = w ∧ ∀ v, SelectClientByName s name v = Return r v.
Proof.
  unfold SelectClientByName. destruct (decide _).
  - destruct (client s); [done|]. cbn. intros [= <- <-]. done.
  - cbn. intros [= <- <-]. done.
Qed.

Lemma SelectClientByName_handle s name w c err w' :
  SelectClientByName s name w = Return (Some c, err) w' → err = None.
Proof.
  unfold SelectClientByName. destruct (decide (name = "no")).
  - destruct (client s); [done|]. by intros [= _ <- _].
  - rewrite ret_eq. intros [= Hsel _].
    induction (client s) as [|c0 cs IH]; [done|]. cbn in Hsel.
    destruct (decide (Name c0 = name)); [congruence|by apply IH].
Qed.

Lemma CreateCertificate_eq env c domain san w :
  CreateCertificate env (Some c) domain san w
  = match acme env (Name c) domain san with
    | inr msg =>
        Return (None, Some msg)
          (set_issued (issued w ++ [(Name c, domain, san)])
             (set_logged (logged w ++ [(Debug, "CreateCertificate(): called")]) w))
    | inl data =>
        Return (Some data, None)
          (set_logged
             ((logged w ++ [(Debug, "CreateCertificate(): called")])
              ++ [(Debug, "CreateCertificate(): completed successfully")])
             (set_issued (issued w ++ [(Name c, domain, san)]) w))
    end.
Proof.
  unfold CreateCertificate. rewrite bind_log.
  destruct (acme env _ _ _); reflexivity.
Qed.

(** ** Create: the issuance fails *)

(** C6. When the issuance call of Create fails, Create returns the issuance
    error and an empty identifier; one issuance call was made; no file and no
    transaction is touched; no row of a table other than the events is
    written; and the event writer is called once, for a [failed] event with
    an empty domain identifier: that row is the one row added, or, when its
    insert fails, no row is added and the failure is logged. *)
Theorem CreateDomain_issuance_failure env s req w c msg :
  db_fault env (OpIsDomainExists (Domain req)) = None →
  ¬ Exists (is_live_domain (Domain req)) (db w) →
  SelectClientByName s (DNSProvider req) w = Return (Some c, None) w →
  acme env (Name c) (Domain req) (AltDomains req) = inr msg →
  let event := event_entity "" "failed" ("Certificate creation failed: " +:+ msg)
                 (CreatedBy req) in
  ∃ w',
    CreateDomain env s req w
    = Return ("", Some (wrap "certificate creation failed" msg)) w' ∧
    issued w' = issued w ++ [(Name c, Domain req, AltDomains req)] ∧
    files w' = files w ∧ txs w' = txs w ∧
    filter not_an_event (db w') = filter not_an_event (db w) ∧
    match db_fault env (OpInsert event) with
    | None => db w' = db w ++ [mkRow (gen_id env (next_id w)) event]
    | Some _ =>
        db w' = db w ∧ (Error, "event writing failed (non-fatal):") ∈ logged w'
    end.
Proof.
  intros Hcheck Hfree Hsel Hacme event.
  apply SelectClientByName_pure in Hsel as [_ Hsel].
  unfold CreateDomain. rewrite bind_log.
  erewrite bind_Return; last first.
  { unfold IsDomainExists. rewrite Hcheck. cbn. by rewrite bool_decide_eq_false_2. }
  cbn iota. erewrite bind_Return by apply Hsel.
  cbn iota. erewrite bind_Return; last first.
  { rewrite CreateCertificate_eq, Hacme. reflexivity. }
  cbn iota. rewrite bind_log.
  unfold mbind at 1, Go_bind at 1. rewrite safeWriteEvent_eq. fold event.
  destruct (db_fault env (OpInsert event)) as [e|] eqn:Hev; cbn.
  - eexists. split_and!; try reflexivity.
    apply elem_of_app. right. apply list_elem_of_singleton. reflexivity.
  - eexists. split_and!; try reflexivity.
    fields. rewrite filter_app, filter_cons_False, filter_nil, app_nil_r; [done|].
    unfold not_an_event. cbn. tauto.
Qed.

(** ** Renew: the sweep and its threshold *)

Lemma sweep_passes_over env s now d rest w :
  passed_over now d →
  RenewExpiringCertificates_loop env s now (d :: rest) w
  = RenewExpiringCertificates_loop env s now rest w.
Proof.
  intros Hskip. cbn [RenewExpiringCertificates_loop].
  destruct (decide (det_Status (Details d) = "deleted")) as [|Hlive]; [done|].
  destruct (det_AutoRenew (Details d)) eqn:Hauto; cbn [negb]; [|reflexivity].
  destruct Hskip as [?|[?|Hearly]]; [congruence..|].
  unfold Time_Before, Time_Add.
  replace (det_CertValidTo (Details d) + -30 * 24 * Hour)%Z
    with (det_CertValidTo (Details d) - thirty_days)%Z by (unfold thirty_days; lia).
  by rewrite (proj2 (Z.ltb_lt _ _) Hearly).
Qed.

Lemma sweep_passes_over_all env s now ds w :
  Forall (passed_over now) ds →
  RenewExpiringCertificates_loop env s now ds w = Return tt w.
Proof.
  induction 1 as [|d ds Hd _ IH]; [reflexivity|].
  by rewrite sweep_passes_over.
Qed.

(** C5. A domain that is deleted, or whose [auto_renew] flag is off, or whose
    certificate ends more than thirty days after the sweep's instant, is
    passed over: the sweep goes on with the next domain in the same world,
    and a sweep that lists only such domains ends in the world it started
    in but for the clock it read, so without an issuance call, a
    transaction or a write. *)
Theorem renewal_passes_over env s now d rest ds w :
  passed_over now d →
  Forall (passed_over (clock w)) ds →
  db_fault env (OpGetDomainsList (mkDomainsFilters None None "" "" "")) = None →
  domains_list env (db w) (mkDomainsFilters None None "" "" "") = ds →
  RenewExpiringCertificates_loop env s now (d :: rest) w
  = RenewExpiringCertificates_loop env s now rest w ∧
  RenewExpiringCertificates_loop env s now [d] w = Return tt w ∧
  RenewExpiringCertificates env s w = Return tt (set_clock (clock w + 1)%Z w).
Proof.
  intros Hd Hds Hlist Hrows. split_and!.
  - by apply sweep_passes_over.
  - apply sweep_passes_over_all. by constructor.
  - unfold RenewExpiringCertificates.
    erewrite bind_Return; last first.
    { unfold GetDomainsList. rewrite Hlist, Hrows. reflexivity. }
    cbn iota. erewrite bind_Return by reflexivity.
    by apply sweep_passes_over_all.
Qed.

(** ** Renew: a provider that is not registered *)

Lemma BeginTx_ok env w :
  db_fault env OpBegin = None →
  BeginTx env w
  = Return (Some (next_tx w), None)
      (set_next_tx (S (next_tx w)) (set_txs (<[next_tx w := []]> (txs w)) w)).
Proof. unfold BeginTx. by intros ->. Qed.

Lemma Rollback_open env h ws w :
  txs w !! h = Some ws →
  Rollback env (Some h) w
  = Return (db_fault env OpRollback) (set_txs (delete h (txs w)) w).
Proof. unfold Rollback. by intros ->. Qed.

(** C10. [RenewDomainCertificate] does not look at the error of the provider
    lookup. For a provider name that is not the sentinel and that no
    registered handle bears, the lookup returns a nil handle with
    [client not found]; the workflow then either had failed to open its
    transaction, or it calls the issuance on the nil handle and panics with
    a nil dereference: its transaction is rolled back on the way out, no
    issuance is recorded, and it returns no error of its own. *)
Theorem RenewDomainCertificate_unregistered_provider env s d w :
  det_DNSProvider (Details d) ≠ "no" →
  (∀ c, c ∈ client s → Name c ≠ det_DNSProvider (Details d)) →
  SelectClientByName s (det_DNSProvider (Details d)) w
  = Return (None, Some "client not found") w ∧
  match db_fault env OpBegin with
  | Some e =>
      ∃ w', RenewDomainCertificate env s d w
            = Return (Some (wrap "failed to begin tx" e)) w'
  | None =>
      ∃ w', RenewDomainCertificate env s d w = Panic nil_deref w' ∧
            db w' = db w ∧ issued w' = issued w ∧ files w' = files w ∧
            txs w' !! next_tx w = None
  end.
Proof.
  intros Hname Hnone.
  assert (Hsel : ∀ v, SelectClientByName s (det_DNSProvider (Details d)) v
                      = Return (None, Some "client not found") v).
  { intros v. unfold SelectClientByName. rewrite decide_False by done.
    by rewrite select_loop_not_found. }
  split; [apply Hsel|].
  unfold RenewDomainCertificate. rewrite bind_log.
  destruct (db_fault env OpBegin) as [e|] eqn:Hbegin.
  - erewrite bind_Return; last first.
    { unfold BeginTx. rewrite Hbegin. reflexivity. }
    eexists. reflexivity.
  - erewrite bind_Return by (by apply BeginTx_ok).
    cbn iota zeta. rewrite bind_log. erewrite bind_Return by apply Hsel.
    cbn iota. erewrite bind_Panic; last first.
    { unfold unwinding, CreateCertificate, panic, RenewDomainCertificate_deferred.
      rewrite bind_log. erewrite bind_Return; last first.
      { eapply Rollback_open. fields. apply lookup_insert_eq. }
      reflexivity. }
    eexists. split; [reflexivity|]. fields. split_and!; try reflexivity.
    apply lookup_delete_eq.
Qed.

(** ** Paths below the storage directory *)

Lemma clean_step_plain root stack c :
  c ≠ "" → c ≠ "." → c ≠ ".." → clean_step root stack c = c :: stack.
Proof.
  intros ? ? ?. unfold clean_step.
  rewrite decide_False by (intros [?|?]; done). by rewrite decide_False.
Qed.

Lemma clean_step_empty root stack : clean_step root stack "" = stack.
Proof. unfold clean_step. by rewrite decide_True by (by left). Qed.

(** Joining a directory with the empty name gives the directory itself. *)
Lemma Join_empty_name dir :
  dir ≠ "" → Join [dir; ""] = Some (Clean dir).
Proof.
  intros Hdir. cbn [Join]. rewrite decide_False by done.
  unfold Clean, clean_comps. cbn [flat_map split_slash].
  rewrite app_nil_r, fold_left_app. cbn [fold_left].
  by rewrite clean_step_empty.
Qed.

(** Joining it with a plain name gives a path one component below it. *)
Lemma Join_plain_name dir name :
  dir ≠ "" → plain name →
  Join [dir; name]
  = Some (mkPath (rooted (Clean dir)) (comps (Clean dir) ++ [name])).
Proof.
  intros Hdir (Hsplit & ? & ? & ?). cbn [Join]. rewrite decide_False by done.
  unfold Clean, clean_comps. cbn [flat_map rooted comps].
  rewrite Hsplit, app_nil_r, fold_left_app. cbn [fold_left].
  by rewrite clean_step_plain.
Qed.

Lemma JoinTo_plain_name p name :
  plain name →
  JoinTo (Some p) name = Some (mkPath (rooted p) (comps p ++ [name])).
Proof.
  intros (Hsplit & ? & ? & ?). unfold JoinTo. rewrite Hsplit. cbn [fold_left].
  rewrite clean_step_plain by done. cbn [rev]. by rewrite rev_involutive.
Qed.

Lemma under_below p extra :
  under p (mkPath (rooted p) (comps p ++ extra)) = true.
Proof.
  unfold under. apply bool_decide_eq_true_2. split; [done|].
  by apply prefix_app_r.
Qed.

Lemma plain_file_names :
  plain "acme_user.key" ∧ plain "cert.pem" ∧ plain "privkey.pem" ∧
  plain "chain.pem".
Proof. unfold plain. split_and!; done. Qed.

(** ** Writes inside a transaction *)

Lemma set_txs_same w : set_txs (txs w) w = w.
Proof. by destruct w. Qed.

Lemma set_txs_twice a b w : set_txs a (set_txs b w) = set_txs a w.
Proof. reflexivity. Qed.

Lemma write_open h ws wr w :
  txs w !! h = Some ws →
  write (Some h) wr w = Return None (set_txs (<[h := ws ++ [wr]]> (txs w)) w).
Proof. unfold write. by intros ->. Qed.

Lemma UpdateTx_open env h ws e id w :
  txs w !! h = Some ws →
  UpdateTx env (Some h) e id w
  = match db_fault env (OpUpdate e id) with
    | Some msg => Return (Some msg) w
    | None => Return None (set_txs (<[h := ws ++ [WUpdate e id]]> (txs w)) w)
    end.
Proof.
  intros Hopen. unfold UpdateTx. destruct (db_fault env _); [reflexivity|].
  by apply write_open.
Qed.

Lemma InsertTx_open env h ws e w :
  txs w !! h = Some ws →
  InsertTx env (Some h) e w
  = match db_fault env (OpInsert e) with
    | Some msg => Return ("", Some msg) w
    | None =>
        Return (gen_id env (next_id w), None)
          (set_txs (<[h := ws ++ [WInsert (gen_id env (next_id w)) e]]> (txs w))
             (set_next_id (S (next_id w)) w))
    end.
Proof.
  intros Hopen. unfold InsertTx. destruct (db_fault env _); [reflexivity|].
  erewrite bind_Return by reflexivity. erewrite bind_Return by reflexivity.
  erewrite bind_Return by (by eapply write_open). reflexivity.
Qed.

(** The loop of [updateMany] in an open transaction: it stops at the first
    update that fails; when none fails, every update is among the writes
    of the transaction, in the order of the walk. *)
Lemma updateMany_loop_open env h l : ∀ ws w,
  txs w !! h = Some ws →
  ∃ err ws',
    updateMany_loop env (Some h) l w
    = Return err (set_txs (<[h := ws']> (txs w)) w) ∧
    (err = None → ws' = ws ++ map update_of l).
Proof.
  induction l as [|[id e] l IH]; intros ws w Hopen.
  - exists None, ws. split; [|by rewrite app_nil_r].
    cbn. by rewrite insert_id, set_txs_same.
  - cbn [updateMany_loop]. unfold mbind at 1, Go_bind at 1.
    rewrite (UpdateTx_open _ _ _ _ _ _ Hopen).
    destruct (db_fault env (OpUpdate e id)) as [msg|].
    + eexists _, ws. split; [cbn; by rewrite insert_id, set_txs_same|done].
    + destruct (IH (ws ++ [WUpdate e id])
                  (set_txs (<[h := ws ++ [WUpdate e id]]> (txs w)) w))
        as (err & ws' & -> & Hws); [apply lookup_insert_eq|].
      exists err, ws'. split.
      * fields. by rewrite insert_insert_eq.
      * intros ->. rewrite Hws by done. cbn [map]. by rewrite <- app_assoc.
Qed.

Lemma range_order_singleton env k (e : Entity) :
  range_ok env → range_order env {[k := e]} = [(k, e)].
Proof.
  intros Hok. specialize (Hok {[k := e]}). rewrite map_to_list_singleton in Hok.
  by apply Permutation_singleton_r in Hok.
Qed.

(** ** Delete: every way it can end *)

Lemma DeleteDomain_subs_eq filters now subs : ∀ m w,
  DeleteDomain_subs filters now subs m w
  = Return (foldl (λ m id, <[id := deleted_entity "alternative_domains"
                                     (UserID filters) now]> m) m subs) w.
Proof.
  induction subs as [|id subs IH]; intros m w; [reflexivity|].
  cbn [DeleteDomain_subs foldl].
  erewrite bind_Return by apply new_entity_deleted. apply IH.
Qed.

(** What the deferred function of [DeleteDomain] leaves when the result is
    an error: the same rows, files and issuances, and the error. *)
Lemma DeleteDomain_leaves_error env h e w :
  ∃ w', (DeleteDomain_deferred env (Some h) (Some e) ≫= λ _, mret (Some e)) w
        = Return (Some e) w' ∧
        db w' = db w ∧ files w' = files w ∧ issued w' = issued w ∧
        goroutines w' = goroutines w ∧ txs w' !! h = None.
Proof.
  unfold DeleteDomain_deferred, mbind, Go_bind, Rollback, log, modify. fields.
  destruct (txs w !! h) as [ws|] eqn:Hopen.
  - destruct (db_fault env OpRollback); cbn; eexists; split_and!;
      try reflexivity; fields; apply lookup_delete_eq.
  - cbn. eexists; split_and!; try reflexivity; fields; done.
Qed.

Lemma GetIDByNameTx_fresh env h e w :
  txs w !! h = Some [] →
  GetIDByNameTx env (Some h) e w
  = match db_fault env (OpGetIDByName e) with
    | Some msg => Return ("", Some msg) w
    | None => Return (first_id (filter (matches e) (db w)), None) w
    end.
Proof. intros Hopen. unfold GetIDByNameTx, view. by rewrite Hopen. Qed.

Lemma Commit_open env h ws w :
  txs w !! h = Some ws →
  Commit env (Some h) w
  = match db_fault env OpCommit with
    | Some e => Return (Some e) (set_txs (delete h (txs w)) w)
    | None =>
        Return None (set_txs (delete h (txs w)) (set_db (apply_writes ws (db w)) w))
    end.
Proof. unfold Commit. by intros ->. Qed.

Ltac delete_fails h :=
  match goal with
  | |- delete_outcome _ _ _
         ((DeleteDomain_deferred ?env (Some h) (Some ?e) ≫= _) ?W) =>
      let w' := fresh "w'" in
      let Hdb := fresh "Hdb" in
      let Hfiles := fresh "Hfiles" in
      let Hiss := fresh "Hiss" in
      let Hgo := fresh "Hgo" in
      destruct (DeleteDomain_leaves_error env h e W)
        as (w' & -> & Hdb & Hfiles & Hiss & Hgo & _);
      unfold delete_outcome; rewrite Hdb, Hfiles, Hiss, Hgo; fields; done
  end.

Lemma DeleteDomain_resolution env h filters w :
  txs w !! h = Some [] →
  (if decide (DomainName filters ≠ "")
   then GetIDByNameTx env (Some h)
          (mkEntity "domains" {["domain_name" := DomainName filters]} ∅ ∅ ∅)
   else mret (DomainID filters, None)) w
  = match (if decide (DomainName filters ≠ "")
           then db_fault env (OpGetIDByName (delete_lookup filters))
           else None) with
    | Some msg => Return ("", Some msg) w
    | None => Return (delete_target filters (db w), None) w
    end.
Proof.
  intros Hopen. unfold delete_target, delete_lookup.
  destruct (decide (DomainName filters ≠ "")); [|reflexivity].
  rewrite GetIDByNameTx_fresh by done.
  destruct (db_fault env _); reflexivity.
Qed.

Lemma GetListOfSubDomains_eq env domainID w :
  GetListOfSubDomains env domainID w
  = match db_fault env (OpGetListOfSubDomains domainID) with
    | Some msg =>
        Return ([], Some msg)
          (set_logged (logged w ++ [(Debug, "Filters in repo layer: ")]) w)
    | None =>
        Return (subdomains_of domainID (db w), None)
          (set_logged (logged w ++ [(Debug, "Filters in repo layer: ")]) w)
    end.
Proof.
  unfold GetListOfSubDomains. rewrite bind_log.
  destruct (db_fault env _); reflexivity.
Qed.

Lemma GetCertificatesByDomain_eq env domainID w :
  GetCertificatesByDomain env domainID w
  = match db_fault env (OpGetCertificatesByDomain domainID) with
    | Some msg => Return (mkCertificate "", Some msg) w
    | None => Return (mkCertificate (certificate_of domainID (db w)), None) w
    end.
Proof. reflexivity. Qed.

Lemma writeEvent_open env h ws d t m u w :
  txs w !! h = Some ws →
  writeEvent env (Some h) d t m u w
  = match db_fault env (OpInsert (event_entity d t m u)) with
    | Some e => Return (Some (wrap "failed to write event" e)) w
    | None =>
        Return None
          (set_txs (<[h := ws ++ [WInsert (gen_id env (next_id w))
                                    (event_entity d t m u)]]> (txs w))
             (set_next_id (S (next_id w)) w))
    end.
Proof.
  intros Hopen. unfold writeEvent. erewrite bind_Return by apply new_entity_event.
  unfold mbind, Go_bind. rewrite (InsertTx_open _ _ _ _ _ Hopen).
  destruct (db_fault env _); reflexivity.
Qed.

Lemma updateMany_open env h m ws w :
  txs w !! h = Some ws →
  ∃ err ws',
    updateMany env (Some h) m w
    = Return err (set_txs (<[h := ws']> (txs w)) w) ∧
    (err = None → ws' = ws ++ map update_of (range_order env m)).
Proof. apply updateMany_loop_open. Qed.

Lemma DeleteDomain_certificate_step env h ws user now certID w :
  txs w !! h = Some ws →
  ∃ err ws',
    (if decide (certID ≠ "") then
       new_entity "certificates"
         (<["deleted_by" := any_string user]>
            (<["updated_by" := any_string user]> {["deleted_at" := any_time now]}))
       ≫= λ certEntity, updateMany env (Some h) {[certID := certEntity]}
     else mret None) w
    = Return err (set_txs (<[h := ws']> (txs w)) w) ∧
    (err = None →
     ws' = ws ++ (if decide (certID ≠ "") then
                    map update_of
                      (range_order env
                         {[certID := deleted_certificate_entity user now]})
                  else [])).
Proof.
  intros Hopen. destruct (decide (certID ≠ "")).
  - erewrite bind_Return by apply new_entity_deleted_certificate.
    by apply updateMany_open.
  - exists None, ws. split; [|by rewrite app_nil_r].
    cbn. by rewrite insert_id, set_txs_same.
Qed.

Lemma DeleteDomain_cases env filters w :
  delete_outcome env filters w (DeleteDomain env filters w).
Proof.
  unfold DeleteDomain. rewrite bind_log.
  unfold mbind at 1, Go_bind at 1, BeginTx at 1.
  destruct (db_fault env OpBegin) as [e|] eqn:Hbegin.
  { unfold delete_outcome. cbn. done. }
  cbn beta iota zeta. fields.
  set (h := next_tx w).
  (* the domain the request names *)
  unfold mbind at 1, Go_bind at 1.
  rewrite DeleteDomain_resolution by (fields; apply lookup_insert_eq).
  destruct (if decide (DomainName filters ≠ "")
            then db_fault env (OpGetIDByName (delete_lookup filters))
            else None) as [msg|] eqn:Hlook.
  { delete_fails h. }
  fields. set (domainID := delete_target filters (db w)).
  destruct (decide (DomainName filters ≠ "" ∧ domainID = "")) as [Hnone|Hsome].
  { delete_fails h. }
  (* its alternative domains *)
  unfold mbind at 1, Go_bind at 1. rewrite GetListOfSubDomains_eq.
  destruct (db_fault env (OpGetListOfSubDomains domainID)) as [msg|] eqn:Hsubs.
  { delete_fails h. }
  fields. set (subs := subdomains_of domainID (db w)).
  (* the instant, and the updates of the domain and its alternative domains *)
  unfold mbind at 1, Go_bind at 1, time_Now at 1. fields.
  erewrite bind_Return by apply new_entity_deleted.
  erewrite bind_Return by apply DeleteDomain_subs_eq.
  fold (delete_updates (UserID filters) (clock w) domainID subs).
  match goal with
  | |- context [(updateMany env (Some h) ?m ≫= _) ?W] =>
      destruct (updateMany_open env h m [] W) as (err & ws1 & Hrun & Hws1);
      [fields; apply lookup_insert_eq|];
      rewrite (bind_Return _ _ _ _ _ Hrun); clear Hrun
  end.
  destruct err as [msg|].
  { delete_fails h. }
  specialize (Hws1 eq_refl). cbn [app] in Hws1. subst ws1. fields.
  rewrite insert_insert_eq.
  (* its certificate *)
  unfold mbind at 1, Go_bind at 1. rewrite GetCertificatesByDomain_eq.
  destruct (db_fault env (OpGetCertificatesByDomain domainID)) as [msg|] eqn:Hcert.
  { delete_fails h. }
  fields. set (certID := certificate_of domainID (db w)). cbn [cert_ID].
  match goal with
  | |- context [((if decide (certID ≠ "") then _ else _) ≫= _) ?W] =>
      destruct (DeleteDomain_certificate_step env h
                  (map update_of
                     (range_order env
                        (delete_updates (UserID filters) (clock w) domainID subs)))
                  (UserID filters) (clock w) certID W)
        as (err & ws2 & Hrun & Hws2);
      [fields; apply lookup_insert_eq|];
      rewrite (bind_Return _ _ _ _ _ Hrun); clear Hrun
  end.
  destruct err as [msg|].
  { delete_fails h. }
  specialize (Hws2 eq_refl). fields. rewrite insert_insert_eq.
  (* the event *)
  unfold mbind at 1, Go_bind at 1.
  erewrite writeEvent_open by (fields; apply lookup_insert_eq).
  fold (delete_event filters domainID).
  destruct (db_fault env (OpInsert (delete_event filters domainID))) as [msg|] eqn:Hevent.
  { delete_fails h. }
  fields. rewrite insert_insert_eq.
  (* the commit *)
  unfold mbind at 1, Go_bind at 1.
  erewrite Commit_open by (fields; apply lookup_insert_eq).
  destruct (db_fault env OpCommit) as [msg|] eqn:Hcommit.
  { delete_fails h. }
  cbn. unfold delete_outcome. fields.
  fold domainID subs certID. split_and!; try done.
  - intros Hname. intros Hid. apply Hsome. done.
  - subst ws2. unfold delete_writes. by rewrite app_assoc.
Qed.

(** ** Delete: the rows it marks *)

Lemma apply_writes_app a b d :
  apply_writes (a ++ b) d = apply_writes b (apply_writes a d).
Proof. unfold apply_writes. apply fold_left_app. Qed.

Lemma apply_writes_updates l : ∀ d,
  apply_writes (map update_of l) d = map (λ r, foldl update_by r l) d.
Proof.
  induction l as [|[id e] l IH]; intros d.
  - cbn. by rewrite map_id.
  - cbn [map]. change (apply_writes (update_of (id, e) :: map update_of l) d)
      with (apply_writes (map update_of l) (map (update_row e id) d)).
    rewrite IH, map_map. reflexivity.
Qed.

Lemma update_by_hit r x : hits r x → update_by r x = marked x.2 r.
Proof. intros H. unfold update_by, update_row. by rewrite decide_True. Qed.

Lemma update_by_miss r x : ¬ hits r x → update_by r x = r.
Proof. intros H. unfold update_by, update_row. by rewrite decide_False. Qed.

Lemma foldl_update_miss l : ∀ r,
  (∀ x, x ∈ l → ¬ hits r x) → foldl update_by r l = r.
Proof.
  induction l as [|x l IH]; intros r Hmiss; [reflexivity|].
  cbn [foldl]. rewrite update_by_miss by (apply Hmiss; left).
  apply IH. intros y Hy. apply Hmiss. by right.
Qed.

Lemma foldl_update_hit l : ∀ r x,
  NoDup l.*1 → x ∈ l → hits r x → foldl update_by r l = marked x.2 r.
Proof.
  induction l as [|y l IH]; intros r x Hnd Hin Hhit.
  - by apply elem_of_nil in Hin.
  - rewrite fmap_cons in Hnd. apply NoDup_cons in Hnd as [Hy Hnd].
    cbn [foldl]. apply elem_of_cons in Hin as [<-|Hin].
    + rewrite update_by_hit by done. apply foldl_update_miss.
      intros z Hz [Hid _]. cbn in Hid. apply Hy.
      destruct Hhit as [Hx _]. rewrite <- Hx, Hid.
      apply list_elem_of_fmap. by exists z.
    + rewrite update_by_miss; [by apply IH|].
      intros [Hid _]. apply Hy. destruct Hhit as [Hx _].
      rewrite <- Hid, Hx. apply list_elem_of_fmap. by exists x.
Qed.

(** The updates of a map, walked in any order, change a row by the entry
    under its identifier, when the entry is for its table. *)
Lemma foldl_update_map env (m : gmap string Entity) r :
  range_ok env →
  foldl update_by r (range_order env m)
  = match m !! row_id r with
    | Some e =>
        if decide (EntityName (row_data r) = EntityName e) then marked e r else r
    | None => r
    end.
Proof.
  intros Hok. specialize (Hok m).
  assert (Hnd : NoDup (range_order env m).*1).
  { rewrite Hok. apply NoDup_fst_map_to_list. }
  assert (Hin : ∀ x, x ∈ range_order env m ↔ m !! x.1 = Some x.2).
  { intros [k e]. rewrite Hok. apply elem_of_map_to_list. }
  destruct (m !! row_id r) as [e|] eqn:Hm.
  - destruct (decide (EntityName (row_data r) = EntityName e)) as [Ht|Ht].
    + apply (foldl_update_hit _ r (row_id r, e)); [done|by apply Hin|done].
    + apply foldl_update_miss. intros [k e'] Hx%Hin [Hid Hname]. cbn in *.
      subst k. rewrite Hm in Hx. by injection Hx as <-.
  - apply foldl_update_miss. intros [k e'] Hx%Hin [Hid _]. cbn in *.
    subst k. by rewrite Hm in Hx.
Qed.

Lemma delete_updates_lookup user now domainID subs id :
  delete_updates user now domainID subs !! id
  = if decide (id ∈ subs) then Some (deleted_entity "alternative_domains" user now)
    else if decide (id = domainID) then Some (deleted_entity "domains" user now)
    else None.
Proof.
  assert (Hgen : ∀ (m : gmap string Entity),
    foldl (λ m id, <[id := deleted_entity "alternative_domains" user now]> m) m subs !! id
    = if decide (id ∈ subs) then Some (deleted_entity "alternative_domains" user now)
      else m !! id).
  { induction subs as [|s subs IH]; intros m.
    - cbn. rewrite decide_False; [done|]. apply not_elem_of_nil.
    - cbn [foldl]. rewrite IH. destruct (decide (id ∈ subs)) as [Hin|Hnin].
      + rewrite decide_True; [done|]. by right.
      + destruct (decide (id = s)) as [->|Hne].
        * rewrite decide_True by (by left). apply lookup_insert_eq.
        * rewrite decide_False; [by rewrite lookup_insert_ne|].
          intros [?|?]%elem_of_cons; done. }
  unfold delete_updates. rewrite Hgen.
  destruct (decide (id ∈ subs)); [done|].
  destruct (decide (id = domainID)) as [->|Hne].
  - apply lookup_singleton_eq.
  - by apply lookup_singleton_ne.
Qed.

(** Identifiers that are unique tell rows apart. *)
Lemma same_id_same_row (rows : Db) r r' :
  NoDup (map row_id rows) → r ∈ rows → r' ∈ rows → row_id r = row_id r' → r = r'.
Proof.
  intros Hnd [i Hi]%list_elem_of_lookup [j Hj]%list_elem_of_lookup Hid.
  assert (i = j) as ->.
  { eapply (NoDup_lookup _ i j (row_id r) Hnd).
    - change (map row_id rows) with (row_id <$> rows).
      by rewrite list_lookup_fmap, Hi.
    - change (map row_id rows) with (row_id <$> rows).
      by rewrite list_lookup_fmap, Hj, Hid. }
  congruence.
Qed.

Lemma subdomain_ids (rows : Db) domainID r :
  NoDup (map row_id rows) → r ∈ rows →
  row_id r ∈ subdomains_of domainID rows ↔ is_subdomain_of domainID r.
Proof.
  intros Hnd Hr. unfold subdomains_of. split.
  - change (map row_id ?l) with (row_id <$> l).
    intros (r' & Hid & [Hsub Hr']%list_elem_of_filter)%list_elem_of_fmap.
    by rewrite (same_id_same_row rows r r' Hnd Hr Hr' Hid).
  - intros Hsub. change (map row_id ?l) with (row_id <$> l).
    apply list_elem_of_fmap. exists r. split; [done|].
    by apply list_elem_of_filter.
Qed.

(** The two passes of a Delete over a row are [mark_deleted]. *)
Lemma delete_passes env user now domainID (rows : Db) r :
  range_ok env → NoDup (map row_id rows) → r ∈ rows →
  let subs := subdomains_of domainID rows in
  ∀ certID,
  (if decide (certID ≠ "") then
     foldl update_by
       (foldl update_by r (range_order env (delete_updates user now domainID subs)))
       (range_order env {[certID := deleted_certificate_entity user now]})
   else foldl update_by r (range_order env (delete_updates user now domainID subs)))
  = mark_deleted user now domainID certID r.
Proof.
  intros Hok Hnd Hr subs certID.
  rewrite (foldl_update_map env _ r Hok), delete_updates_lookup.
  unfold mark_deleted.
  destruct (decide (in_table "domains" r ∧ row_id r = domainID)) as [[Htab Hid]|Hdom].
  - (* the domain *)
    assert (Hnsub : row_id r ∉ subs).
    { intros Hin%subdomain_ids; [|done..]. destruct Hin as (Htab' & _).
      unfold in_table in *. congruence. }
    rewrite (decide_False (P := row_id r ∈ subs)) by done.
    rewrite (decide_True (P := row_id r = domainID)) by done.
    rewrite (decide_True (P := EntityName (row_data r) = _)) by (by rewrite Htab).
    destruct (decide (certID ≠ "")); [|done].
    rewrite range_order_singleton by done. cbn [foldl].
    apply update_by_miss. intros [_ Hname]. cbn in Hname.
    unfold in_table in Htab. congruence.
  - destruct (decide (is_subdomain_of domainID r)) as [Hsub|Hnsub].
    + (* an alternative domain *)
      rewrite (decide_True (P := row_id r ∈ subs)) by (by apply subdomain_ids).
      destruct Hsub as (Htab & _).
      rewrite (decide_True (P := EntityName (row_data r) = _)) by (by rewrite Htab).
      destruct (decide (certID ≠ "")); [|done].
      rewrite range_order_singleton by done. cbn [foldl].
      apply update_by_miss. intros [_ Hname]. cbn in Hname.
      unfold in_table in Htab. congruence.
    + (* any other row: the first pass leaves it *)
      assert (Hfirst :
        (if decide (row_id r ∈ subs)
         then Some (deleted_entity "alternative_domains" user now)
         else if decide (row_id r = domainID)
              then Some (deleted_entity "domains" user now) else None)
        = None ∨
        ∃ e, (if decide (row_id r ∈ subs)
              then Some (deleted_entity "alternative_domains" user now)
              else if decide (row_id r = domainID)
                   then Some (deleted_entity "domains" user now) else None)
             = Some e ∧ EntityName (row_data r) ≠ EntityName e).
      { destruct (decide (row_id r ∈ subs)) as [Hin|Hnin].
        - apply subdomain_ids in Hin; done.
        - destruct (decide (row_id r = domainID)) as [Hid|Hid]; [|by left].
          right. eexists. split; [done|]. cbn. intros Htab. apply Hdom. done. }
      destruct Hfirst as [->|(e & -> & Hne)];
        [|rewrite (decide_False (P := EntityName (row_data r) = _)) by done].
      all: destruct (decide (certID ≠ "")) as [Hc|Hc].
      all: try rewrite range_order_singleton by done; cbn [foldl].
      all: destruct (decide (in_table "certificates" r ∧ row_id r = certID ∧ certID ≠ ""))
             as [(Htab & Hid & Hcne)|Hncert]; try tauto.
      all: try (apply update_by_hit; by split).
      all: try (apply update_by_miss; intros [Hid Htab]; apply Hncert; by split_and!).
      all: done.
Qed.

Lemma mark_deleted_columns user now domainID certID r :
  let r' := mark_deleted user now domainID certID r in
  row_id r' = row_id r ∧
  EntityName (row_data r') = EntityName (row_data r) ∧
  (in_table "domains" r ∧ row_id r = domainID ∨ is_subdomain_of domainID r →
   StringParameters (row_data r') !! "status" = Some "deleted" ∧
   TimeParameters (row_data r') !! "deleted_at" = Some now) ∧
  (in_table "certificates" r ∧ row_id r = certID ∧ certID ≠ "" →
   TimeParameters (row_data r') !! "deleted_at" = Some now ∧
   StringParameters (row_data r') !! "status"
   = StringParameters (row_data r) !! "status").
Proof.
  cbn zeta. unfold mark_deleted.
  destruct (decide (in_table "domains" r ∧ row_id r = domainID)) as [[Htab Hid]|Hdom];
    [|destruct (decide (is_subdomain_of domainID r)) as [Hsub|Hnsub];
      [|destruct (decide (in_table "certificates" r ∧ row_id r = certID ∧ certID ≠ ""))
          as [Hcert|Hncert]]].
  - split_and!; [done|done| |].
    + intros _. split; cbn.
      * by rewrite lookup_union_l' by (by rewrite lookup_insert_eq).
      * by rewrite lookup_union_l' by (by rewrite lookup_singleton_eq).
    + intros (Htab' & _). unfold in_table in *. congruence.
  - split_and!; [done|done| |].
    + intros _. split; cbn.
      * by rewrite lookup_union_l' by (by rewrite lookup_insert_eq).
      * by rewrite lookup_union_l' by (by rewrite lookup_singleton_eq).
    + intros (Htab' & _). destruct Hsub as (Htab & _). unfold in_table in *. congruence.
  - split_and!; [done|done| |].
    + intros [?|?]; done.
    + intros _. split; cbn.
      * by rewrite lookup_union_l' by (by rewrite lookup_singleton_eq).
      * rewrite lookup_union_r; [done|].
        rewrite lookup_insert_ne by done. by rewrite lookup_singleton_ne.
  - split_and!; [done|done| |].
    + intros [?|?]; done.
    + intros ?. done.
Qed.

(** C3, as the code has it. A Delete that returns no error has committed, in
    its one transaction and together with the [deleted] event: the status
    [deleted] and the instant of the deletion on the domain and on each of
    its alternative domains that were not deleted, and the same instant on
    its certificate, whose status it does not write; it leaves every other
    row as it was. A Delete that returns an error has changed no row. A
    Delete does not panic. Identifiers are taken to be unique among the
    rows. *)
Theorem DeleteDomain_all_or_nothing env filters w :
  range_ok env → NoDup (map row_id (db w)) →
  let domainID := delete_target filters (db w) in
  let certID := certificate_of domainID (db w) in
  let mark := mark_deleted (UserID filters) (clock w) domainID certID in
  match DeleteDomain env filters w with
  | Return None w' =>
      db w' = map mark (db w)
              ++ [mkRow (gen_id env (next_id w)) (delete_event filters domainID)]
  | Return (Some _) w' => db w' = db w
  | Panic _ _ => False
  end ∧
  ∀ r,
    row_id (mark r) = row_id r ∧
    EntityName (row_data (mark r)) = EntityName (row_data r) ∧
    (in_table "domains" r ∧ row_id r = domainID ∨ is_subdomain_of domainID r →
     StringParameters (row_data (mark r)) !! "status" = Some "deleted" ∧
     TimeParameters (row_data (mark r)) !! "deleted_at" = Some (clock w)) ∧
    (in_table "certificates" r ∧ row_id r = certID ∧ certID ≠ "" →
     TimeParameters (row_data (mark r)) !! "deleted_at" = Some (clock w) ∧
     StringParameters (row_data (mark r)) !! "status"
     = StringParameters (row_data r) !! "status").
Proof.
  intros Hok Hnd domainID certID mark. split; [|intros r; apply mark_deleted_columns].
  pose proof (DeleteDomain_cases env filters w) as Hcases.
  unfold delete_outcome in Hcases. fold domainID certID in Hcases.
  destruct (DeleteDomain env filters w) as [[e|] w'|msg w']; [tauto| |done].
  destruct Hcases as (_ & _ & -> & _).
  unfold delete_writes. rewrite !apply_writes_app, apply_writes_updates.
  cbn [apply_writes fold_left apply_write]. f_equal.
  destruct (decide (certID ≠ "")) as [Hc|Hc].
  - rewrite apply_writes_updates, map_map. apply map_ext_in.
    intros r Hr%list_elem_of_In.
    pose proof (delete_passes env (UserID filters) (clock w) domainID (db w) r
                  Hok Hnd Hr certID) as Hpass.
    cbn zeta in Hpass. by rewrite decide_True in Hpass.
  - cbn [apply_writes fold_left]. apply map_ext_in.
    intros r Hr%list_elem_of_In.
    pose proof (delete_passes env (UserID filters) (clock w) domainID (db w) r
                  Hok Hnd Hr certID) as Hpass.
    cbn zeta in Hpass. by rewrite decide_False in Hpass.
Qed.

Lemma calm_range_ok : range_ok examples.calm.
Proof. intros m. reflexivity. Qed.

(** The certificate of a deleted domain carries the instant of the deletion
    and no status [deleted]. *)
Lemma DeleteDomain_certificate_keeps_status :
  ∃ w' r,
    DeleteDomain examples.calm examples.delete_by_name examples.stored
    = Return None w' ∧
    r ∈ db w' ∧ in_table "certificates" r ∧ has_string "domain_id" "d1" r ∧
    TimeParameters (row_data r) !! "deleted_at" = Some 500%Z ∧
    StringParameters (row_data r) !! "status" ≠ Some "deleted".
Proof.
  eexists _, (marked (deleted_certificate_entity "admin" 500) examples.stored_certificate).
  split; [vm_compute; reflexivity|].
  split_and!; try done.
  cbn. do 2 right. left.
Qed.

(** ** Delete: the cleanup of a request that names no domain *)

Lemma DeleteCertificateFiles_removes env c domain dir v :
  Join [StorageDir (cfg c); domain] = Some dir →
  dir ∈ files v →
  fs_fault env (FsRemoveAll (Some dir)) = None →
  DeleteCertificateFiles env (Some c) domain v
  = Return None
      (set_files (filter (λ f, under dir f = false) (files v))
         (set_logged (logged v ++ [(Info, "Deleting certificate files for domain: ")]) v)).
Proof.
  intros Hdir Hin Hfault. unfold DeleteCertificateFiles. rewrite bind_log, Hdir.
  erewrite bind_Return; last first.
  { unfold Stat_IsNotExist. erewrite bind_Return by reflexivity.
    fields. rewrite bool_decide_eq_false_2 by (by intros ?). reflexivity. }
  cbn iota. erewrite bind_Return; last first.
  { unfold RemoveAll. rewrite Hfault. reflexivity. }
  reflexivity.
Qed.

Lemma removed_below dir (fs : list Path) p :
  under dir p = true → p ∉ filter (λ f, under dir f = false) fs.
Proof. intros Hunder [Hout _]%list_elem_of_filter. congruence. Qed.

(** C9. A Delete by identifier alone (an empty [domain_name]) that commits
    starts its cleanup with the empty name. The path the cleanup removes is
    then the storage directory itself: when that directory exists and its
    removal succeeds, nothing at or below it is left, neither the ACME
    account key nor the certificate, key and chain files of any domain. *)
Theorem unnamed_delete_removes_storage env s filters w w' first rest :
  DomainName filters = "" →
  DeleteDomain env filters w = Return None w' →
  client s = first :: rest →
  StorageDir (cfg first) ≠ "" →
  let root := Clean (StorageDir (cfg first)) in
  goroutines w' = goroutines w ++ [go_cleanup ""] ∧
  Join [StorageDir (cfg first); ""] = Some root ∧
  ∀ v, root ∈ files v → fs_fault env (FsRemoveAll (Some root)) = None →
    ∃ v', run env s (go_cleanup "") v = Return tt v' ∧
      files v' = filter (λ f, under root f = false) (files v) ∧
      (∀ f, f ∈ files v' → under root f = false) ∧
      (∀ p, acme_user_key (cfg first) = Some p → p ∉ files v') ∧
      (∀ name file p,
         plain name → file ∈ ["cert.pem"; "privkey.pem"; "chain.pem"] →
         JoinTo (Join [StorageDir (cfg first); name]) file = Some p →
         p ∉ files v').
Proof.
  intros Hname Hrun Hreg Hdir root.
  pose proof (DeleteDomain_cases env filters w) as Hcases.
  rewrite Hrun in Hcases. destruct Hcases as (_ & _ & _ & Hgo & _).
  rewrite Hname in Hgo. split; [done|].
  split; [by apply Join_empty_name|].
  intros v Hexists Hfault.
  eexists. split.
  { unfold run, cleanup, SelectClientByName. rewrite decide_True by done.
    rewrite Hreg. rewrite bind_ret.
    erewrite bind_Return; last first.
    { apply (DeleteCertificateFiles_removes env first "" root);
        [by apply Join_empty_name|done..]. }
    reflexivity. }
  fields. split; [done|]. split_and!.
  - by intros f [Hout _]%list_elem_of_filter.
  - intros p Hkey. unfold acme_user_key in Hkey.
    rewrite Join_plain_name in Hkey by (done || apply plain_file_names).
    injection Hkey as <-. apply removed_below, under_below.
  - intros name file p Hplain Hfile Hjoin.
    rewrite Join_plain_name in Hjoin by done.
    assert (Hpf : plain file).
    { pose proof plain_file_names as (_ & ? & ? & ?).
      repeat (apply elem_of_cons in Hfile as [->|Hfile]; [done|]).
      by apply elem_of_nil in Hfile. }
    rewrite JoinTo_plain_name in Hjoin by done. injection Hjoin as <-.
    cbn [comps rooted]. rewrite <- app_assoc.
    apply removed_below. apply (under_below root ([name] ++ [file])).
Qed.

(** ** Renew: the issuance fails *)

Lemma RenewDomainCertificate_leaves env h ws (err : error) w :
  txs w !! h = Some ws →
  ∃ w', (∀ ret : error,
           (RenewDomainCertificate_deferred env (Some h) err ≫= λ _, mret ret) w
           = Return ret w') ∧
        db w' = db w ∧ files w' = files w ∧ issued w' = issued w ∧
        (is_Some err → txs w' !! h = None).
Proof.
  intros Hopen. destruct err as [e|].
  - unfold RenewDomainCertificate_deferred.
    unfold mbind, Go_bind, log, modify. fields.
    rewrite (Rollback_open env h ws) by done.
    eexists. split; [reflexivity|]. fields. split_and!; try done.
    intros _. apply lookup_delete_eq.
  - exists w. split; [reflexivity|]. split_and!; try done.
Qed.

(** Whenever the issuance call of a Renew fails, the update of the domain to
    [update_failed] and the [failed] event are written in the transaction
    that the deferred function then rolls back: the rows are those the
    Renew found. *)
Lemma RenewDomainCertificate_issuance_failure env s domain w c msg :
  db_fault env OpBegin = None →
  SelectClientByName s (det_DNSProvider (Details domain)) w = Return (Some c, None) w →
  acme env (Name c) (dto_DomainName domain) (Sub domain) = inr msg →
  ∃ e w',
    RenewDomainCertificate env s domain w = Return (Some e) w' ∧
    db w' = db w ∧ txs w' !! next_tx w = None ∧
    issued w' = issued w ++ [(Name c, dto_DomainName domain, Sub domain)].
Proof.
  intros Hbegin Hsel Hacme.
  apply SelectClientByName_pure in Hsel as [_ Hsel].
  unfold RenewDomainCertificate. rewrite bind_log.
  erewrite bind_Return by (by apply BeginTx_ok).
  cbn iota zeta. rewrite bind_log. erewrite bind_Return by apply Hsel.
  cbn iota. erewrite bind_Return; last first.
  { unfold unwinding. rewrite CreateCertificate_eq, Hacme. reflexivity. }
  cbn iota. rewrite bind_log.
  erewrite bind_Return by (unfold unwinding; rewrite new_entity_update_failed; reflexivity).
  match goal with
  | |- context [(updateMany env (Some ?h) ?m ≫= _) ?W] =>
      destruct (updateMany_open env h m [] W) as (err & ws1 & Hrun & _);
      [fields; apply lookup_insert_eq|];
      rewrite (bind_Return _ _ _ _ _ Hrun); clear Hrun
  end.
  fields. rewrite insert_insert_eq.
  unfold mbind at 1, Go_bind at 1.
  erewrite writeEvent_open by (fields; apply lookup_insert_eq).
  match goal with
  | |- context [db_fault env (OpInsert ?e)] => destruct (db_fault env (OpInsert e))
  end;
  match goal with
  | |- context [(RenewDomainCertificate_deferred env (Some ?h) ?err ≫= _) ?W] =>
      destruct (RenewDomainCertificate_leaves env h
                  (default [] (txs W !! h)) err W)
        as (w' & Hleave & Hdb & _ & Hiss & Htx);
        [fields; rewrite ?insert_insert_eq, ?lookup_insert_eq; reflexivity|];
        rewrite Hleave; clear Hleave
  end;
  (eexists _, w'; split; [reflexivity|]; rewrite Hdb, Hiss; fields;
   split_and!; try done; apply Htx; by eexists).
Qed.

(** C1. The Renew of a stored domain whose issuance the authority refuses
    returns an error, and the rows are exactly those it found: the domain
    still has the status [active] and no [failed] event is among them. The
    error it returns wraps the nil result of the event write, not the
    issuance error. *)
Theorem RenewDomainCertificate_failure_is_not_persisted :
  ∃ w',
    RenewDomainCertificate examples.refusing examples.service examples.expiring
      examples.stored
    = Return (Some "failed to create new certificate: %!w(<nil>)") w' ∧
    issued w' = [("cloudflare", "example.com", ["www.example.com"])] ∧
    db w' = db examples.stored ∧
    examples.stored_domain ∈ db w' ∧
    StringParameters (row_data examples.stored_domain) !! "status" = Some "active" ∧
    Forall not_an_event (db w').
Proof.
  eexists. split; [vm_compute; reflexivity|].
  split_and!; try reflexivity.
  - left.
  - repeat constructor; by vm_compute.
Qed.

(** ** Event writes and the result of a workflow *)

Lemma NewEntity_name table params e :
  NewEntity table params = Some e → EntityName e = table.
Proof.
  unfold NewEntity. revert e.
  apply (map_fold_weak_ind (λ acc _, ∀ e, acc = Some e → EntityName e = table)).
  - by intros e [= <-].
  - intros k v m acc _ IH e. unfold NewEntity_put.
    destruct acc as [e0|]; [|done].
    specialize (IH e0 eq_refl). destruct v; intros [= <-]; done.
Qed.

Lemma result_bind_both {A B} (m1 m2 : Go A) (k1 k2 : A → Go B) w :
  m1 w = m2 w →
  (∀ a w', result (k1 a w') = result (k2 a w')) →
  result ((m1 ≫= k1) w) = result ((m2 ≫= k2) w).
Proof.
  intros Hm Hk. unfold mbind, Go_bind. rewrite Hm.
  destruct (m2 w); [apply Hk|reflexivity].
Qed.

Lemma result_bind_new_entity {B} table params (k1 k2 : Entity → Go B) w :
  (∀ e, EntityName e = table → result (k1 e w) = result (k2 e w)) →
  result ((new_entity table params ≫= k1) w)
  = result ((new_entity table params ≫= k2) w).
Proof.
  intros Hk. unfold mbind, Go_bind, new_entity.
  destruct (NewEntity table params) as [e|] eqn:He; [|reflexivity].
  apply Hk. by apply NewEntity_name in He.
Qed.

Lemma InsertTx_masked f env tx e w :
  EntityName e ≠ "events" →
  InsertTx (with_event_faults f env) tx e w = InsertTx env tx e w.
Proof.
  intros Hne. unfold InsertTx. cbn [db_fault with_event_faults gen_id].
  by rewrite decide_False.
Qed.

Lemma safeWriteEvent_returns env user d t m w :
  ∃ err w', safeWriteEvent env user d t m w = Return err w'.
Proof. rewrite safeWriteEvent_eq. destruct (db_fault env _); eauto. Qed.

Lemma result_after_event {B} env1 env2 user d t m (x : B) w1 w2 :
  result ((safeWriteEvent env1 user d t m ≫= λ _, mret x) w1)
  = result ((safeWriteEvent env2 user d t m ≫= λ _, mret x) w2).
Proof.
  destruct (safeWriteEvent_returns env1 user d t m w1) as (? & ? & H1).
  destruct (safeWriteEvent_returns env2 user d t m w2) as (? & ? & H2).
  by rewrite (bind_Return _ _ _ _ _ H1), (bind_Return _ _ _ _ _ H2).
Qed.

Lemma CreateDomain_deferred_result {B} f g env req tx domainID err (x : B) w :
  result ((CreateDomain_deferred (with_event_faults f env) req tx domainID err
           ≫= λ _, mret x) w)
  = result ((CreateDomain_deferred (with_event_faults g env) req tx domainID err
             ≫= λ _, mret x) w).
Proof.
  destruct err as [e|]; [|reflexivity].
  unfold CreateDomain_deferred, mbind, Go_bind, log, modify.
  change (Rollback (with_event_faults f env) tx) with (Rollback env tx).
  change (Rollback (with_event_faults g env) tx) with (Rollback env tx).
  destruct (Rollback env tx _) as [r w1|]; [|reflexivity].
  rewrite !safeWriteEvent_eq.
  by repeat match goal with |- context [db_fault ?E ?op] => destruct (db_fault E op) end.
Qed.

Lemma CreateDomain_subs_masked f env req tx domainID subs : ∀ w,
  CreateDomain_subs (with_event_faults f env) req tx domainID subs w
  = CreateDomain_subs env req tx domainID subs w.
Proof.
  induction subs as [|sub subs IH]; intros w; [reflexivity|].
  cbn [CreateDomain_subs]. unfold mbind, Go_bind, new_entity.
  match goal with |- context [NewEntity ?t ?p] =>
    destruct (NewEntity t p) as [e|] eqn:He; [|reflexivity] end.
  apply NewEntity_name in He. cbn [mret Go_ret].
  rewrite InsertTx_masked by (by rewrite He).
  destruct (InsertTx env tx e w) as [[id [err|]] w1|]; first [reflexivity|apply IH].
Qed.

(** The result of Create does not depend on which event writes fail. *)
Lemma CreateDomain_result_without_events f g env s req w :
  result (CreateDomain (with_event_faults f env) s req w)
  = result (CreateDomain (with_event_faults g env) s req w).
Proof.
  unfold CreateDomain. rewrite !bind_log.
  apply result_bind_both; [reflexivity|]. intros [exists_ [e|]] w1; [reflexivity|].
  destruct exists_; [reflexivity|].
  apply result_bind_both; [reflexivity|]. intros [client [e|]] w2; [reflexivity|].
  apply result_bind_both; [reflexivity|]. intros [certData [e|]] w3.
  { rewrite !bind_log. apply result_after_event. }
  apply result_bind_both; [reflexivity|]. intros [certPaths [e|]] w4.
  { rewrite !bind_log. apply result_after_event. }
  apply result_bind_both; [reflexivity|]. intros [tx [e|]] w5; [reflexivity|].
  cbn zeta.
  apply result_bind_new_entity. intros domainEntity Hname.
  apply result_bind_both; [by rewrite !InsertTx_masked by (by rewrite Hname)|].
  intros [domainID [e|]] w6; [apply CreateDomain_deferred_result|].
  apply result_bind_both; [by rewrite !CreateDomain_subs_masked|].
  intros [e|] w7; [apply CreateDomain_deferred_result|].
  apply result_bind_both; [reflexivity|]. intros paths w8.
  apply result_bind_both; [reflexivity|]. intros data w9.
  apply result_bind_new_entity. intros certEntity Hcert.
  apply result_bind_both; [by rewrite !InsertTx_masked by (by rewrite Hcert)|].
  intros [certID [e|]] w10; [apply CreateDomain_deferred_result|].
  apply result_bind_new_entity. intros activeEntity Hactive.
  apply result_bind_both; [reflexivity|].
  intros [e|] w11; [apply CreateDomain_deferred_result|].
  apply result_bind_both; [reflexivity|].
  intros [e|] w12; [apply CreateDomain_deferred_result|].
  destruct (safeWriteEvent_returns (with_event_faults f env) (CreatedBy req) domainID
              "created" "Domain and certificate created successfully" w12)
    as (? & ? & H1).
  destruct (safeWriteEvent_returns (with_event_faults g env) (CreatedBy req) domainID
              "created" "Domain and certificate created successfully" w12)
    as (? & ? & H2).
  rewrite (bind_Return _ _ _ _ _ H1), (bind_Return _ _ _ _ _ H2).
  reflexivity.
Qed.

Lemma not_nil_bind {A} (m : Go A) (k : A → Go error) w :
  (∀ a w', not_nil (k a w')) → not_nil ((m ≫= k) w).
Proof.
  intros Hk. unfold mbind, Go_bind. destruct (m w); [apply Hk|exact I].
Qed.

Lemma not_nil_leave {A} (d : Go A) (e : string) w :
  not_nil ((d ≫= λ _, mret (Some e)) w).
Proof. apply not_nil_bind. intros _ w'. exact I. Qed.

Lemma writeEvent_fails env tx d t m u e w :
  db_fault env (OpInsert (event_entity d t m u)) = Some e →
  writeEvent env tx d t m u w = Return (Some (wrap "failed to write event" e)) w.
Proof.
  intros Hfault. unfold writeEvent. erewrite bind_Return by apply new_entity_event.
  unfold InsertTx. rewrite Hfault. reflexivity.
Qed.

Lemma RenewDomainCertificate_needs_its_event env s domain w :
  is_Some (db_fault env (OpInsert (renewed_event domain))) →
  not_nil (RenewDomainCertificate env s domain w).
Proof.
  intros [e Hfault]. unfold RenewDomainCertificate.
  apply not_nil_bind. intros _ w1.
  apply not_nil_bind. intros [tx [e1|]] w2; [exact I|]. cbn zeta.
  apply not_nil_bind. intros _ w3.
  apply not_nil_bind. intros [client err] w4.
  apply not_nil_bind. intros [certData [e2|]] w5.
  { repeat (apply not_nil_bind; intros ? ?). exact I. }
  apply not_nil_bind. intros [certPaths [e3|]] w6.
  { repeat (apply not_nil_bind; intros ? ?). exact I. }
  apply not_nil_bind. intros paths w7.
  apply not_nil_bind. intros data w8.
  apply not_nil_bind. intros updated_at w9.
  apply not_nil_bind. intros certEntity w10.
  apply not_nil_bind. intros [e4|] w11; [apply not_nil_leave|].
  apply not_nil_bind. intros activeEntity w12.
  apply not_nil_bind. intros [e5|] w13; [apply not_nil_leave|].
  unfold mbind at 1, Go_bind at 1.
  rewrite (writeEvent_fails env tx _ _ _ _ e w13 Hfault).
  apply not_nil_leave.
Qed.

(** ** Renew: it returns when the provider has a handle *)

Lemma returns_with_bind {A B} (P : A → Prop) (Q : B → Prop) (m : Go A)
  (k : A → Go B) :
  returns_with P m → (∀ a, P a → returns_with Q (k a)) →
  returns_with Q (m ≫= k).
Proof.
  intros Hm Hk w. destruct (Hm w) as (a & w1 & Hrun & Ha).
  rewrite (bind_Return _ _ _ _ _ Hrun). by apply Hk.
Qed.

Lemma returns_bind {A B} (Q : B → Prop) (m : Go A) (k : A → Go B) :
  returns m → (∀ a, returns_with Q (k a)) → returns_with Q (m ≫= k).
Proof.
  intros Hm Hk. apply (returns_with_bind (λ _, True)); [done|]. by intros a _.
Qed.

Lemma returns_ret {A} (P : A → Prop) (a : A) : P a → returns_with P (mret a).
Proof. intros Ha w. by exists a, w. Qed.

Lemma returns_log l msg : returns (log l msg).
Proof. intros w. by eexists _, _. Qed.

Lemma returns_new_entity table params :
  is_Some (NewEntity table params) → returns (new_entity table params).
Proof. intros [e He] w. unfold new_entity. rewrite He. by exists e, w. Qed.

Lemma returns_unwinding {A} (P : A → Prop) (d : Go unit) (m : Go A) :
  returns_with P m → returns_with P (unwinding d m).
Proof.
  intros Hm w. destruct (Hm w) as (a & w1 & Hrun & Ha).
  exists a, w1. unfold unwinding. by rewrite Hrun.
Qed.

Lemma returns_write h wr : returns (write (Some h) wr).
Proof. intros w. unfold write. destruct (txs w !! h); by eexists _, _. Qed.

Lemma returns_UpdateTx env h e id : returns (UpdateTx env (Some h) e id).
Proof.
  unfold UpdateTx. destruct (db_fault env (OpUpdate e id)); [by apply returns_ret|].
  apply returns_write.
Qed.

Lemma returns_InsertTx env h e : returns (InsertTx env (Some h) e).
Proof.
  unfold InsertTx. destruct (db_fault env (OpInsert e)); [by apply returns_ret|].
  apply returns_bind; [intros w; by eexists _, _|]. intros n.
  apply returns_bind; [intros w; by eexists _, _|]. intros _.
  apply returns_bind; [apply returns_write|]. intros [?|]; by apply returns_ret.
Qed.

Lemma returns_updateMany env h m : returns (updateMany env (Some h) m).
Proof.
  unfold updateMany. induction (range_order env m) as [|[id e] l IH].
  - by apply returns_ret.
  - cbn [updateMany_loop]. apply returns_bind; [apply returns_UpdateTx|].
    intros [?|]; [by apply returns_ret|exact IH].
Qed.

Lemma returns_writeEvent env h d t m u : returns (writeEvent env (Some h) d t m u).
Proof.
  unfold writeEvent.
  apply returns_bind; [apply returns_new_entity; eexists; vm_compute; reflexivity|]. intros e.
  apply returns_bind; [apply returns_InsertTx|]. intros [? [?|]]; by apply returns_ret.
Qed.

Lemma returns_Rollback env h : returns (Rollback env (Some h)).
Proof. intros w. unfold Rollback. destruct (txs w !! h); by eexists _, _. Qed.

Lemma returns_Commit env h : returns (Commit env (Some h)).
Proof.
  intros w. unfold Commit. destruct (txs w !! h); [|by eexists _, _].
  destruct (db_fault env OpCommit); by eexists _, _.
Qed.

Lemma returns_BeginTx env : returns_with value_or_error (BeginTx env).
Proof.
  intros w. unfold BeginTx. destruct (db_fault env OpBegin).
  - eexists _, _. split; [reflexivity|]. by intros ?.
  - eexists _, _. split; [reflexivity|]. intros _. by eexists.
Qed.

Lemma returns_Renew_leave env h err (ret : error) :
  returns (RenewDomainCertificate_deferred env (Some h) err ≫= λ _, mret ret : Go error).
Proof.
  apply returns_bind; [|intros _; by apply returns_ret].
  destruct err; [|by apply returns_ret]. cbn.
  apply returns_bind; [apply returns_log|]. intros _.
  apply returns_bind; [apply returns_Rollback|]. intros _. by apply returns_ret.
Qed.

Lemma returns_CreateCertificate env c domain san :
  returns_with value_or_error (CreateCertificate env (Some c) domain san).
Proof.
  intros w. rewrite CreateCertificate_eq.
  destruct (acme env (Name c) domain san).
  - eexists _, _. split; [reflexivity|]. intros _. by eexists.
  - eexists _, _. split; [reflexivity|]. by intros ?.
Qed.

Lemma returns_MkdirAll env p : returns (MkdirAll env p).
Proof.
  intros w. unfold MkdirAll. destruct p as [q|]; [|by eexists _, _].
  destruct (fs_fault env (FsMkdirAll (Some q))); by eexists _, _.
Qed.

Lemma returns_WriteFile env p : returns (WriteFile env p).
Proof.
  intros w. unfold WriteFile. destruct p as [q|]; [|by eexists _, _].
  destruct (fs_fault env (FsWriteFile (Some q))); by eexists _, _.
Qed.

Lemma returns_SaveCertificateFiles env c domain data :
  returns_with value_or_error (SaveCertificateFiles env (Some c) domain (Some data)).
Proof.
  unfold SaveCertificateFiles.
  apply returns_bind; [apply returns_log|]. intros _. cbv zeta.
  apply returns_bind; [apply returns_log|]. intros _.
  apply returns_bind; [apply returns_MkdirAll|]. intros [e|];
    [by apply returns_ret|].
  apply returns_bind; [apply returns_log|]. intros _.
  apply returns_bind; [apply returns_WriteFile|]. intros [e|];
    [by apply returns_ret|].
  apply returns_bind; [apply returns_log|]. intros _.
  apply returns_bind; [apply returns_WriteFile|]. intros [e|];
    [by apply returns_ret|].
  apply returns_bind; [apply returns_log|]. intros _.
  apply returns_bind; [apply returns_WriteFile|]. intros err.
  assert (Hsaved : ∀ paths,
    returns_with value_or_error
      (log Debug "Certificate files saved successfully" ≫= λ _ : (),
         mret (Some paths, @None string) : Go (option CertificatePaths * error))).
  { intros paths. apply returns_bind; [apply returns_log|]. intros _.
    apply returns_ret. intros _. by eexists. }
  destruct err as [e|]; [|apply Hsaved].
  destruct (Chain data); [apply Hsaved|by apply returns_ret].
Qed.

Lemma returns_reloadNginxInContainer env domain :
  returns (reloadNginxInContainer env domain).
Proof.
  unfold reloadNginxInContainer.
  destruct (decide (det_NginxContainerName (Details domain) = ""));
    [by apply returns_ret|].
  apply returns_bind; [intros w; by eexists _, _|]. intros _.
  destruct (docker_exec env (det_NginxContainerName (Details domain)));
    (apply returns_bind; [apply returns_log|]; intros _; by apply returns_ret).
Qed.

(** A Renew whose provider resolves to a handle does not panic. *)
Lemma RenewDomainCertificate_returns env s (domain : DomainsDTO) w c :
  SelectClientByName s (det_DNSProvider (Details domain)) w = Return (Some c, None) w →
  ∃ ret w', RenewDomainCertificate env s domain w = Return ret w'.
Proof.
  intros Hsel. apply SelectClientByName_pure in Hsel as [_ Hsel].
  assert (Hall : returns (RenewDomainCertificate env s domain)); last first.
  { destruct (Hall w) as (ret & w' & Hrun & _). by exists ret, w'. }
  unfold RenewDomainCertificate.
  apply returns_bind; [apply returns_log|]. intros _.
  apply (returns_with_bind value_or_error); [apply returns_BeginTx|].
  intros [tx [e|]] Htx; [by apply returns_ret|].
  destruct tx as [h|]; [|destruct (Htx eq_refl) as [? Hx]; discriminate Hx].
  cbv zeta.
  apply returns_bind; [apply returns_log|]. intros _.
  apply (returns_with_bind (λ r, r = (Some c, None))).
  { intros v. eexists _, v. split; [apply Hsel|done]. }
  intros r ->.
  apply (returns_with_bind value_or_error);
    [apply returns_unwinding, returns_CreateCertificate|].
  intros [certData [e|]] Hdata.
  { apply returns_bind; [apply returns_log|]. intros _.
    apply returns_bind;
      [apply returns_unwinding, returns_new_entity; eexists; vm_compute; reflexivity|]. intros failed.
    apply returns_bind; [apply returns_updateMany|]. intros err1.
    apply returns_bind; [apply returns_writeEvent|]. intros err2.
    apply returns_Renew_leave. }
  destruct certData as [data|];
    [|destruct (Hdata eq_refl) as [? Hx]; discriminate Hx].
  apply (returns_with_bind value_or_error);
    [apply returns_unwinding, returns_SaveCertificateFiles|].
  intros [certPaths [e|]] Hpaths.
  { apply returns_bind;
      [apply returns_unwinding, returns_new_entity; eexists; vm_compute; reflexivity|]. intros failed.
    apply returns_bind; [apply returns_updateMany|]. intros _.
    apply returns_Renew_leave. }
  destruct certPaths as [paths|];
    [|destruct (Hpaths eq_refl) as [? Hx]; discriminate Hx].
  apply returns_bind; [by apply returns_unwinding, returns_ret|]. intros paths'.
  apply returns_bind; [by apply returns_unwinding, returns_ret|]. intros data'.
  apply returns_bind; [intros v; by eexists _, _|]. intros updated_at.
  apply returns_bind;
    [apply returns_unwinding, returns_new_entity; eexists; vm_compute; reflexivity|]. intros certEntity.
  apply returns_bind; [apply returns_updateMany|]. intros [e|];
    [apply returns_Renew_leave|].
  apply returns_bind;
    [apply returns_unwinding, returns_new_entity; eexists; vm_compute; reflexivity|]. intros activeEntity.
  apply returns_bind; [apply returns_updateMany|]. intros [e|];
    [apply returns_Renew_leave|].
  apply returns_bind; [apply returns_writeEvent|]. intros [e|];
    [apply returns_Renew_leave|].
  apply returns_bind; [apply returns_Commit|]. intros [e|];
    [apply returns_Renew_leave|].
  apply returns_bind; [apply returns_log|]. intros _.
  apply returns_bind; [apply returns_reloadNginxInContainer|]. intros [e|];
    apply returns_Renew_leave.
Qed.

Lemma unwinding_panics {A} (d : Go unit) (m : Go A) w msg w1 :
  m w = Panic msg w1 → ∃ msg' w', unwinding d m w = Panic msg' w'.
Proof.
  intros Hrun. unfold unwinding. rewrite Hrun.
  destruct (d w1); by eexists _, _.
Qed.

(** A Renew that has begun its transaction and finds no handle for the
    provider panics. *)
Lemma RenewDomainCertificate_panics_without_handle env s (domain : DomainsDTO) w :
  (∀ c, SelectClientByName s (det_DNSProvider (Details domain)) w
        ≠ Return (Some c, None) w) →
  db_fault env OpBegin = None →
  ∃ msg w', RenewDomainCertificate env s domain w = Panic msg w'.
Proof.
  intros Hnone Hbegin. unfold RenewDomainCertificate. rewrite bind_log.
  erewrite bind_Return by (by apply BeginTx_ok).
  cbn iota zeta. rewrite bind_log.
  match goal with
  | |- context [(SelectClientByName s ?p ≫= _) ?v] =>
      destruct (SelectClientByName s p v) as [[[c|] err] v'|msg v'] eqn:Hsel
  end.
  - pose proof (SelectClientByName_handle _ _ _ _ _ _ Hsel) as ->.
    apply SelectClientByName_pure in Hsel as [_ Hsel].
    destruct (Hnone c (Hsel w)).
  - rewrite (bind_Return _ _ _ _ _ Hsel). cbn iota.
    match goal with
    | |- context [(unwinding ?d ?m ≫= _) ?v] =>
        destruct (unwinding_panics d m v nil_deref v eq_refl) as (msg & w' & Hrun)
    end.
    rewrite (bind_Panic _ _ _ _ _ Hrun). by exists msg, w'.
  - rewrite (bind_Panic _ _ _ _ _ Hsel). by exists msg, v'.
Qed.

(** C2, as the code has it. In Create every event is written outside the
    transaction and its error is dropped: whichever event writes fail,
    Create returns the same. In Delete and in Renew the event is inserted in
    the transaction of the workflow. When that insert fails, Delete returns
    an error. Renew then never returns nil: it returns an error when the
    provider of the domain resolves to a handle, and when no handle resolves
    and the transaction has begun it panics. *)
Theorem event_write_failures env s :
  (∀ f g req w,
     result (CreateDomain (with_event_faults f env) s req w)
     = result (CreateDomain (with_event_faults g env) s req w)) ∧
  (∀ filters w,
     is_Some (db_fault env
                (OpInsert (delete_event filters (delete_target filters (db w))))) →
     ∃ e w', DeleteDomain env filters w = Return (Some e) w') ∧
  (∀ domain w,
     is_Some (db_fault env (OpInsert (renewed_event domain))) →
     not_nil (RenewDomainCertificate env s domain w) ∧
     (∀ c,
        SelectClientByName s (det_DNSProvider (Details domain)) w
        = Return (Some c, None) w →
        ∃ e w', RenewDomainCertificate env s domain w = Return (Some e) w') ∧
     ((∀ c, SelectClientByName s (det_DNSProvider (Details domain)) w
            ≠ Return (Some c, None) w) →
      db_fault env OpBegin = None →
      ∃ msg w', RenewDomainCertificate env s domain w = Panic msg w')).
Proof.
  split_and!.
  - intros. apply CreateDomain_result_without_events.
  - intros filters w [e Hfault].
    pose proof (DeleteDomain_cases env filters w) as Hcases.
    unfold delete_outcome in Hcases.
    destruct (DeleteDomain env filters w) as [[e'|] w'|]; [by exists e', w'| |done].
    destruct Hcases as (_ & Hnone & _). congruence.
  - intros domain w Hfault.
    pose proof (RenewDomainCertificate_needs_its_event env s domain w Hfault) as Hnn.
    split_and!; [exact Hnn| |apply RenewDomainCertificate_panics_without_handle].
    intros c Hsel.
    destruct (RenewDomainCertificate_returns env s domain w c Hsel)
      as (ret & w' & Hrun).
    rewrite Hrun in Hnn |- *. destruct ret as [e|]; [by exists e, w'|destruct Hnn].
Qed.

(** With the same store and the same request, Delete returns nil when the
    insert of its event succeeds and an error when it fails. *)
Lemma DeleteDomain_result_follows_event_write :
  result (DeleteDomain (with_event_faults (λ _, None) examples.calm)
            examples.delete_by_name examples.stored)
  = Some None ∧
  result (DeleteDomain (with_event_faults (λ _, Some "insert refused") examples.calm)
            examples.delete_by_name examples.stored)
  = Some (Some "error inserting event: failed to write event: insert refused") ∧
  ¬ (∀ f g,
       result (DeleteDomain (with_event_faults f examples.calm)
                 examples.delete_by_name examples.stored)
       = result (DeleteDomain (with_event_faults g examples.calm)
                   examples.delete_by_name examples.stored)).
Proof.
  assert (H1 : result (DeleteDomain (with_event_faults (λ _, None) examples.calm)
                         examples.delete_by_name examples.stored) = Some None)
    by (vm_compute; reflexivity).
  assert (H2 : result (DeleteDomain
                         (with_event_faults (λ _, Some "insert refused") examples.calm)
                         examples.delete_by_name examples.stored)
               = Some (Some "error inserting event: failed to write event: insert refused"))
    by (vm_compute; reflexivity).
  split_and!; [done..|].
  intros Hsame. specialize (Hsame (λ _, None) (λ _, Some "insert refused")).
  rewrite H1, H2 in Hsame. discriminate.
Qed.

(** ** Create: what a success has written *)

Lemma same_store_refl w : same_store w w.
Proof. by unfold same_store. Qed.

Lemma same_store_trans w1 w2 w3 :
  same_store w1 w2 → same_store w2 w3 → same_store w1 w3.
Proof. unfold same_store. intros (-> & -> & -> & ->) (-> & -> & -> & ->). done. Qed.

Lemma keeps_bind {A B} (m : Go A) (k : A → Go B) :
  keeps_store m → (∀ a, keeps_store (k a)) → keeps_store (m ≫= k).
Proof.
  intros Hm Hk w. specialize (Hm w). unfold mbind, Go_bind.
  destruct (m w) as [a w1|msg w1]; [|done].
  eapply same_store_trans; [exact Hm|apply Hk].
Qed.

Lemma keeps_ret {A} (a : A) : keeps_store (mret a).
Proof. intros w. apply same_store_refl. Qed.

Lemma keeps_panic {A} msg : keeps_store (panic msg : Go A).
Proof. intros w. apply same_store_refl. Qed.

Lemma keeps_log l msg : keeps_store (log l msg).
Proof. intros w. by unfold same_store. Qed.

Lemma keeps_MkdirAll env p : keeps_store (MkdirAll env p).
Proof.
  unfold MkdirAll. destruct p; [|apply keeps_ret].
  destruct (fs_fault env _); [apply keeps_ret|].
  apply keeps_bind; [|intros; apply keeps_ret]. intros w. by unfold same_store.
Qed.

Lemma keeps_WriteFile env p : keeps_store (WriteFile env p).
Proof.
  unfold WriteFile. destruct p; [|apply keeps_ret].
  destruct (fs_fault env _); [apply keeps_ret|].
  apply keeps_bind; [|intros; apply keeps_ret]. intros w. by unfold same_store.
Qed.

Lemma keeps_SaveCertificateFiles env c domain data :
  keeps_store (SaveCertificateFiles env c domain data).
Proof.
  unfold SaveCertificateFiles. destruct c as [c|]; [|apply keeps_panic].
  repeat first
    [ apply keeps_ret | apply keeps_panic | apply keeps_log
    | apply keeps_MkdirAll | apply keeps_WriteFile
    | apply keeps_bind; [|intros ?]
    | match goal with
      | |- keeps_store (match ?x with _ => _ end) => destruct x
      end ].
Qed.

Lemma new_entity_create_domain req w :
  new_entity "domains"
    (<["domain_name" := any_string (Domain req)]>
       (<["dns_provider" := any_string (DNSProvider req)]>
          (<["status" := any_string "pending"]>
             (<["verification_method" := any_string (VerificationMethod req)]>
                (<["nginx_container_name" := any_string (NginxContainerName req)]>
                   (<["created_by" := any_string (CreatedBy req)]>
                      {["auto_renew" := any_bool (AutoRenew req)]})))))) w
  = Return (create_domain_entity req) w.
Proof. reflexivity. Qed.

Lemma new_entity_create_alternative req domainID sub w :
  new_entity "alternative_domains"
    (<["domain_id" := any_string domainID]>
       (<["domain_name" := any_string sub]>
          {["created_by" := any_string (CreatedBy req)]})) w
  = Return (create_alternative_entity req domainID sub) w.
Proof. reflexivity. Qed.

Lemma new_entity_create_certificate req domainID paths data w :
  new_entity "certificates"
    (<["domain_id" := any_string domainID]>
       (<["issuer" := any_string "Let's Encrypt"]>
          (<["cert_path" := any_string (paths_Cert paths)]>
             (<["key_path" := any_string (paths_Key paths)]>
                (<["chain_path" := any_string (paths_Chain paths)]>
                   (<["created_by" := any_string (CreatedBy req)]>
                      (<["valid_from" := any_time (ValidFrom data)]>
                         {["valid_to" := any_time (ValidTo data)]}))))))) w
  = Return (create_certificate_entity req domainID paths data) w.
Proof. reflexivity. Qed.

Lemma new_entity_active user w :
  new_entity "domains"
    (<["status" := any_string "active"]> {["updated_by" := any_string user]}) w
  = Return (status_entity "domains" "active" user) w.
Proof. reflexivity. Qed.

(** The loop over the alternative names in an open transaction: when no
    insert fails, it has added inserts into [alternative_domains] only. *)
Lemma CreateDomain_subs_open env req h domainID subs : ∀ ws w,
  txs w !! h = Some ws →
  ∃ err w',
    CreateDomain_subs env req (Some h) domainID subs w = Return err w' ∧
    db w' = db w ∧
    (err = None →
     ∃ alts, txs w' !! h = Some (ws ++ alts) ∧
             Forall (inserts_into "alternative_domains") alts).
Proof.
  induction subs as [|sub subs IH]; intros ws w Hopen.
  - exists None, w. split_and!; try done. intros _. exists [].
    by rewrite app_nil_r.
  - cbn [CreateDomain_subs].
    erewrite bind_Return by apply new_entity_create_alternative.
    unfold mbind at 1, Go_bind at 1. rewrite (InsertTx_open _ _ _ _ _ Hopen).
    destruct (db_fault env _) as [msg|].
    + eexists _, w. split_and!; done.
    + cbn iota.
      match goal with
      | |- context [CreateDomain_subs env req (Some h) domainID subs ?W] =>
          destruct (IH (ws ++ [WInsert (gen_id env (next_id w))
                                 (create_alternative_entity req domainID sub)]) W)
            as (err & w' & -> & Hdb & Halts); [fields; apply lookup_insert_eq|]
      end.
      exists err, w'. split_and!; [done|by rewrite Hdb|].
      intros Herr. destruct (Halts Herr) as (alts & Htx & Hall).
      eexists (_ :: alts). rewrite Htx, <- app_assoc. split; [done|].
      constructor; done.
Qed.

Lemma no_success_bind {A} (m : Go A) (k : A → Go (string * error)) :
  (∀ a, no_success (k a)) → no_success (m ≫= k).
Proof.
  intros Hk w. unfold mbind, Go_bind. destruct (m w) as [a w'|]; [apply Hk|done].
Qed.

Lemma no_success_error (id e : string) : no_success (mret (id, Some e)).
Proof. by intros w. Qed.

Lemma no_success_outcome env req w m v :
  no_success m → create_outcome env req w (m v).
Proof.
  intros Hm. specialize (Hm v). unfold create_outcome.
  by destruct (m v) as [[id [e|]] w'|].
Qed.

Ltac create_fails :=
  apply no_success_outcome;
  repeat first [apply no_success_error | apply no_success_bind; intros ?].

Lemma CreateDomain_cases env s req w :
  range_ok env → create_outcome env req w (CreateDomain env s req w).
Proof.
  intros Hok. unfold CreateDomain. rewrite bind_log.
  (* the check *)
  unfold mbind at 1, Go_bind at 1, IsDomainExists at 1.
  destruct (db_fault env (OpIsDomainExists (Domain req))) as [e|] eqn:Hcheck;
    [create_fails|].
  fields.
  destruct (bool_decide (Exists (is_live_domain (Domain req)) (db w))) eqn:Hfree;
    [create_fails|].
  apply bool_decide_eq_false in Hfree.
  (* the provider and the issuance *)
  unfold mbind at 1, Go_bind at 1.
  match goal with
  | |- context [SelectClientByName s ?p ?W] =>
      destruct (SelectClientByName s p W) as [[client [e|]] w2|] eqn:Hsel;
        [create_fails| |done];
      apply SelectClientByName_pure in Hsel as [-> _]
  end.
  destruct client as [c|]; [|done].
  unfold mbind at 1, Go_bind at 1. rewrite CreateCertificate_eq.
  destruct (acme env (Name c) (Domain req) (AltDomains req)) as [data|msg];
    [|create_fails].
  (* the files *)
  unfold mbind at 1, Go_bind at 1.
  match goal with
  | |- context [SaveCertificateFiles env ?c ?d ?x ?W] =>
      pose proof (keeps_SaveCertificateFiles env c d x W) as Hkeep;
      destruct (SaveCertificateFiles env c d x W) as [[certPaths [e|]] w4|];
        [create_fails| |done]
  end.
  unfold same_store in Hkeep. cbn [after] in Hkeep.
  destruct Hkeep as (Hdb & Htxs & Hid & Htx). fields.
  (* the transaction *)
  unfold mbind at 1, Go_bind at 1, BeginTx at 1.
  destruct (db_fault env OpBegin) as [e|]; [create_fails|].
  cbn beta iota zeta. set (h := next_tx w4).
  erewrite bind_Return by apply new_entity_create_domain.
  unfold mbind at 1, Go_bind at 1.
  erewrite InsertTx_open by (fields; apply lookup_insert_eq).
  destruct (db_fault env (OpInsert (create_domain_entity req))) as [e|];
    [create_fails|].
  fields. rewrite insert_insert_eq. cbn [app].
  set (id := gen_id env (next_id w4)).
  match goal with
  | |- context [(CreateDomain_subs env req (Some h) id ?subs ≫= _) ?W] =>
      destruct (CreateDomain_subs_open env req h id subs
                  [WInsert id (create_domain_entity req)] W)
        as (err & w5 & Hrun & Hdb5 & Halts); [fields; apply lookup_insert_eq|];
      rewrite (bind_Return _ _ _ _ _ Hrun); clear Hrun
  end.
  destruct err as [e|]; [create_fails|].
  destruct (Halts eq_refl) as (alts & Hopen5 & Hall). clear Halts. fields.
  destruct certPaths as [paths|]; [|done]. cbn [deref]. rewrite !bind_ret.
  erewrite bind_Return by apply new_entity_create_certificate.
  unfold mbind at 1, Go_bind at 1. rewrite (InsertTx_open _ _ _ _ _ Hopen5).
  destruct (db_fault env (OpInsert _)) as [e|]; [create_fails|].
  erewrite bind_Return by apply new_entity_active.
  match goal with
  | |- context [(updateMany env (Some h) ?m ≫= _) ?W] =>
      destruct (updateMany_open env h m
                  (([WInsert id (create_domain_entity req)] ++ alts)
                   ++ [WInsert (gen_id env (next_id w5))
                         (create_certificate_entity req id paths data)]) W)
        as (err & ws1 & Hrun & Hws1); [fields; apply lookup_insert_eq|];
      rewrite (bind_Return _ _ _ _ _ Hrun); clear Hrun
  end.
  destruct err as [e|]; [create_fails|].
  specialize (Hws1 eq_refl). rewrite range_order_singleton in Hws1 by done.
  cbn [map update_of fst snd] in Hws1. fields. rewrite insert_insert_eq.
  (* the commit, and the event after it *)
  unfold mbind at 1, Go_bind at 1.
  erewrite Commit_open by (fields; apply lookup_insert_eq).
  destruct (db_fault env OpCommit) as [e|]; [create_fails|].
  unfold mbind at 1, Go_bind at 1. rewrite safeWriteEvent_eq. fields.
  match goal with
  | |- context [db_fault env (OpInsert ?ev)] =>
      destruct (db_fault env (OpInsert ev)) as [e|]
  end.
  - cbn. unfold created. split_and!; [done..|].
    exists alts, (gen_id env (next_id w5)), paths, data, [].
    split_and!; [done|done|]. rewrite app_nil_r, Hdb5, Hdb. fields.
    subst ws1. by rewrite <- !app_assoc.
  - cbn. unfold created. split_and!; [done..|].
    exists alts, (gen_id env (next_id w5)), paths, data.
    eexists [_]. split_and!; [done| |]; last first.
    + rewrite Hdb5, Hdb. fields. subst ws1. by rewrite <- !app_assoc.
    + by repeat constructor.
Qed.

(** ** Create: one domain to a name *)

Lemma length_filter_map (P : Row → Prop) `{∀ r, Decision (P r)} (f : Row → Row)
  (rows : Db) :
  (∀ r, P (f r) ↔ P r) →
  length (filter P (map f rows)) = length (filter P rows).
Proof.
  intros Hf. induction rows as [|r rows IH]; [reflexivity|].
  cbn [map]. rewrite !filter_cons.
  destruct (decide (P (f r))) as [Hy|Hn], (decide (P r)) as [Hy'|Hn'];
    cbn [length]; rewrite ?IH; try done.
  - destruct Hn'. by apply Hf.
  - destruct Hn. by apply Hf.
Qed.

Lemma filter_other_table (P : Row → Prop) `{∀ r, Decision (P r)} table (rows : Db) :
  (∀ r, P r → ¬ in_table table r) →
  Forall (in_table table) rows → filter P rows = [].
Proof.
  intros Hother Hrows. induction Hrows as [|r rows Hr _ IH]; [reflexivity|].
  rewrite filter_cons_False; [done|]. intros HP. by apply (Hother r).
Qed.

Lemma apply_writes_inserts table ws : ∀ d,
  Forall (inserts_into table) ws →
  ∃ rows, apply_writes ws d = d ++ rows ∧ Forall (in_table table) rows.
Proof.
  induction ws as [|wr ws IH]; intros d Hall.
  - exists []. by rewrite app_nil_r.
  - apply Forall_cons in Hall as [Hwr Hall]. destruct wr as [i e|]; [|done].
    destruct (IH (d ++ [mkRow i e]) Hall) as (rows & Heq & Hrows).
    exists (mkRow i e :: rows). split.
    + change (apply_writes (WInsert i e :: ws) d)
        with (apply_writes ws (d ++ [mkRow i e])).
      by rewrite Heq, <- app_assoc.
    + by constructor.
Qed.

Lemma activation_keeps_columns user id r :
  let r' := update_row (status_entity "domains" "active" user) id r in
  EntityName (row_data r') = EntityName (row_data r) ∧
  StringParameters (row_data r') !! "domain_name"
  = StringParameters (row_data r) !! "domain_name" ∧
  TimeParameters (row_data r') = TimeParameters (row_data r).
Proof.
  cbn zeta. unfold update_row. destruct (decide _); [|done]. cbn.
  split_and!; [done| |by rewrite (left_id_L ∅ (∪))].
  rewrite lookup_union_r; [done|].
  rewrite lookup_insert_ne by done. by rewrite lookup_singleton_ne.
Qed.

Lemma activation_keeps_live n user id r :
  is_live_domain n (update_row (status_entity "domains" "active" user) id r)
  ↔ is_live_domain n r.
Proof.
  destruct (activation_keeps_columns user id r) as (Ht & Hn & Hd).
  unfold is_live_domain, in_table, not_deleted, has_string.
  by rewrite Ht, Hn, Hd.
Qed.

Lemma activation_keeps_named n user id r :
  is_domain_named n (update_row (status_entity "domains" "active" user) id r)
  ↔ is_domain_named n r.
Proof.
  destruct (activation_keeps_columns user id r) as (Ht & Hn & Hd).
  unfold is_domain_named, in_table, has_string. by rewrite Ht, Hn.
Qed.

(** Among the rows a Create has written, one more than before satisfies a
    property of the domains that the activation keeps and the new domain
    has. *)
Lemma created_counts (P : Row → Prop) `{∀ r, Decision (P r)} env req w id w' :
  (∀ r, P r → in_table "domains" r) →
  (∀ user i r, P (update_row (status_entity "domains" "active" user) i r) ↔ P r) →
  P (mkRow id (create_domain_entity req)) →
  created env req w id w' →
  length (filter P (db w')) = S (length (filter P (db w))).
Proof.
  intros Hdom Hact Hnew (_ & _ & alts & cid & paths & data & evs & Halts & Hevs & ->).
  assert (Hnot : ∀ t, t ≠ "domains" → ∀ r, P r → ¬ in_table t r).
  { intros t Ht r HP%Hdom Hr. unfold in_table in *. congruence. }
  rewrite filter_app, (filter_other_table P "events" evs), app_nil_r
    by (done || by apply Hnot).
  rewrite !apply_writes_app.
  destruct (apply_writes_inserts "alternative_domains" alts
              (apply_writes [WInsert id (create_domain_entity req)] (db w)) Halts)
    as (rows & -> & Hrows).
  cbn [apply_writes fold_left apply_write].
  rewrite length_filter_map by apply Hact.
  rewrite !filter_app, (filter_other_table P "alternative_domains" rows)
    by (done || by apply Hnot).
  rewrite filter_cons_True, filter_nil by done.
  rewrite filter_cons_False, filter_nil.
  - rewrite !length_app. cbn. lia.
  - intros HP%Hdom. unfold in_table in HP. cbn in HP. done.
Qed.

(** C7. While the check of the name does not fail, a Create for a name that
    a domain not deleted bears returns [domain already exists] and leaves
    the world as it found it, but for the line it logged: no issuance, no
    file, no row, no transaction. So after a Create that succeeded, a second
    Create with the same request returns that error, and the store holds
    exactly one domain of that name that is not deleted, and one row of that
    name more than before the first call. *)
Theorem CreateDomain_twice env s req :
  range_ok env →
  db_fault env (OpIsDomainExists (Domain req)) = None →
  (∀ v, Exists (is_live_domain (Domain req)) (db v) →
     CreateDomain env s req v
     = Return ("", Some "domain already exists")
         (set_logged (logged v ++ [(Debug, "CreateDomain: start")]) v)) ∧
  (∀ w id w1,
     CreateDomain env s req w = Return (id, None) w1 →
     CreateDomain env s req w1
     = Return ("", Some "domain already exists")
         (set_logged (logged w1 ++ [(Debug, "CreateDomain: start")]) w1) ∧
     length (filter (is_live_domain (Domain req)) (db w1)) = 1%nat ∧
     length (filter (is_domain_named (Domain req)) (db w1))
     = S (length (filter (is_domain_named (Domain req)) (db w)))).
Proof.
  intros Hok Hcheck.
  assert (Htaken : ∀ v, Exists (is_live_domain (Domain req)) (db v) →
     CreateDomain env s req v
     = Return ("", Some "domain already exists")
         (set_logged (logged v ++ [(Debug, "CreateDomain: start")]) v))
    by (intros v; by apply CreateDomain_taken).
  split; [done|]. intros w id w1 Hrun.
  pose proof (CreateDomain_cases env s req w Hok) as Hcreated.
  rewrite Hrun in Hcreated. cbn in Hcreated.
  assert (Hnew : is_live_domain (Domain req) (mkRow id (create_domain_entity req))).
  { unfold is_live_domain, in_table, not_deleted, has_string. cbn.
    split_and!; [done|done|apply lookup_insert_eq]. }
  assert (Hlive : length (filter (is_live_domain (Domain req)) (db w1)) = 1%nat).
  { rewrite (created_counts _ env req w id w1); try done.
    - destruct Hcreated as (_ & Hfree & _). f_equal.
      apply length_zero_iff_nil. apply List.Forall_Exists_neg in Hfree.
      induction Hfree; [done|]. by rewrite filter_cons_False.
    - by intros r (? & _).
    - intros. apply activation_keeps_live. }
  split_and!; [|done|].
  - apply Htaken. apply Exists_exists.
    destruct (filter (is_live_domain (Domain req)) (db w1)) as [|r rest] eqn:Hf;
      [done|].
    assert (Hr : r ∈ filter (is_live_domain (Domain req)) (db w1))
      by (rewrite Hf; left).
    apply list_elem_of_filter in Hr as [HP Hin]. by exists r.
  - apply (created_counts _ env req w id w1);
      [by intros r (? & _)|intros; apply activation_keeps_named| |done].
    destruct Hnew as (? & _ & ?). by split.
Qed.

(** ** The theorems at the example worlds *)

Lemma DeleteDomain_all_or_nothing_witness :
  range_ok examples.calm ∧
  NoDup (map row_id (db examples.stored)) ∧
  ∃ w',
    DeleteDomain examples.calm examples.delete_by_name examples.stored
    = Return None w' ∧
    db w' = map (mark_deleted "admin" 500 "d1" "c1") (db examples.stored)
            ++ [mkRow (gen_id examples.calm 0)
                  (delete_event examples.delete_by_name "d1")].
Proof.
  assert (Hok : range_ok examples.calm) by (intros m; reflexivity).
  assert (Hnd : NoDup (map row_id (db examples.stored)))
    by (apply (bool_decide_unpack _); vm_compute; exact I).
  split; [exact Hok|]. split; [exact Hnd|].
  assert (Htarget : delete_target examples.delete_by_name (db examples.stored) = "d1")
    by (vm_compute; reflexivity).
  assert (Hcert : certificate_of "d1" (db examples.stored) = "c1")
    by (vm_compute; reflexivity).
  destruct (DeleteDomain examples.calm examples.delete_by_name examples.stored)
    as [[e|] w'|msg w'] eqn:Hrun.
  - vm_compute in Hrun. discriminate.
  - exists w'. split; [reflexivity|].
    pose proof (DeleteDomain_all_or_nothing examples.calm
                  examples.delete_by_name examples.stored Hok Hnd) as Hlaw.
    cbn zeta in Hlaw. rewrite Hrun, Htarget, Hcert in Hlaw. exact (proj1 Hlaw).
  - vm_compute in Hrun. discriminate.
Defined.

Lemma event_write_failures_witness :
  (∃ e w', DeleteDomain
             (with_event_faults (λ _, Some "insert refused") examples.calm)
             examples.delete_by_name examples.stored = Return (Some e) w') ∧
  (∃ e w', RenewDomainCertificate
             (with_event_faults (λ _, Some "insert refused") examples.calm)
             examples.service examples.expiring examples.stored
           = Return (Some e) w').
Proof.
  pose proof (event_write_failures
                (with_event_faults (λ _, Some "insert refused") examples.calm)
                examples.service) as (_ & Hdelete & Hrenew).
  split.
  - apply Hdelete. eexists. reflexivity.
  - apply (proj1 (proj2 (Hrenew examples.expiring examples.stored
                                 (ex_intro _ _ eq_refl)))
             examples.cloudflare).
    reflexivity.
Defined.

Lemma renewal_passes_over_witness :
  passed_over 500 examples.far_from_expiry ∧
  RenewExpiringCertificates_loop examples.calm examples.service 500
    [examples.far_from_expiry] examples.stored
  = Return tt examples.stored ∧
  RenewExpiringCertificates examples.calm examples.service examples.stored
  = Return tt (set_clock 501 examples.stored).
Proof.
  assert (Hfar : passed_over 500 examples.far_from_expiry).
  { right. right. vm_compute. reflexivity. }
  split; [exact Hfar|].
  apply (renewal_passes_over examples.calm examples.service 500
           examples.far_from_expiry [] [] examples.stored Hfar).
  - constructor.
  - reflexivity.
  - reflexivity.
Defined.

Lemma CreateDomain_issuance_failure_witness :
  ∃ w',
    CreateDomain examples.refusing examples.service examples.create_request
      examples.stored
    = Return ("", Some "certificate creation failed: acme: order refused") w' ∧
    issued w' = [("cloudflare", "example.org", ["www.example.org"])] ∧
    files w' = [] ∧
    filter not_an_event (db w') = db examples.stored.
Proof.
  destruct (CreateDomain_issuance_failure examples.refusing examples.service
              examples.create_request examples.stored examples.cloudflare
              "acme: order refused")
    as (w' & Hrun & Hissued & Hfiles & _ & Hrows & _).
  - reflexivity.
  - apply (bool_decide_unpack _). vm_compute. exact I.
  - reflexivity.
  - reflexivity.
  - exists w'. split_and!; [exact Hrun|exact Hissued|exact Hfiles|].
    rewrite Hrows. reflexivity.
Defined.

Lemma CreateDomain_twice_witness :
  ∃ id w1,
    CreateDomain examples.calm examples.service examples.create_request
      examples.nothing
    = Return (id, None) w1 ∧
    CreateDomain examples.calm examples.service examples.create_request w1
    = Return ("", Some "domain already exists")
        (set_logged (logged w1 ++ [(Debug, "CreateDomain: start")]) w1) ∧
    length (filter (is_live_domain "example.org") (db w1)) = 1%nat.
Proof.
  assert (Hok : range_ok examples.calm) by (intros m; reflexivity).
  destruct (CreateDomain_twice examples.calm examples.service
              examples.create_request Hok eq_refl) as [_ Htwice].
  destruct (CreateDomain examples.calm examples.service examples.create_request
              examples.nothing) as [[id [e|]] w1|msg w1] eqn:Hrun.
  - vm_compute in Hrun. discriminate.
  - destruct (Htwice examples.nothing id w1 Hrun) as (Hsecond & Hone & _).
    exists id, w1. split_and!; [reflexivity|exact Hsecond|exact Hone].
  - vm_compute in Hrun. discriminate.
Defined.

Lemma unnamed_delete_removes_storage_witness :
  ∃ w',
    DeleteDomain examples.calm examples.delete_by_id examples.stored
    = Return None w' ∧
    goroutines w' = [go_cleanup ""] ∧
    Join ["./certs"; ""] = Some (Clean "./certs") ∧
    ∃ v',
      run examples.calm examples.service (go_cleanup "") examples.stocked
      = Return tt v' ∧
      files v' = [mkPath false ["backup"; "notes.txt"]].
Proof.
  destruct (DeleteDomain examples.calm examples.delete_by_id examples.stored)
    as [[e|] w'|msg w'] eqn:Hrun.
  - vm_compute in Hrun. discriminate.
  - destruct (unnamed_delete_removes_storage examples.calm examples.service
                examples.delete_by_id examples.stored w' examples.cloudflare
                [examples.hetzner])
      as (Hgo & Hjoin & Hclean).
    + reflexivity.
    + exact Hrun.
    + reflexivity.
    + discriminate.
    + exists w'. split_and!; [reflexivity|exact Hgo|exact Hjoin|].
      destruct (Hclean examples.stocked) as (v' & Hv & Hfiles & _).
      * vm_compute. left.
      * reflexivity.
      * exists v'. split; [exact Hv|]. rewrite Hfiles. vm_compute. reflexivity.
  - vm_compute in Hrun. discriminate.
Defined.

Lemma RenewDomainCertificate_unregistered_provider_witness :
  ∃ w',
    RenewDomainCertificate examples.calm examples.service examples.unregistered
      examples.stored
    = Panic nil_deref w' ∧
    db w' = db examples.stored ∧ issued w' = [].
Proof.
  destruct (RenewDomainCertificate_unregistered_provider examples.calm
              examples.service examples.unregistered examples.stored)
    as (_ & w' & Hrun & Hdb & Hissued & _).
  - discriminate.
  - intros c Hc.
    repeat (apply elem_of_cons in Hc as [->|Hc]; [discriminate|]).
    by apply elem_of_nil in Hc.
  - exists w'. split_and!; [exact Hrun|exact Hdb|exact Hissued].
Defined.

(** * Further properties of the code *)

(** ** Entities *)

(** X1. [NewEntity] files every parameter under its key in the bag of its
    dynamic type, and in no other bag; the entity bears the name of the
    table. It panics exactly when some parameter has a type other than
    string, int, time or bool. *)
Theorem NewEntity_sorts_by_type (table : string) (params : gmap string any) :
  (NewEntity table params = None ↔ ∃ k, params !! k = Some any_other) ∧
  ∀ e, NewEntity table params = Some e →
    EntityName e = table ∧
    ∀ k, StringParameters e !! k = params !! k ≫= as_string ∧
         IntegerParameters e !! k = params !! k ≫= as_int ∧
         TimeParameters e !! k = params !! k ≫= as_time ∧
         BoolParameters e !! k = params !! k ≫= as_bool.
Proof.
  unfold NewEntity.
  apply (map_fold_weak_ind (λ acc (m : gmap string any),
    (acc = None ↔ ∃ k, m !! k = Some any_other) ∧
    ∀ e, acc = Some e →
      EntityName e = table ∧
      ∀ k, StringParameters e !! k = m !! k ≫= as_string ∧
           IntegerParameters e !! k = m !! k ≫= as_int ∧
           TimeParameters e !! k = m !! k ≫= as_time ∧
           BoolParameters e !! k = m !! k ≫= as_bool)).
  - split.
    + split; [done|]. intros (k & Hk). by rewrite lookup_empty in Hk.
    + intros e [= <-]. split; [done|]. intros k. cbn.
      rewrite !lookup_empty. done.
  - intros i x m acc Hfresh [IHnone IHsome]. unfold NewEntity_put.
    destruct acc as [e0|].
    + destruct (IHsome e0 eq_refl) as [Hname Hbags].
      assert (Hclean : ∀ k, m !! k ≠ Some any_other).
      { intros k Hk. assert (Some e0 = None) by (apply IHnone; eauto). done. }
      destruct x; (split; [split; [try done|] |]);
        try (intros (k & Hk); destruct (decide (k = i)) as [->|Hne];
             [by rewrite lookup_insert_eq in Hk
             |rewrite lookup_insert_ne in Hk by done; by apply Hclean in Hk]);
        try (intros _; exists i; by rewrite lookup_insert_eq);
        try done;
        intros e [= <-]; (split; [done|]); intros k; cbn;
        destruct (Hbags k) as (Hs & Hi & Ht & Hb);
        (destruct (decide (k = i)) as [->|Hne];
         [rewrite !lookup_insert_eq; rewrite Hfresh in Hs, Hi, Ht, Hb; done
         |rewrite ?lookup_insert_ne by done; done]).
    + split; [|done]. split; [|done]. intros _.
      destruct IHnone as [IHnone _]. destruct (IHnone eq_refl) as (k & Hk).
      exists k. rewrite lookup_insert_ne; [done|]. intros ->. congruence.
Qed.

(** ** The names of a certificate order *)

Lemma first_occurrences_elem (l : list string) x :
  x ∈ first_occurrences l ↔ x ∈ l.
Proof.
  induction l as [|y l IH]; [done|]. cbn.
  rewrite !elem_of_cons, list_elem_of_filter, IH.
  destruct (decide (x = y)); tauto.
Qed.

Lemma first_occurrences_NoDup (l : list string) : NoDup (first_occurrences l).
Proof.
  induction l as [|y l IH]; cbn; [constructor|].
  constructor; [|by apply NoDup_filter].
  rewrite list_elem_of_filter. tauto.
Qed.

Lemma filter_after_filter (P Q : string → Prop) `{∀ x, Decision (P x)}
  `{∀ x, Decision (Q x)} (l : list string) :
  (∀ x, P x → Q x) → filter P (filter Q l) = filter P l.
Proof.
  intros HPQ. induction l as [|x l IH]; [done|].
  rewrite (filter_cons Q). destruct (decide (Q x)) as [Hq|Hq].
  - rewrite !filter_cons. destruct (decide (P x)); by rewrite IH.
  - rewrite filter_cons. rewrite decide_False by (intros Hp; by apply Hq, HPQ).
    done.
Qed.

Lemma filter_twice (P Q : string → Prop) `{∀ x, Decision (P x)}
  `{∀ x, Decision (Q x)} (l : list string) :
  filter P (filter Q l) = filter (λ x, P x ∧ Q x) l.
Proof.
  induction l as [|x l IH]; [done|].
  rewrite (filter_cons Q), (filter_cons (λ x, P x ∧ Q x)).
  destruct (decide (Q x)) as [Hq|Hq].
  - rewrite filter_cons. destruct (decide (P x)) as [Hp|Hp].
    + rewrite decide_True by done. by rewrite IH.
    + rewrite decide_False by tauto. done.
  - rewrite decide_False by tauto. done.
Qed.

(** The loop of [uniqueDomains], started with the names [out] kept so
    far: it goes on with the first occurrences of the names that are not
    among them. *)
Lemma uniqueDomains_loop_eq text (domains : list string) :
  ∀ (seen : gset string) (out : list string),
    (∀ x, x ∈ seen ↔ x ∈ out) →
    providers.uniqueDomains_loop text domains seen out
    = out ++ filter (λ d, d ∉ out)
               (first_occurrences (trimmed_names text domains)).
Proof.
  unfold trimmed_names.
  induction domains as [|d0 rest IH]; intros seen out Hseen.
  - cbn. by rewrite app_nil_r.
  - cbn [providers.uniqueDomains_loop map]. rewrite filter_cons.
    set (d := TrimSpace text d0).
    destruct (decide (d = "")) as [Hempty|Hfull].
    + rewrite decide_False by (intros Hd; by apply Hd). apply IH, Hseen.
    + rewrite (decide_True (P := d ≠ "")) by done.
      cbn [first_occurrences]. rewrite filter_cons.
      destruct (decide (d ∈ seen)) as [Hin|Hout].
      * rewrite decide_False by (intros Hd; apply Hd; by apply Hseen).
        rewrite filter_after_filter; [apply IH, Hseen|].
        intros x Hx ->. apply Hx. by apply Hseen.
      * rewrite decide_True by (intros Hd; apply Hout; by apply Hseen).
        rewrite (IH ({[d]} ∪ seen) (out ++ [d])).
        -- rewrite <- app_assoc. cbn. do 2 f_equal.
           rewrite filter_twice. apply list_filter_iff. intros x.
           rewrite elem_of_app, list_elem_of_singleton. tauto.
        -- intros x. rewrite elem_of_union, elem_of_singleton, elem_of_app,
             list_elem_of_singleton, Hseen. tauto.
Qed.

Lemma filter_all (P : string → Prop) `{∀ x, Decision (P x)} (l : list string) :
  (∀ x, x ∈ l → P x) → filter P l = l.
Proof.
  intros HP. induction l as [|x l IH]; [done|].
  rewrite filter_cons, decide_True by (apply HP; left).
  rewrite IH; [done|]. intros y Hy. apply HP. by right.
Qed.

Lemma uniqueDomains_eq text (domains : list string) :
  providers.uniqueDomains text domains
  = first_occurrences (trimmed_names text domains).
Proof.
  unfold providers.uniqueDomains.
  rewrite (uniqueDomains_loop_eq text domains ∅ []) by set_solver.
  cbn. apply filter_all. intros x _. apply not_elem_of_nil.
Qed.

(** X2. The list [uniqueDomains] returns holds no name twice and no empty
    name; a name is in it exactly when it is not empty and is what
    [strings.TrimSpace] makes of some name of the input. *)
Theorem uniqueDomains_names text (domains : list string) :
  NoDup (providers.uniqueDomains text domains) ∧
  ("" ∉ providers.uniqueDomains text domains) ∧
  ∀ d, d ∈ providers.uniqueDomains text domains
       ↔ d ≠ "" ∧ ∃ x, x ∈ domains ∧ TrimSpace text x = d.
Proof.
  rewrite uniqueDomains_eq. split_and!.
  - apply first_occurrences_NoDup.
  - rewrite first_occurrences_elem. unfold trimmed_names.
    rewrite list_elem_of_filter. tauto.
  - intros d. rewrite first_occurrences_elem. unfold trimmed_names.
    rewrite list_elem_of_filter, list_elem_of_fmap.
    split.
    + intros (Hd & x & -> & Hx). eauto.
    + intros (Hd & x & Hx & <-). eauto.
Qed.

(** X3. [uniqueDomains] keeps the names in the order of their first
    occurrence: its result is the trimmed, non-empty names of the input,
    each at the place where it first occurs. So the primary domain of an
    order, which the caller puts first, stays first when it is not
    empty. *)
Theorem uniqueDomains_keeps_first_occurrences text (domain : string)
  (san : list string) :
  providers.uniqueDomains text (domain :: san)
  = first_occurrences (trimmed_names text (domain :: san)) ∧
  (TrimSpace text domain ≠ "" →
   providers.uniqueDomains text (domain :: san)
   = TrimSpace text domain
     :: filter (λ d, d ≠ TrimSpace text domain)
          (providers.uniqueDomains text san)).
Proof.
  split; [apply uniqueDomains_eq|].
  intros Hfull. rewrite !uniqueDomains_eq. unfold trimmed_names. cbn [map].
  rewrite filter_cons, decide_True by done. reflexivity.
Qed.

(** ** Writes in bulk *)

Lemma new_entity_status table status updatedBy w :
  new_entity table
    (<["status" := any_string status]> {["updated_by" := any_string updatedBy]}) w
  = Return (status_entity table status updatedBy) w.
Proof. reflexivity. Qed.

(** The loop of [insertMany] in an open transaction: it adds the inserts
    in their order until one is refused. *)
Lemma insertMany_loop_open env h (entities : list Entity) : ∀ ids ws w,
  txs w !! h = Some ws →
  ∃ w', db w' = db w ∧
    ((inserts_pass env entities ∧
      insertMany_loop env (Some h) entities ids w
      = Return (ids ++ fresh_ids env (next_id w) (length entities), None) w' ∧
      txs w' !! h = Some (ws ++ inserts_of env (next_id w) entities)) ∨
     (∃ before e rest msg,
        entities = before ++ e :: rest ∧ inserts_pass env before ∧
        db_fault env (OpInsert e) = Some msg ∧
        insertMany_loop env (Some h) entities ids w
        = Return ([], Some ("failed to insert into " +:+ EntityName e +:+ ": "
                            +:+ msg)) w' ∧
        txs w' !! h = Some (ws ++ inserts_of env (next_id w) before))).
Proof.
  induction entities as [|e rest IH]; intros ids ws w Hopen.
  - exists w. split; [done|]. left. split_and!.
    + constructor.
    + cbn. by rewrite app_nil_r.
    + cbn. by rewrite app_nil_r.
  - assert (Hstep :
      insertMany_loop env (Some h) (e :: rest) ids w
      = match db_fault env (OpInsert e) with
        | Some msg =>
            Return ([], Some ("failed to insert into " +:+ EntityName e +:+ ": "
                              +:+ msg)) w
        | None =>
            insertMany_loop env (Some h) rest (ids ++ [gen_id env (next_id w)])
              (set_txs (<[h := ws ++ [WInsert (gen_id env (next_id w)) e]]> (txs w))
                 (set_next_id (S (next_id w)) w))
        end).
    { cbn [insertMany_loop]. unfold mbind at 1, Go_bind at 1.
      rewrite (InsertTx_open _ _ _ _ _ Hopen).
      by destruct (db_fault env (OpInsert e)). }
    rewrite Hstep. clear Hstep.
    destruct (db_fault env (OpInsert e)) as [msg|] eqn:Hfault.
    + exists w. split; [done|]. right. exists [], e, rest, msg.
      split; [done|]. split; [constructor|]. split; [done|].
      split; [reflexivity|]. cbn. by rewrite app_nil_r.
    + set (id := gen_id env (next_id w)).
      set (w1 := set_txs _ _).
      destruct (IH (ids ++ [id]) (ws ++ [WInsert id e]) w1)
        as (w' & Hdb & Hcases); [subst w1; fields; apply lookup_insert_eq|].
      exists w'. split; [by rewrite Hdb|].
      assert (Hnext : next_id w1 = S (next_id w)) by done.
      rewrite Hnext in Hcases.
      destruct Hcases as [(Hall & Hrun & Htx)
                         |(before & e' & rest' & msg & -> & Hall & Hbad & Hrun & Htx)].
      * left. split_and!.
        -- by constructor.
        -- rewrite Hrun. cbn [length]. unfold fresh_ids. cbn [seq map].
           by rewrite <- app_assoc.
        -- rewrite Htx. unfold inserts_of, fresh_ids. cbn [length seq map zip_with].
           by rewrite <- app_assoc.
      * right. exists (e :: before), e', rest', msg. split_and!; try done.
        -- by constructor.
        -- rewrite Htx. unfold inserts_of, fresh_ids. cbn [length seq map zip_with].
           by rewrite <- app_assoc.
Qed.

(** X4. [insertMany] in an open transaction adds the inserts of the
    entities in their order and returns their identifiers, one for each,
    when the store refuses none. When it refuses one, the call returns no
    identifier and the error that names the table of that entity; the
    inserts before it stay in the transaction. The committed rows are not
    touched either way. *)
Theorem insertMany_all_or_first_failure env h ws (entities : list Entity) w :
  txs w !! h = Some ws →
  ∃ w', db w' = db w ∧
    ((inserts_pass env entities ∧
      insertMany env (Some h) entities w
      = Return (fresh_ids env (next_id w) (length entities), None) w' ∧
      length (fresh_ids env (next_id w) (length entities)) = length entities ∧
      txs w' !! h = Some (ws ++ inserts_of env (next_id w) entities)) ∨
     (∃ before e rest msg,
        entities = before ++ e :: rest ∧ inserts_pass env before ∧
        db_fault env (OpInsert e) = Some msg ∧
        insertMany env (Some h) entities w
        = Return ([], Some ("failed to insert into " +:+ EntityName e +:+ ": "
                            +:+ msg)) w' ∧
        txs w' !! h = Some (ws ++ inserts_of env (next_id w) before))).
Proof.
  intros Hopen.
  destruct (insertMany_loop_open env h entities [] ws w Hopen)
    as (w' & Hdb & [(Hall & Hrun & Htx)|Hbad]).
  - exists w'. split; [done|]. left. split_and!; try done.
    unfold fresh_ids. by rewrite length_map, length_seq.
  - exists w'. split; [done|]. by right.
Qed.

Lemma insertMany_all_or_first_failure_witness :
  ∃ w',
    insertMany examples.certificates_locked (Some 0%nat)
      [examples.a_domain; examples.a_certificate; examples.a_domain]
      examples.in_transaction
    = Return ([], Some "failed to insert into certificates: table is locked") w' ∧
    txs w' !! 0%nat = Some [WInsert "id-0" examples.a_domain].
Proof.
  destruct (insertMany_all_or_first_failure examples.certificates_locked 0 []
              [examples.a_domain; examples.a_certificate; examples.a_domain]
              examples.in_transaction)
    as (w' & _ & [(Hall & _)|(before & e & rest & msg & Hsplit & _ & Hbad & Hrun & Htx)]);
    [reflexivity| |].
  - exfalso. apply Forall_cons in Hall as [_ Hall].
    apply Forall_cons in Hall as [Hcert _]. vm_compute in Hcert. done.
  - exists w'. destruct before as [|e0 [|e1 before]].
    + injection Hsplit as <- _. vm_compute in Hbad. done.
    + injection Hsplit as <- <- _. vm_compute in Hbad. injection Hbad as <-.
      split; [exact Hrun|]. rewrite Htx. reflexivity.
    + injection Hsplit as _ <- Hrest. exfalso.
      destruct before as [|e2 before]; [injection Hrest as <- _; by vm_compute in Hbad|].
      injection Hrest as _ Hrest. by destruct before.
Defined.

(** The loop of [updateMany] in an open transaction: it adds the updates
    in the order of the walk until one is refused. *)
Lemma updateMany_loop_stops env h (l : list (string * Entity)) : ∀ ws w,
  txs w !! h = Some ws →
  ∃ w', db w' = db w ∧
    ((updates_pass env l ∧
      updateMany_loop env (Some h) l w = Return None w' ∧
      txs w' !! h = Some (ws ++ map update_of l)) ∨
     (∃ before x rest msg,
        l = before ++ x :: rest ∧ updates_pass env before ∧
        db_fault env (OpUpdate x.2 x.1) = Some msg ∧
        updateMany_loop env (Some h) l w
        = Return (Some ("failed to update " +:+ EntityName x.2 +:+ " id="
                        +:+ x.1 +:+ ": " +:+ msg)) w' ∧
        txs w' !! h = Some (ws ++ map update_of before))).
Proof.
  induction l as [|[id e] l IH]; intros ws w Hopen.
  - exists w. split; [done|]. left. split; [constructor|].
    split; [reflexivity|]. cbn. by rewrite app_nil_r.
  - assert (Hstep :
      updateMany_loop env (Some h) ((id, e) :: l) w
      = match db_fault env (OpUpdate e id) with
        | Some msg =>
            Return (Some ("failed to update " +:+ EntityName e +:+ " id="
                          +:+ id +:+ ": " +:+ msg)) w
        | None =>
            updateMany_loop env (Some h) l
              (set_txs (<[h := ws ++ [WUpdate e id]]> (txs w)) w)
        end).
    { cbn [updateMany_loop]. unfold mbind at 1, Go_bind at 1.
      rewrite (UpdateTx_open _ _ _ _ _ _ Hopen).
      by destruct (db_fault env (OpUpdate e id)). }
    rewrite Hstep. clear Hstep.
    destruct (db_fault env (OpUpdate e id)) as [msg|] eqn:Hfault.
    + exists w. split; [done|]. right. exists [], (id, e), l, msg.
      split; [done|]. split; [constructor|]. split; [done|].
      split; [reflexivity|]. cbn. by rewrite app_nil_r.
    + destruct (IH (ws ++ [WUpdate e id])
                  (set_txs (<[h := ws ++ [WUpdate e id]]> (txs w)) w))
        as (w' & Hdb & Hcases); [fields; apply lookup_insert_eq|].
      exists w'. split; [by rewrite Hdb|].
      destruct Hcases as [(Hall & Hrun & Htx)
                         |(before & x & rest & msg & -> & Hall & Hbad & Hrun & Htx)].
      * left. split; [by constructor|]. split; [done|].
        rewrite Htx. cbn [map]. by rewrite <- app_assoc.
      * right. exists ((id, e) :: before), x, rest, msg.
        split; [done|]. split; [by constructor|]. split; [done|].
        split; [done|]. rewrite Htx. cbn [map]. by rewrite <- app_assoc.
Qed.

(** X5. [updateMany] in an open transaction walks the map of updates and
    adds each update to the transaction; it returns nil when the store
    refuses none. At the first one the store refuses it stops and returns
    the error naming the table and the identifier of that entry: the
    updates walked before it stay in the transaction, the entries after it
    are not tried. The committed rows are not touched either way. *)
Theorem updateMany_all_or_first_failure env h ws (updateData : gmap string Entity) w :
  txs w !! h = Some ws →
  ∃ w', db w' = db w ∧
    ((updates_pass env (range_order env updateData) ∧
      updateMany env (Some h) updateData w = Return None w' ∧
      txs w' !! h = Some (ws ++ map update_of (range_order env updateData))) ∨
     (∃ before x rest msg,
        range_order env updateData = before ++ x :: rest ∧
        updates_pass env before ∧
        db_fault env (OpUpdate x.2 x.1) = Some msg ∧
        updateMany env (Some h) updateData w
        = Return (Some ("failed to update " +:+ EntityName x.2 +:+ " id="
                        +:+ x.1 +:+ ": " +:+ msg)) w' ∧
        txs w' !! h = Some (ws ++ map update_of before))).
Proof. intros Hopen. by apply updateMany_loop_stops. Qed.

Lemma updateMany_all_or_first_failure_witness :
  ∃ w',
    updateMany examples.certificates_locked (Some 0%nat)
      {["c1" := examples.a_certificate]} examples.in_transaction
    = Return (Some "failed to update certificates id=c1: table is locked") w' ∧
    txs w' !! 0%nat = Some [].
Proof.
  destruct (updateMany_all_or_first_failure examples.certificates_locked 0 []
              {["c1" := examples.a_certificate]} examples.in_transaction)
    as (w' & _ & [(Hall & _)|(before & x & rest & msg & Hsplit & _ & Hbad & Hrun & Htx)]);
    [reflexivity| |].
  - exfalso. vm_compute in Hall. apply Forall_cons in Hall as [Hcert _]. done.
  - exists w'. vm_compute in Hsplit. destruct before as [|x0 before].
    + injection Hsplit as <- _. vm_compute in Hbad. injection Hbad as <-.
      split; [exact Hrun|exact Htx].
    + exfalso. injection Hsplit as _ Hrest. by destruct before.
Defined.

(** The loop of [updateStatus] in an open transaction. *)
Lemma updateStatus_loop_stops env h table entity (ids : list string) : ∀ ws w,
  txs w !! h = Some ws →
  ∃ w', db w' = db w ∧
    (((∀ id, id ∈ ids → db_fault env (OpUpdate entity id) = None) ∧
      updateStatus_loop env (Some h) table entity ids w = Return None w' ∧
      txs w' !! h = Some (ws ++ map (WUpdate entity) ids)) ∨
     (∃ before id rest msg,
        ids = before ++ id :: rest ∧
        (∀ id', id' ∈ before → db_fault env (OpUpdate entity id') = None) ∧
        db_fault env (OpUpdate entity id) = Some msg ∧
        updateStatus_loop env (Some h) table entity ids w
        = Return (Some ("failed to update " +:+ table +:+ " with id "
                        +:+ id +:+ ": " +:+ msg)) w' ∧
        txs w' !! h = Some (ws ++ map (WUpdate entity) before))).
Proof.
  induction ids as [|id ids IH]; intros ws w Hopen.
  - exists w. split; [done|]. left. split; [by intros id ?%elem_of_nil|].
    split; [reflexivity|]. cbn. by rewrite app_nil_r.
  - assert (Hstep :
      updateStatus_loop env (Some h) table entity (id :: ids) w
      = match db_fault env (OpUpdate entity id) with
        | Some msg =>
            Return (Some ("failed to update " +:+ table +:+ " with id "
                          +:+ id +:+ ": " +:+ msg)) w
        | None =>
            updateStatus_loop env (Some h) table entity ids
              (set_txs (<[h := ws ++ [WUpdate entity id]]> (txs w)) w)
        end).
    { cbn [updateStatus_loop]. unfold mbind at 1, Go_bind at 1.
      rewrite (UpdateTx_open _ _ _ _ _ _ Hopen).
      by destruct (db_fault env (OpUpdate entity id)). }
    rewrite Hstep. clear Hstep.
    destruct (db_fault env (OpUpdate entity id)) as [msg|] eqn:Hfault.
    + exists w. split; [done|]. right. exists [], id, ids, msg.
      split; [done|]. split; [by intros id' ?%elem_of_nil|]. split; [done|].
      split; [reflexivity|]. cbn. by rewrite app_nil_r.
    + destruct (IH (ws ++ [WUpdate entity id])
                  (set_txs (<[h := ws ++ [WUpdate entity id]]> (txs w)) w))
        as (w' & Hdb & Hcases); [fields; apply lookup_insert_eq|].
      exists w'. split; [by rewrite Hdb|].
      destruct Hcases as [(Hall & Hrun & Htx)
                         |(before & x & rest & msg & -> & Hall & Hbad & Hrun & Htx)].
      * left. split.
        { intros id' [->|Hin]%elem_of_cons; [done|by apply Hall]. }
        split; [done|]. rewrite Htx. cbn [map]. by rewrite <- app_assoc.
      * right. exists (id :: before), x, rest, msg.
        split; [done|]. split.
        { intros id' [->|Hin]%elem_of_cons; [done|by apply Hall]. }
        split; [done|]. split; [done|].
        rewrite Htx. cbn [map]. by rewrite <- app_assoc.
Qed.

(** X6. [updateStatus] takes one identifier or a slice of them: a single
    identifier is treated as the slice holding it, and an operand of any
    other type is refused with the error [unsupported ID type], before
    anything is written. In an open transaction every identifier gets the
    same update, of the status and of [updated_by] alone, in the order of
    the slice, up to the first update the store refuses, which the error
    names. *)
Theorem updateStatus_by_identifier env table status updatedBy :
  (∀ tx type_name w,
     updateStatus env tx (other_id type_name) table status updatedBy w
     = Return (Some ("unsupported ID type: " +:+ type_name)) w) ∧
  (∀ tx id w,
     updateStatus env tx (one_id id) table status updatedBy w
     = updateStatus env tx (many_ids [id]) table status updatedBy w) ∧
  (∀ h ws ids w,
     txs w !! h = Some ws →
     let entity := status_entity table status updatedBy in
     ∃ w', db w' = db w ∧
       (((∀ id, id ∈ ids → db_fault env (OpUpdate entity id) = None) ∧
         updateStatus env (Some h) (many_ids ids) table status updatedBy w
         = Return None w' ∧
         txs w' !! h = Some (ws ++ map (WUpdate entity) ids)) ∨
        (∃ before id rest msg,
           ids = before ++ id :: rest ∧
           (∀ id', id' ∈ before → db_fault env (OpUpdate entity id') = None) ∧
           db_fault env (OpUpdate entity id) = Some msg ∧
           updateStatus env (Some h) (many_ids ids) table status updatedBy w
           = Return (Some ("failed to update " +:+ table +:+ " with id "
                           +:+ id +:+ ": " +:+ msg)) w' ∧
           txs w' !! h = Some (ws ++ map (WUpdate entity) before)))).
Proof.
  split; [done|]. split; [done|].
  intros h ws ids w Hopen entity. unfold updateStatus.
  rewrite (bind_Return _ _ _ _ _ (new_entity_status table status updatedBy w)).
  by apply updateStatus_loop_stops.
Qed.

Lemma updateStatus_by_identifier_witness :
  ∃ w',
    updateStatus examples.calm (Some 0%nat) (many_ids ["d1"; "d2"]) "domains"
      "expired" "system" examples.in_transaction
    = Return None w' ∧
    txs w' !! 0%nat
    = Some [WUpdate (status_entity "domains" "expired" "system") "d1";
            WUpdate (status_entity "domains" "expired" "system") "d2"].
Proof.
  destruct (updateStatus_by_identifier examples.calm "domains" "expired" "system")
    as (_ & _ & Hmany).
  destruct (Hmany 0%nat [] ["d1"; "d2"] examples.in_transaction)
    as (w' & _ & [(_ & Hrun & Htx)|(before & id & rest & msg & _ & _ & Hbad & _)]);
    [reflexivity| |].
  - exists w'. split; [exact Hrun|exact Htx].
  - vm_compute in Hbad. done.
Defined.

(** ** Pagination: the fields of a page *)

Lemma wrap64_in_int z : in_int z → wrap64 z = z.
Proof.
  unfold in_int, wrap64. intros Hz.
  rewrite Z.mod_small by lia. lia.
Qed.

Lemma only_logged_refl w : only_logged w w.
Proof. by destruct w. Qed.

Lemma only_logged_log w w' l :
  only_logged w w' → only_logged w (set_logged l w').
Proof. unfold only_logged. intros ->. by destruct w. Qed.

(** X7. Within the range of [int], a page request with a page number and
    a page size of at least 1 is answered without an error when the two
    queries succeed: both are asked with the limit [page_size] and the
    offset [(page - 1) * page_size]; the answer repeats the page and its
    size; the page count is [(total + page - 1) / page_size]; there is a
    previous page exactly when [page > 1], and it is [page - 1]; there is a
    next page exactly when [page] is below the page count, and it is
    [page + 1]; a missing neighbour is reported as 0. The rows are not
    touched. *)
Theorem GetDomains_navigation env (filters : GetDomainsReq) w :
  let total := domains_count env (db w) (repo_filters filters) in
  (1 ≤ Page filters)%Z → (1 ≤ PageSize filters)%Z → (0 ≤ total)%Z →
  in_int ((Page filters - 1) * PageSize filters) →
  in_int (total + Page filters) →
  db_fault env (OpGetDomainsCount (repo_filters filters)) = None →
  db_fault env (OpGetDomainsList (repo_filters filters)) = None →
  ∃ resp w',
    GetDomains env filters w = Return (resp, None) w' ∧ only_logged w w' ∧
    Domains resp = domains_list env (db w) (repo_filters filters) ∧
    TotalElements resp = total ∧
    resp_Page resp = Page filters ∧ resp_PageSize resp = PageSize filters ∧
    TotalPages resp = ((total + Page filters - 1) / PageSize filters)%Z ∧
    (HasPrev resp = true ↔ (1 < Page filters)%Z) ∧
    PrevPage resp = (if HasPrev resp then Page filters - 1 else 0)%Z ∧
    (HasNext resp = true ↔ (Page filters < TotalPages resp)%Z) ∧
    NextPage resp = (if HasNext resp then Page filters + 1 else 0)%Z.
Proof.
  intros total Hpage Hsize Htotal Hoffset Hsum Hcount Hlist.
  assert (Hpred : int_sub (Page filters) 1 = (Page filters - 1)%Z).
  { unfold int_sub. apply wrap64_in_int. unfold in_int in *. lia. }
  assert (Hoff : int_mul (int_sub (Page filters) 1) (PageSize filters)
                 = ((Page filters - 1) * PageSize filters)%Z).
  { rewrite Hpred. unfold int_mul. by apply wrap64_in_int. }
  assert (Hnum : int_sub (int_add total (Page filters)) 1
                 = (total + Page filters - 1)%Z).
  { unfold int_sub, int_add. rewrite (wrap64_in_int _ Hsum).
    apply wrap64_in_int. unfold in_int in *. lia. }
  assert (Hquot : int_quo (total + Page filters - 1) (PageSize filters)
                  = ((total + Page filters - 1) / PageSize filters)%Z).
  { unfold int_quo. rewrite Z.quot_div_nonneg by lia.
    apply wrap64_in_int. unfold in_int in *.
    assert (0 ≤ (total + Page filters - 1) / PageSize filters
            ≤ total + Page filters - 1)%Z; [|lia].
    split; [apply Z.div_pos; lia|].
    apply Z.div_le_upper_bound; [lia|]. nia. }
  unfold GetDomains. rewrite !bind_log.
  rewrite Hoff. fold (repo_filters filters).
  unfold mbind at 1, Go_bind at 1, GetDomainsCount at 1. rewrite Hcount.
  fields. fold total. cbn iota. rewrite bind_log.
  rewrite decide_False by lia. rewrite bind_log.
  unfold mbind at 1, Go_bind at 1, GetDomainsList at 1. rewrite Hlist.
  fields. cbn iota. rewrite bind_log. rewrite Hnum, Hquot, Hpred.
  eexists _, _. split; [reflexivity|]. cbn [Domains TotalElements resp_Page
    resp_PageSize TotalPages HasPrev PrevPage HasNext NextPage].
  split.
  { repeat apply only_logged_log. apply only_logged_refl. }
  split; [done|]. split; [done|]. split; [done|]. split; [done|].
  split; [done|]. split; [apply Z.ltb_lt|]. split; [done|].
  split; [apply Z.ltb_lt|].
  destruct (Z.ltb_spec (Page filters)
              ((total + Page filters - 1) / PageSize filters)) as [Hlt|_]; [|done].
  unfold int_add. apply wrap64_in_int.
  assert ((total + Page filters - 1) / PageSize filters
          ≤ total + Page filters - 1)%Z.
  { apply Z.div_le_upper_bound; [lia|]. nia. }
  unfold in_int in *. lia.
Qed.

Lemma GetDomains_navigation_witness :
  ∃ resp w',
    GetDomains examples.four_domains (mkGetDomainsReq 2 3 "" "" "") examples.nothing
    = Return (resp, None) w' ∧
    TotalElements resp = 4%Z ∧ TotalPages resp = 1%Z ∧
    HasPrev resp = true ∧ PrevPage resp = 1%Z ∧
    HasNext resp = false ∧ NextPage resp = 0%Z.
Proof.
  destruct (GetDomains_navigation examples.four_domains
              (mkGetDomainsReq 2 3 "" "" "") examples.nothing)
    as (resp & w' & Hrun & _ & _ & Htotal & _ & _ & Hpages & Hprev & Hprevpage
        & Hnext & Hnextpage);
    try (unfold in_int; cbn; lia); try reflexivity.
  exists resp, w'. split; [exact Hrun|].
  cbn in Htotal, Hpages, Hprev, Hprevpage, Hnext, Hnextpage.
  assert (Hp : HasPrev resp = true) by (apply Hprev; lia).
  assert (Hn : HasNext resp = false).
  { destruct (HasNext resp); [|done]. rewrite Hpages in Hnext.
    assert (2 < 1)%Z by (by apply Hnext). lia. }
  rewrite Hp in Hprevpage. rewrite Hn in Hnextpage.
  split; [exact Htotal|]. split; [exact Hpages|]. split; [exact Hp|].
  split; [exact Hprevpage|]. split; [exact Hn|]. exact Hnextpage.
Defined.

(** X8. The ways a page request fails. When the count query fails, its
    error is returned with the zero response, whatever the page size. When
    the count succeeds and the page size is 0, the call panics on the
    division. When the count succeeds, the page size is not 0 and the list
    query fails, the error of the list query is returned with the zero
    response. Nothing but the log is touched. *)
Theorem GetDomains_failures env (filters : GetDomainsReq) w :
  let repoFilters :=
    mkDomainsFilters (Some (PageSize filters))
      (Some (int_mul (int_sub (Page filters) 1) (PageSize filters)))
      (get_DomainName filters) (get_Status filters) (get_UserID filters) in
  (∀ e, db_fault env (OpGetDomainsCount repoFilters) = Some e →
     ∃ w', GetDomains env filters w = Return (GetDomainsResp_zero, Some e) w' ∧
           only_logged w w') ∧
  (db_fault env (OpGetDomainsCount repoFilters) = None →
   PageSize filters = 0%Z →
     ∃ w', GetDomains env filters w
           = Panic "runtime error: integer divide by zero" w' ∧
           only_logged w w') ∧
  (∀ e, db_fault env (OpGetDomainsCount repoFilters) = None →
     PageSize filters ≠ 0%Z →
     db_fault env (OpGetDomainsList repoFilters) = Some e →
     ∃ w', GetDomains env filters w = Return (GetDomainsResp_zero, Some e) w' ∧
           only_logged w w').
Proof.
  intros repoFilters. split_and!.
  - intros e Hcount. unfold GetDomains. rewrite !bind_log.
    fold repoFilters.
    unfold mbind at 1, Go_bind at 1, GetDomainsCount at 1. rewrite Hcount.
    cbn iota. rewrite bind_log. eexists. split; [reflexivity|].
    repeat apply only_logged_log. apply only_logged_refl.
  - intros Hcount Hsize. unfold GetDomains. rewrite !bind_log.
    fold repoFilters.
    unfold mbind at 1, Go_bind at 1, GetDomainsCount at 1. rewrite Hcount.
    cbn iota. rewrite bind_log. rewrite decide_True by done.
    eexists. split; [reflexivity|].
    repeat apply only_logged_log. apply only_logged_refl.
  - intros e Hcount Hsize Hlist. unfold GetDomains. rewrite !bind_log.
    fold repoFilters.
    unfold mbind at 1, Go_bind at 1, GetDomainsCount at 1. rewrite Hcount.
    cbn iota. rewrite bind_log. rewrite decide_False by done. rewrite bind_log.
    unfold mbind at 1, Go_bind at 1, GetDomainsList at 1. rewrite Hlist.
    cbn iota. rewrite bind_log. eexists. split; [reflexivity|].
    repeat apply only_logged_log. apply only_logged_refl.
Qed.

Lemma GetDomains_failures_witness :
  ∃ w',
    GetDomains examples.four_domains (mkGetDomainsReq 1 0 "" "" "") examples.nothing
    = Panic "runtime error: integer divide by zero" w' ∧
    db w' = db examples.nothing.
Proof.
  destruct (GetDomains_failures examples.four_domains
              (mkGetDomainsReq 1 0 "" "" "") examples.nothing)
    as (_ & Hzero & _).
  destruct Hzero as (w' & Hrun & Hlog); [reflexivity|reflexivity|].
  exists w'. split; [exact Hrun|]. rewrite Hlog. reflexivity.
Defined.

(** ** Create: what a failure leaves behind *)

Lemma keeps_rows_bind {A B} (m : Go A) (k : A → Go B) :
  keeps_rows m → (∀ a, keeps_rows (k a)) → keeps_rows (m ≫= k).
Proof.
  intros Hm Hk w. specialize (Hm w). unfold mbind, Go_bind.
  destruct (m w) as [a w1|msg w1]; cbn in *; [|done].
  by rewrite Hk.
Qed.

Lemma keeps_rows_ret {A} (a : A) : keeps_rows (mret a).
Proof. done. Qed.

Lemma keeps_rows_log l msg : keeps_rows (log l msg).
Proof. done. Qed.

Lemma keeps_rows_store {A} (m : Go A) : keeps_store m → keeps_rows m.
Proof. intros Hm w. by destruct (Hm w). Qed.

Lemma keeps_rows_new_entity table params : keeps_rows (new_entity table params).
Proof. intros w. unfold new_entity. by destruct (NewEntity table params). Qed.

Lemma keeps_rows_deref {A} (p : option A) : keeps_rows (deref p).
Proof. intros w. by destruct p. Qed.

Lemma keeps_rows_IsDomainExists env name : keeps_rows (IsDomainExists env name).
Proof.
  intros w. unfold IsDomainExists.
  by destruct (db_fault env (OpIsDomainExists name)).
Qed.

Lemma keeps_rows_SelectClientByName s name : keeps_rows (SelectClientByName s name).
Proof.
  intros w. unfold SelectClientByName.
  destruct (decide (name = "no")); [by destruct (client s)|done].
Qed.

Lemma keeps_rows_CreateCertificate env c domain san :
  keeps_rows (CreateCertificate env c domain san).
Proof.
  intros w. destruct c as [c|]; [|done].
  rewrite CreateCertificate_eq. by destruct (acme env (Name c) domain san).
Qed.

Lemma keeps_rows_write h wr : keeps_rows (write (Some h) wr).
Proof. intros w. unfold write. by destruct (txs w !! h). Qed.

Lemma keeps_rows_InsertTx env h e : keeps_rows (InsertTx env (Some h) e).
Proof.
  unfold InsertTx. destruct (db_fault env (OpInsert e)); [done|].
  apply keeps_rows_bind; [done|]. intros n.
  apply keeps_rows_bind; [done|]. intros _.
  apply keeps_rows_bind; [apply keeps_rows_write|]. by intros [?|].
Qed.

Lemma keeps_rows_UpdateTx env h e id : keeps_rows (UpdateTx env (Some h) e id).
Proof.
  unfold UpdateTx. destruct (db_fault env (OpUpdate e id)); [done|].
  apply keeps_rows_write.
Qed.

Lemma keeps_rows_updateMany env h m : keeps_rows (updateMany env (Some h) m).
Proof.
  unfold updateMany. induction (range_order env m) as [|[id e] l IH]; [done|].
  cbn [updateMany_loop]. apply keeps_rows_bind; [apply keeps_rows_UpdateTx|].
  by intros [?|].
Qed.

Lemma keeps_rows_CreateDomain_subs env req h domainID subs :
  keeps_rows (CreateDomain_subs env req (Some h) domainID subs).
Proof.
  induction subs as [|sub rest IH]; [done|]. cbn [CreateDomain_subs].
  apply keeps_rows_bind; [apply keeps_rows_new_entity|]. intros e.
  apply keeps_rows_bind; [apply keeps_rows_InsertTx|]. by intros [? [?|]].
Qed.

Lemma keeps_rows_Rollback env h : keeps_rows (Rollback env (Some h)).
Proof. intros w. unfold Rollback. by destruct (txs w !! h). Qed.

Lemma fails_clean_bind {A} (m : Go A) (k : A → Go (string * error)) :
  keeps_rows m → (∀ a, fails_clean (k a)) → fails_clean (m ≫= k).
Proof.
  intros Hm Hk w. specialize (Hm w). unfold mbind, Go_bind.
  destruct (m w) as [a w1|msg w1]; cbn in Hm.
  - specialize (Hk a w1). unfold at_most_a_failed_event in *.
    rewrite Hm in Hk. exact Hk.
  - by left.
Qed.

Lemma fails_clean_ret e : fails_clean (mret ("", Some e)).
Proof. intros w. split; [done|by left]. Qed.

(** A [failed] event written outside any transaction, and an error
    returned after it. *)
Lemma fails_clean_event env user d msg e :
  fails_clean (safeWriteEvent env user d "failed" msg ≫= λ _, mret ("", Some e)).
Proof.
  intros w. unfold mbind, Go_bind. rewrite safeWriteEvent_eq.
  destruct (db_fault env (OpInsert (event_entity d "failed" msg user))).
  - split; [done|by left].
  - split; [done|]. right. eexists. split; [reflexivity|]. done.
Qed.

(** The way out of a Create whose transaction is open, with an error. *)
Lemma fails_clean_leave env req h e :
  fails_clean (CreateDomain_deferred env req (Some h) "" (Some e)
               ≫= λ _, mret ("", Some e)).
Proof.
  intros w. unfold CreateDomain_deferred, mbind, Go_bind, log, modify.
  cbn beta iota.
  set (w0 := set_logged _ w).
  pose proof (keeps_rows_Rollback env h w0) as Hroll.
  destruct (Rollback env (Some h) w0) as [r w1|msg w1]; cbn in Hroll.
  - rewrite safeWriteEvent_eq.
    unfold at_most_a_failed_event. rewrite <- Hroll.
    match goal with
    | |- context [db_fault env (OpInsert ?ev)] => destruct (db_fault env (OpInsert ev))
    end.
    + split; [done|by left].
    + split; [done|]. right. eexists. split; [reflexivity|]. done.
  - left. done.
Qed.

(** The commit of a Create: past it, the call reports success. *)
Lemma fails_clean_Commit env h (k : error → Go (string * error)) :
  (∀ e, fails_clean (k (Some e))) → succeeds (k None) →
  fails_clean (Commit env (Some h) ≫= k).
Proof.
  intros Hfail Hok w. unfold mbind, Go_bind, Commit.
  destruct (txs w !! h) as [ws|].
  - destruct (db_fault env OpCommit) as [e|].
    + apply (Hfail e (set_txs (delete h (txs w)) w)).
    + destruct (Hok (set_txs (delete h (txs w)) (set_db (apply_writes ws (db w)) w)))
        as (id & w' & ->). done.
  - apply (Hfail "tx is closed" w).
Qed.

Lemma fails_clean_BeginTx env (k : Tx * error → Go (string * error)) :
  (∀ e, fails_clean (k (None, Some e))) → (∀ h, fails_clean (k (Some h, None))) →
  fails_clean (BeginTx env ≫= k).
Proof.
  intros Hfail Hopen w. unfold mbind, Go_bind, BeginTx.
  destruct (db_fault env OpBegin) as [e|].
  - apply Hfail.
  - apply (Hopen (next_tx w)
             (set_next_tx (S (next_tx w)) (set_txs (<[next_tx w := []]> (txs w)) w))).
Qed.

(** X9. A Create that does not succeed writes no row of a domain, of an
    alternative domain or of a certificate. When it returns an error it
    returns the empty identifier, and the rows are those it found, or those
    and one event of the type [failed] after them; the same holds of the
    rows if it panics. This covers every failure: of the check, of the
    issuance, of the files, and of every write and of the commit of the
    transaction. *)
Theorem CreateDomain_failure_leaves_rows env s (req : CreateDomainReq) w :
  match CreateDomain env s req w with
  | Return (_, None) _ => True
  | Return (id, Some _) w' =>
      id = "" ∧
      (db w' = db w ∨
       ∃ r, db w' = db w ++ [r] ∧ in_table "events" r ∧
            has_string "event_type" "failed" r)
  | Panic _ w' =>
      db w' = db w ∨
      ∃ r, db w' = db w ++ [r] ∧ in_table "events" r ∧
           has_string "event_type" "failed" r
  end.
Proof.
  revert w. change (fails_clean (CreateDomain env s req)).
  unfold CreateDomain.
  apply fails_clean_bind; [apply keeps_rows_log|]. intros _.
  apply fails_clean_bind; [apply keeps_rows_IsDomainExists|]. intros [exists_ [e|]];
    [apply fails_clean_ret|].
  destruct exists_; [apply fails_clean_ret|].
  apply fails_clean_bind; [apply keeps_rows_SelectClientByName|]. intros [c [e|]];
    [apply fails_clean_ret|].
  apply fails_clean_bind; [apply keeps_rows_CreateCertificate|]. intros [certData [e|]].
  { apply fails_clean_bind; [apply keeps_rows_log|]. intros _.
    apply fails_clean_event. }
  apply fails_clean_bind; [apply keeps_rows_store, keeps_SaveCertificateFiles|].
  intros [certPaths [e|]].
  { apply fails_clean_bind; [apply keeps_rows_log|]. intros _.
    apply fails_clean_event. }
  apply fails_clean_BeginTx; [intros e; apply fails_clean_ret|]. intros h.
  cbv zeta.
  apply fails_clean_bind; [apply keeps_rows_new_entity|]. intros domainEntity.
  apply fails_clean_bind; [apply keeps_rows_InsertTx|]. intros [domainID [e|]];
    [apply fails_clean_leave|].
  apply fails_clean_bind; [apply keeps_rows_CreateDomain_subs|]. intros [e|];
    [apply fails_clean_leave|].
  apply fails_clean_bind; [apply keeps_rows_deref|]. intros paths.
  apply fails_clean_bind; [apply keeps_rows_deref|]. intros data.
  apply fails_clean_bind; [apply keeps_rows_new_entity|]. intros certEntity.
  apply fails_clean_bind; [apply keeps_rows_InsertTx|]. intros [cid [e|]];
    [apply fails_clean_leave|].
  apply fails_clean_bind; [apply keeps_rows_new_entity|]. intros activeEntity.
  apply fails_clean_bind; [apply keeps_rows_updateMany|]. intros [e|];
    [apply fails_clean_leave|].
  apply fails_clean_Commit; [intros e; apply fails_clean_leave|].
  intros w.
  destruct (safeWriteEvent_returns env (CreatedBy req) domainID "created"
              "Domain and certificate created successfully" w) as (err & w1 & Hev).
  rewrite (bind_Return _ _ _ _ _ Hev). rewrite bind_log.
  eexists _, _. reflexivity.
Qed.

(** ** Delete: the name, the identifier, and what is left *)

Lemma matches_delete_lookup (filters : DeleteDomainReq) r :
  matches (delete_lookup filters) r ↔ is_live_domain (DomainName filters) r.
Proof.
  unfold matches, is_live_domain, delete_lookup. cbn [EntityName StringParameters].
  rewrite map_Forall_singleton. done.
Qed.

Lemma delete_target_named (filters : DeleteDomainReq) (rows : Db) :
  DomainName filters ≠ "" →
  delete_target filters rows
  = first_id (filter (is_live_domain (DomainName filters)) rows).
Proof.
  intros Hname. unfold delete_target. rewrite decide_True by done.
  f_equal. apply list_filter_iff. intros r. apply matches_delete_lookup.
Qed.

(** X10. A Delete by a name that no stored domain bears (or only deleted
    ones) fails with the error [domain doesn't exist]: the rows, the files
    and the goroutines are those it found, and its transaction is closed.
    This holds whenever the transaction can be opened and the lookup of the
    name does not fail. *)
Theorem DeleteDomain_unknown_name env (filters : DeleteDomainReq) w :
  DomainName filters ≠ "" →
  db_fault env OpBegin = None →
  db_fault env (OpGetIDByName (delete_lookup filters)) = None →
  ¬ Exists (is_live_domain (DomainName filters)) (db w) →
  ∃ w',
    DeleteDomain env filters w = Return (Some "domain doesn't exist") w' ∧
    db w' = db w ∧ files w' = files w ∧ goroutines w' = goroutines w ∧
    txs w' !! next_tx w = None.
Proof.
  intros Hname Hbegin Hlook Hnone.
  assert (Htarget : delete_target filters (db w) = "").
  { rewrite delete_target_named by done.
    destruct (filter _ (db w)) as [|r rows] eqn:Hrows; [done|].
    exfalso. apply Hnone, Exists_exists. exists r.
    assert (Hr : r ∈ filter (is_live_domain (DomainName filters)) (db w))
      by (rewrite Hrows; left).
    apply list_elem_of_filter in Hr. tauto. }
  unfold DeleteDomain. rewrite bind_log.
  erewrite bind_Return by (by apply BeginTx_ok).
  cbn beta iota zeta. fields.
  unfold mbind at 1, Go_bind at 1.
  rewrite DeleteDomain_resolution by (fields; apply lookup_insert_eq).
  rewrite decide_True by done. rewrite Hlook. fields. rewrite Htarget.
  rewrite decide_True by done.
  match goal with
  | |- context [(DeleteDomain_deferred env (Some ?h) (Some ?e) ≫= _) ?W] =>
      destruct (DeleteDomain_leaves_error env h e W)
        as (w' & -> & Hdb & Hfiles & _ & Hgo & Htx)
  end.
  exists w'. rewrite Hdb, Hfiles, Hgo. fields. done.
Qed.

Lemma DeleteDomain_unknown_name_witness :
  ∃ w',
    DeleteDomain examples.calm (mkDeleteDomainReq "" "example.net" "admin")
      examples.stored
    = Return (Some "domain doesn't exist") w' ∧
    db w' = db examples.stored ∧ goroutines w' = [].
Proof.
  destruct (DeleteDomain_unknown_name examples.calm
              (mkDeleteDomainReq "" "example.net" "admin") examples.stored)
    as (w' & Hrun & Hdb & _ & Hgo & _); [done|reflexivity|reflexivity| |].
  - intros Hex. apply Exists_exists in Hex as (r & Hr & _ & _ & Hn).
    vm_compute in Hr.
    repeat (apply elem_of_cons in Hr as [->|Hr]; [by vm_compute in Hn|]).
    by apply elem_of_nil in Hr.
  - exists w'. split; [exact Hrun|]. split; [exact Hdb|exact Hgo].
Defined.

Lemma updateMany_calm env h ws (m : gmap string Entity) w :
  (∀ op, db_fault env op = None) →
  txs w !! h = Some ws →
  updateMany env (Some h) m w
  = Return None
      (set_txs (<[h := ws ++ map update_of (range_order env m)]> (txs w)) w).
Proof.
  intros Hcalm Hopen.
  destruct (updateMany_open env h m ws w Hopen) as (err & ws' & Hrun & Hws).
  destruct (updateMany_loop_stops env h (range_order env m) ws w Hopen)
    as (w' & _ & [(_ & Hnil & _)|(before & x & rest & msg & _ & _ & Hbad & _)]).
  - rewrite Hrun. unfold updateMany in Hrun. rewrite Hrun in Hnil.
    injection Hnil as Herr _. subst err. by rewrite Hws.
  - by rewrite Hcalm in Hbad.
Qed.

(** When no call of the store fails, a Delete returns nil, unless it is
    given a name that no live domain bears. *)
Lemma DeleteDomain_runs env (filters : DeleteDomainReq) w :
  (∀ op, db_fault env op = None) →
  (DomainName filters ≠ "" → delete_target filters (db w) ≠ "") →
  ∃ w', DeleteDomain env filters w = Return None w'.
Proof.
  intros Hcalm Hfound.
  unfold DeleteDomain. rewrite bind_log.
  erewrite bind_Return by (by apply BeginTx_ok).
  cbn beta iota zeta. fields. set (h := next_tx w).
  unfold mbind at 1, Go_bind at 1.
  rewrite DeleteDomain_resolution by (fields; apply lookup_insert_eq).
  rewrite Hcalm.
  replace (if decide (DomainName filters ≠ "") then None else None)
    with (@None string) by (by destruct (decide _)).
  fields. set (domainID := delete_target filters (db w)).
  rewrite decide_False by (intros [Hn Hid]; by apply Hfound).
  unfold mbind at 1, Go_bind at 1. rewrite GetListOfSubDomains_eq, Hcalm.
  fields. set (subs := subdomains_of domainID (db w)).
  unfold mbind at 1, Go_bind at 1, time_Now at 1. fields.
  erewrite bind_Return by apply new_entity_deleted.
  erewrite bind_Return by apply DeleteDomain_subs_eq.
  erewrite bind_Return
    by (apply (updateMany_calm env h []); [done|fields; apply lookup_insert_eq]).
  fields. rewrite insert_insert_eq.
  unfold mbind at 1, Go_bind at 1. rewrite GetCertificatesByDomain_eq, Hcalm.
  fields. set (certID := certificate_of domainID (db w)). cbn [cert_ID].
  cbn [app].
  match goal with
  | |- context [((if decide (certID ≠ "") then _ else _) ≫= _) ?W] =>
      assert (Hcert : ∃ ws2,
        (if decide (certID ≠ "") then
           new_entity "certificates"
             (<["deleted_by" := any_string (UserID filters)]>
                (<["updated_by" := any_string (UserID filters)]>
                   {["deleted_at" := any_time (clock w)]}))
           ≫= λ certEntity, updateMany env (Some h) {[certID := certEntity]}
         else mret None) W
        = Return None (set_txs (<[h := ws2]> (txs W)) W))
  end.
  { destruct (decide (certID ≠ "")).
    - erewrite bind_Return by apply new_entity_deleted_certificate.
      eexists. apply (updateMany_calm env h); [done|fields; apply lookup_insert_eq].
    - eexists. rewrite ret_eq. f_equal. fields.
      by rewrite insert_insert_eq, set_txs_twice. }
  destruct Hcert as (ws2 & Hcert).
  rewrite (bind_Return _ _ _ _ _ Hcert). clear Hcert.
  fields. rewrite insert_insert_eq.
  unfold mbind at 1, Go_bind at 1.
  erewrite writeEvent_open by (fields; apply lookup_insert_eq).
  rewrite Hcalm. fields. rewrite insert_insert_eq.
  unfold mbind at 1, Go_bind at 1.
  erewrite Commit_open by (fields; apply lookup_insert_eq).
  rewrite Hcalm. cbn. eexists. reflexivity.
Qed.

(** The writes of a committed Delete, row by row. *)
Lemma delete_writes_mark env (filters : DeleteDomainReq) now domainID (rows : Db) evid :
  range_ok env → NoDup (map row_id rows) →
  apply_writes
    (delete_writes env filters now domainID (subdomains_of domainID rows)
       (certificate_of domainID rows) evid) rows
  = map (mark_deleted (UserID filters) now domainID (certificate_of domainID rows)) rows
    ++ [mkRow evid (delete_event filters domainID)].
Proof.
  intros Hok Hnd. set (certID := certificate_of domainID rows).
  unfold delete_writes. rewrite !apply_writes_app, apply_writes_updates.
  cbn [apply_writes fold_left apply_write]. f_equal.
  destruct (decide (certID ≠ "")) as [Hc|Hc].
  - rewrite apply_writes_updates, map_map. apply map_ext_in.
    intros r Hr%list_elem_of_In.
    pose proof (delete_passes env (UserID filters) now domainID rows r
                  Hok Hnd Hr certID) as Hpass.
    cbn zeta in Hpass. by rewrite decide_True in Hpass.
  - cbn [apply_writes fold_left]. apply map_ext_in.
    intros r Hr%list_elem_of_In.
    pose proof (delete_passes env (UserID filters) now domainID rows r
                  Hok Hnd Hr certID) as Hpass.
    cbn zeta in Hpass. by rewrite decide_False in Hpass.
Qed.

(** The rows a Delete that returned nil left. *)
Lemma DeleteDomain_committed env (filters : DeleteDomainReq) w w' :
  range_ok env → NoDup (map row_id (db w)) →
  DeleteDomain env filters w = Return None w' →
  let domainID := delete_target filters (db w) in
  (DomainName filters ≠ "" → domainID ≠ "") ∧
  db w' = map (mark_deleted (UserID filters) (clock w) domainID
                 (certificate_of domainID (db w))) (db w)
          ++ [mkRow (gen_id env (next_id w)) (delete_event filters domainID)] ∧
  goroutines w' = goroutines w ++ [go_cleanup (DomainName filters)].
Proof.
  intros Hok Hnd Hrun domainID.
  pose proof (DeleteDomain_cases env filters w) as Hcases.
  rewrite Hrun in Hcases. unfold delete_outcome in Hcases.
  destruct Hcases as (Hfound & _ & Hdb & Hgo & _).
  split; [done|]. split; [|done].
  rewrite Hdb. by apply delete_writes_mark.
Qed.

Lemma filter_none {A} (P : A → Prop) `{∀ x, Decision (P x)} (l : list A) :
  (∀ x, x ∈ l → ¬ P x) → filter P l = [].
Proof.
  intros Hno. induction l as [|x l IH]; [done|].
  rewrite filter_cons, decide_False by (apply Hno; left).
  apply IH. intros y Hy. apply Hno. by right.
Qed.


Lemma mark_deleted_not_subdomain user now domainID certID r :
  ¬ is_subdomain_of domainID (mark_deleted user now domainID certID r).
Proof.
  destruct (mark_deleted_columns user now domainID certID r)
    as (_ & Hname & Hmarked & _).
  intros (Htab & Hlive & Hdom).
  destruct (decide (in_table "domains" r ∧ row_id r = domainID)) as [Hd|Hd].
  - destruct Hd as [Hd _]. unfold in_table in *. congruence.
  - destruct (decide (is_subdomain_of domainID r)) as [Hs|Hs].
    + destruct Hmarked as [_ Hat]; [by right|].
      unfold not_deleted in Hlive. congruence.
    + unfold mark_deleted in Htab, Hlive, Hdom.
      rewrite decide_False in Htab, Hlive, Hdom by done.
      rewrite (decide_False (P := is_subdomain_of domainID r)) in Htab, Hlive, Hdom
        by done.
      destruct (decide (in_table "certificates" r ∧ row_id r = certID ∧ certID ≠ ""))
        as [(Hc & _)|Hc].
      * unfold in_table in *. cbn in Htab. congruence.
      * apply Hs. done.
Qed.

Lemma stored_ids_unique : NoDup (map row_id (db examples.stored)).
Proof. apply (bool_decide_unpack _). vm_compute. exact I. Qed.


(** X11. A Delete that returned nil has left the domain without
    alternative domains that are not deleted, and the domain itself
    deleted: the list of its alternative domains, read again, is empty, and
    every row of the domains table under its identifier bears a deletion
    instant (identifiers being unique among the rows). *)
Theorem DeleteDomain_leaves_no_alternative env (filters : DeleteDomainReq) w w' :
  range_ok env → NoDup (map row_id (db w)) →
  DeleteDomain env filters w = Return None w' →
  let domainID := delete_target filters (db w) in
  filter (is_subdomain_of domainID) (db w') = [] ∧
  (db_fault env (OpGetListOfSubDomains domainID) = None →
   ∃ v, GetListOfSubDomains env domainID w' = Return ([], None) v) ∧
  ∀ r, r ∈ db w' → in_table "domains" r → row_id r = domainID → ¬ not_deleted r.
Proof.
  intros Hok Hnd Hrun domainID.
  destruct (DeleteDomain_committed env filters w w' Hok Hnd Hrun) as (_ & Hdb & _).
  fold domainID in Hdb.
  assert (Hnone : filter (is_subdomain_of domainID) (db w') = []).
  { rewrite Hdb, filter_app. apply app_nil. split.
    - apply filter_none. intros r Hr%list_elem_of_fmap.
      destruct Hr as (r0 & -> & _). apply mark_deleted_not_subdomain.
    - rewrite filter_cons, decide_False; [done|]. by intros (Htab & _). }
  split; [done|]. split.
  - intros Hfault. rewrite GetListOfSubDomains_eq, Hfault.
    unfold subdomains_of. fields. rewrite Hnone. by eexists.
  - intros r Hr Htab Hid Hlive. rewrite Hdb in Hr.
    apply elem_of_app in Hr as [Hr|Hr].
    + apply list_elem_of_fmap in Hr as (r0 & -> & Hr0).
      destruct (mark_deleted_columns (UserID filters) (clock w) domainID
                  (certificate_of domainID (db w)) r0)
        as (Hsame & Hname & Hmarked & _).
      destruct Hmarked as [_ Hat].
      { left. unfold in_table in *. split; congruence. }
      unfold not_deleted in Hlive. congruence.
    + apply list_elem_of_singleton in Hr as ->. done.
Qed.

Lemma DeleteDomain_leaves_no_alternative_witness :
  ∃ w' v,
    DeleteDomain examples.calm examples.delete_by_name examples.stored
    = Return None w' ∧
    GetListOfSubDomains examples.calm "d1" examples.stored
    = Return (["a1"], None)
        (set_logged [(Debug, "Filters in repo layer: ")] examples.stored) ∧
    GetListOfSubDomains examples.calm "d1" w' = Return ([], None) v.
Proof.
  destruct (DeleteDomain_runs examples.calm examples.delete_by_name examples.stored)
    as (w' & Hrun); [done|vm_compute; discriminate|].
  destruct (DeleteDomain_leaves_no_alternative examples.calm examples.delete_by_name
              examples.stored w' calm_range_ok stored_ids_unique Hrun)
    as (_ & Hlist & _).
  destruct Hlist as (v & Hv); [reflexivity|].
  exists w', v. split; [exact Hrun|]. split; [reflexivity|exact Hv].
Defined.



(** X13. A Delete by identifier does not check that the identifier is
    that of a stored domain. When the request bears no name, no call of the
    store fails, no row bears the identifier of the request and no row
    refers to it as its domain, the Delete returns nil all the same: the
    rows are those it found with one [deleted] event for that identifier
    after them, and the cleanup is started with the empty name. *)
Theorem DeleteDomain_by_identifier_is_unchecked env (filters : DeleteDomainReq) w :
  (∀ op, db_fault env op = None) → range_ok env →
  NoDup (map row_id (db w)) →
  DomainName filters = "" →
  (∀ r, r ∈ db w →
     row_id r ≠ DomainID filters ∧
     ¬ has_string "domain_id" (DomainID filters) r) →
  ∃ w',
    DeleteDomain env filters w = Return None w' ∧
    db w' = db w ++ [mkRow (gen_id env (next_id w))
                       (delete_event filters (DomainID filters))] ∧
    goroutines w' = goroutines w ++ [go_cleanup ""].
Proof.
  intros Hcalm Hok Hnd Hname Hnew.
  destruct (DeleteDomain_runs env filters w Hcalm) as (w' & Hrun); [done|].
  destruct (DeleteDomain_committed env filters w w' Hok Hnd Hrun) as (_ & Hdb & Hgo).
  assert (Htarget : delete_target filters (db w) = DomainID filters).
  { unfold delete_target. rewrite decide_False; [done|]. by intros []. }
  rewrite Htarget in Hdb. rewrite Hname in Hgo.
  exists w'. split; [done|]. split; [|done].
  rewrite Hdb. f_equal.
  assert (Hcert : certificate_of (DomainID filters) (db w) = "").
  { unfold certificate_of. rewrite filter_none; [done|].
    intros r Hr (_ & _ & Href). by apply (Hnew r Hr). }
  rewrite Hcert. rewrite <- (map_id (db w)) at 2. apply map_ext_in.
  intros r Hr%list_elem_of_In. destruct (Hnew r Hr) as [Hid Href].
  unfold mark_deleted.
  rewrite decide_False by tauto.
  rewrite decide_False by (intros (_ & _ & Href'); by apply Href).
  rewrite decide_False by tauto. done.
Qed.

Lemma DeleteDomain_by_identifier_is_unchecked_witness :
  ∃ w',
    DeleteDomain examples.calm (mkDeleteDomainReq "no-such-id" "" "admin")
      examples.stored
    = Return None w' ∧
    db w' = db examples.stored
            ++ [mkRow "id-0"
                  (delete_event (mkDeleteDomainReq "no-such-id" "" "admin")
                     "no-such-id")] ∧
    goroutines w' = [go_cleanup ""].
Proof.
  destruct (DeleteDomain_by_identifier_is_unchecked examples.calm
              (mkDeleteDomainReq "no-such-id" "" "admin") examples.stored)
    as (w' & Hrun & Hdb & Hgo);
    [done|exact calm_range_ok|exact stored_ids_unique|done| |].
  - intros r Hr. cbn in Hr.
    apply elem_of_cons in Hr as [->|Hr]; [by vm_compute|].
    apply elem_of_cons in Hr as [->|Hr]; [by vm_compute|].
    apply elem_of_cons in Hr as [->|Hr]; [by vm_compute|].
    by apply elem_of_nil in Hr.
  - exists w'. split; [exact Hrun|]. split; [exact Hdb|exact Hgo].
Defined.

(** ** Renew: what it writes *)

Create HintDb rows discriminated.

#[local] Hint Resolve keeps_rows_ret keeps_rows_log keeps_rows_new_entity
  keeps_rows_deref keeps_rows_SelectClientByName keeps_rows_CreateCertificate
  keeps_rows_InsertTx keeps_rows_UpdateTx keeps_rows_updateMany
  keeps_rows_Rollback : rows.

Lemma keeps_rows_SaveCertificateFiles env c domain data :
  keeps_rows (SaveCertificateFiles env c domain data).
Proof. apply keeps_rows_store, keeps_SaveCertificateFiles. Qed.

Lemma keeps_rows_writeEvent env h d t m u :
  keeps_rows (writeEvent env (Some h) d t m u).
Proof.
  unfold writeEvent. apply keeps_rows_bind; [auto with rows|]. intros e.
  apply keeps_rows_bind; [auto with rows|]. by intros [? [?|]].
Qed.

Lemma keeps_rows_Renew_deferred env h err :
  keeps_rows (RenewDomainCertificate_deferred env (Some h) err).
Proof.
  destruct err; [|done]. cbn.
  apply keeps_rows_bind; [auto with rows|]. intros _.
  apply keeps_rows_bind; [auto with rows|]. done.
Qed.

Lemma keeps_rows_unwinding {A} (d : Go unit) (m : Go A) :
  keeps_rows d → keeps_rows m → keeps_rows (unwinding d m).
Proof.
  intros Hd Hm w. specialize (Hm w). unfold unwinding.
  destruct (m w) as [a w1|msg w1]; [done|]. cbn in Hm.
  specialize (Hd w1). destruct (d w1); cbn in *; congruence.
Qed.

#[local] Hint Resolve keeps_rows_SaveCertificateFiles keeps_rows_writeEvent
  keeps_rows_Renew_deferred keeps_rows_unwinding : rows.

Lemma fails_back_bind {A} (m : Go A) (k : A → Go error) :
  keeps_rows m → (∀ a, fails_back (k a)) → fails_back (m ≫= k).
Proof.
  intros Hm Hk w. specialize (Hm w). unfold mbind, Go_bind.
  destruct (m w) as [a w1|msg w1]; cbn in Hm; [|done].
  specialize (Hk a w1). rewrite Hm in Hk. exact Hk.
Qed.

Lemma fails_back_leave env h err e :
  fails_back (RenewDomainCertificate_deferred env (Some h) err
              ≫= λ _, mret (Some e)).
Proof.
  intros w. pose proof (keeps_rows_Renew_deferred env h err w) as Hkeep.
  unfold mbind, Go_bind.
  by destruct (RenewDomainCertificate_deferred env (Some h) err w).
Qed.

Lemma fails_back_outcome env domain w (m : Go error) v :
  fails_back m → db v = db w → renew_outcome env domain w (m v).
Proof.
  intros Hm Hdb. specialize (Hm v). unfold renew_outcome.
  destruct (m v) as [[e|] w'|msg w']; [|done|congruence].
  left. split; [done|congruence].
Qed.

Ltac renew_fails :=
  apply fails_back_outcome; [|fields; congruence];
  repeat first
    [ apply fails_back_leave
    | apply fails_back_bind; [auto with rows|intros ?] ].

Lemma unwinding_nil {A} env tx (m : Go A) w :
  unwinding (RenewDomainCertificate_deferred env tx None) m w = m w.
Proof. unfold unwinding. by destruct (m w). Qed.

Lemma new_entity_renew_certificate paths data updated_at w :
  new_entity "certificates"
    (<["cert_path" := any_string (paths_Cert paths)]>
       (<["key_path" := any_string (paths_Key paths)]>
          (<["chain_path" := any_string (paths_Chain paths)]>
             (<["updated_by" := any_string "system-renewal"]>
                (<["valid_from" := any_time (ValidFrom data)]>
                   (<["valid_to" := any_time (ValidTo data)]>
                      {["updated_at" := any_time updated_at]})))))) w
  = Return (renew_certificate_entity paths data updated_at) w.
Proof. reflexivity. Qed.

Lemma RenewDomainCertificate_cases env s (domain : DomainsDTO) w :
  range_ok env →
  renew_outcome env domain w (RenewDomainCertificate env s domain w).
Proof.
  intros Hok. unfold RenewDomainCertificate. rewrite bind_log.
  unfold mbind at 1, Go_bind at 1, BeginTx at 1.
  destruct (db_fault env OpBegin) as [e|]; [by left|].
  cbn beta iota zeta. fields. set (h := next_tx w). rewrite bind_log.
  (* the provider *)
  unfold mbind at 1, Go_bind at 1.
  match goal with
  | |- context [SelectClientByName s ?p ?W] =>
      pose proof (keeps_rows_SelectClientByName s p W) as Hkeep;
      destruct (SelectClientByName s p W) as [[client err] w2|msg w2] eqn:Hsel;
        [|exact Hkeep]; clear Hkeep;
      pose proof Hsel as Hpure; apply SelectClientByName_pure in Hpure as [-> _]
  end.
  destruct client as [c|]; last first.
  { (* a nil handle: the issuance call panics *)
    unfold mbind at 1, Go_bind at 1, unwinding at 1. cbn [CreateCertificate panic].
    match goal with
    | |- context [RenewDomainCertificate_deferred env (Some h) err ?W] =>
        pose proof (keeps_rows_Renew_deferred env h err W) as Hkeep;
        destruct (RenewDomainCertificate_deferred env (Some h) err W); exact Hkeep
    end. }
  apply SelectClientByName_handle in Hsel as ->.
  (* the issuance *)
  unfold mbind at 1, Go_bind at 1. rewrite unwinding_nil, CreateCertificate_eq.
  destruct (acme env (Name c) (dto_DomainName domain) (Sub domain)) as [data|msg];
    [|renew_fails].
  (* the files *)
  unfold mbind at 1, Go_bind at 1. rewrite unwinding_nil.
  match goal with
  | |- context [SaveCertificateFiles env ?c ?d ?x ?W] =>
      pose proof (keeps_SaveCertificateFiles env c d x W) as Hkeep;
      destruct (SaveCertificateFiles env c d x W) as [[certPaths [e|]] w4|msg w4]
  end;
    unfold same_store in Hkeep; cbn [after] in Hkeep;
    destruct Hkeep as (Hdb & Htxs & Hid & Htx); fields.
  { renew_fails. }
  2: { done. }
  assert (Hopen : txs w4 !! h = Some []) by (rewrite Htxs; apply lookup_insert_eq).
  unfold mbind at 1, Go_bind at 1. rewrite unwinding_nil.
  destruct certPaths as [paths|]; [|done]. cbn [deref]. rewrite ret_eq.
  unfold mbind at 1, Go_bind at 1. rewrite unwinding_nil. cbn [deref]. rewrite ret_eq.
  unfold mbind at 1, Go_bind at 1, time_Now at 1.
  set (updated_at := clock w4).
  assert (Hopen5 : txs (set_clock (updated_at + 1)%Z w4) !! h = Some []) by done.
  unfold mbind at 1, Go_bind at 1.
  rewrite unwinding_nil, new_entity_renew_certificate.
  (* the update of the certificates table *)
  match goal with
  | |- context [(updateMany env (Some h) ?m ≫= _) ?W] =>
      destruct (updateMany_open env h m [] W Hopen5) as (err & ws1 & Hrun & Hws1);
      rewrite (bind_Return _ _ _ _ _ Hrun); clear Hrun
  end.
  destruct err as [e|]; [renew_fails|].
  specialize (Hws1 eq_refl). rewrite range_order_singleton in Hws1 by done.
  cbn [app map update_of fst snd] in Hws1. subst ws1.
  (* the update of the domain *)
  unfold mbind at 1, Go_bind at 1. rewrite unwinding_nil, new_entity_active.
  match goal with
  | |- context [(updateMany env (Some h) ?m ≫= _) ?W] =>
      destruct (updateMany_open env h m
                  [WUpdate (renew_certificate_entity paths data updated_at) (ID domain)]
                  W)
        as (err & ws2 & Hrun & Hws2); [fields; apply lookup_insert_eq|];
      rewrite (bind_Return _ _ _ _ _ Hrun); clear Hrun
  end.
  destruct err as [e|]; [renew_fails|].
  specialize (Hws2 eq_refl). rewrite range_order_singleton in Hws2 by done.
  cbn [app map update_of fst snd] in Hws2. subst ws2.
  fields. rewrite insert_insert_eq.
  (* the event *)
  unfold mbind at 1, Go_bind at 1.
  erewrite writeEvent_open by (fields; apply lookup_insert_eq).
  fold (renewed_event domain).
  destruct (db_fault env (OpInsert (renewed_event domain))) as [e|]; [renew_fails|].
  fields. rewrite insert_insert_eq. cbn [app].
  (* the commit *)
  unfold mbind at 1, Go_bind at 1.
  erewrite Commit_open by (fields; apply lookup_insert_eq).
  destruct (db_fault env OpCommit) as [e|]; [renew_fails|].
  (* the reload *)
  rewrite bind_log. unfold reloadNginxInContainer.
  assert (Hrows :
    apply_writes
      [WUpdate (renew_certificate_entity paths data updated_at) (ID domain);
       WUpdate (status_entity "domains" "active" "system-renewal") (ID domain);
       WInsert (gen_id env (next_id w4)) (renewed_event domain)] (db w4)
    = apply_writes
        (renew_writes domain paths data updated_at (gen_id env (next_id w)))
        (db w)).
  { unfold renew_writes. by rewrite Hdb, Hid. }
  destruct (decide (det_NginxContainerName (Details domain) = "")).
  - rewrite bind_ret. cbn. right. exists paths, data, updated_at.
    split; [exact Hrows|by left].
  - unfold mbind at 1, Go_bind at 1. unfold mbind at 1, Go_bind at 1, modify at 1.
    destruct (docker_exec env (det_NginxContainerName (Details domain))) as [e|].
    + rewrite bind_log. cbn. right. exists paths, data, updated_at.
      split; [exact Hrows|]. right. by eexists.
    + rewrite bind_log. cbn. right. exists paths, data, updated_at.
      split; [exact Hrows|by left].
Qed.

(** X14. Renew is all-or-nothing on the rows. Whenever it returns an error
    before its commit, or panics, the rows are those it found. Otherwise
    its one transaction is committed: the rows are those it found with an
    update of the certificates table (the new paths and validity) and an
    update of the domains table (status [active]), both under the
    identifier of the domain, and one [renewed] event; it then returns nil,
    or the error of the reload of the web server, which undoes nothing. *)
Theorem RenewDomainCertificate_all_or_nothing env s (domain : DomainsDTO) w :
  range_ok env →
  match RenewDomainCertificate env s domain w with
  | Return ret w' =>
      (ret ≠ None ∧ db w' = db w) ∨
      (∃ paths data updated_at,
         db w' = apply_writes
                   [WUpdate (renew_certificate_entity paths data updated_at)
                      (ID domain);
                    WUpdate (status_entity "domains" "active" "system-renewal")
                      (ID domain);
                    WInsert (gen_id env (next_id w)) (renewed_event domain)]
                   (db w) ∧
         (ret = None ∨
          ∃ e, ret = Some (wrap "certificate renewed but nginx reload failed" e)))
  | Panic _ w' => db w' = db w
  end.
Proof. intros Hok. by apply RenewDomainCertificate_cases. Qed.

Lemma RenewDomainCertificate_all_or_nothing_witness :
  ∃ w' paths data updated_at,
    RenewDomainCertificate examples.calm examples.service examples.expiring
      examples.stored
    = Return None w' ∧
    db w' = apply_writes
              [WUpdate (renew_certificate_entity paths data updated_at) "d1";
               WUpdate (status_entity "domains" "active" "system-renewal") "d1";
               WInsert "id-0" (renewed_event examples.expiring)]
              (db examples.stored).
Proof.
  destruct (RenewDomainCertificate examples.calm examples.service examples.expiring
              examples.stored) as [[e|] w'|msg w'] eqn:Hrun.
  - vm_compute in Hrun. discriminate.
  - pose proof (RenewDomainCertificate_all_or_nothing examples.calm examples.service
                  examples.expiring examples.stored calm_range_ok) as Hlaw.
    rewrite Hrun in Hlaw.
    destruct Hlaw as [[Hne _]|(paths & data & updated_at & Hdb & _)];
      [exfalso; apply Hne; reflexivity|].
    exists w', paths, data, updated_at. split; [reflexivity|exact Hdb].
  - vm_compute in Hrun. discriminate.
Defined.

Lemma filter_map_fixed (P : Row → Prop) `{∀ r, Decision (P r)} (f : Row → Row)
  (rows : Db) :
  (∀ r, r ∈ rows → (P (f r) ↔ P r) ∧ (P r → f r = r)) →
  filter P (map f rows) = filter P rows.
Proof.
  induction rows as [|r rows IH]; intros Hf; [done|].
  cbn [map]. rewrite !filter_cons.
  destruct (Hf r) as [Hiff Hfix]; [left|].
  rewrite IH by (intros r' Hr'; apply Hf; by right).
  destruct (decide (P r)) as [Hp|Hp].
  - rewrite decide_True by (by apply Hiff). by rewrite Hfix.
  - rewrite decide_False; [done|]. intros Hp'. by apply Hp, Hiff.
Qed.

Lemma update_row_table e id r :
  EntityName (row_data (update_row e id r)) = EntityName (row_data r).
Proof. unfold update_row. by destruct (decide _). Qed.

(** X15. Renew does not touch the rows of the certificates table. The
    update it makes of that table bears the identifier of the domain, not
    that of a certificate: when a row of the domains table bears that
    identifier, and identifiers are unique among the rows, the update finds
    no row. So however a Renew ends, the stored certificates, their
    validity included, are those it found. *)
Theorem RenewDomainCertificate_keeps_certificate_rows env s (domain : DomainsDTO) w :
  range_ok env → NoDup (map row_id (db w)) →
  (∃ r, r ∈ db w ∧ in_table "domains" r ∧ row_id r = ID domain) →
  filter (in_table "certificates")
    (db (after (RenewDomainCertificate env s domain w)))
  = filter (in_table "certificates") (db w).
Proof.
  intros Hok Hnd (r0 & Hr0 & Htab0 & Hid0).
  pose proof (RenewDomainCertificate_cases env s domain w Hok) as Hcases.
  unfold renew_outcome in Hcases.
  destruct (RenewDomainCertificate env s domain w) as [ret w'|msg w']; cbn [after];
    [|by rewrite Hcases].
  destruct Hcases as [[_ ->]|(paths & data & updated_at & -> & _)]; [done|].
  unfold renew_writes. cbn [apply_writes fold_left apply_write].
  rewrite filter_app, filter_cons, decide_False by (by intros ?).
  rewrite filter_nil, app_nil_r.
  rewrite filter_map_fixed.
  - apply filter_map_fixed. intros r Hr. split.
    + unfold in_table. by rewrite update_row_table.
    + intros Htab. unfold update_row. rewrite decide_False; [done|].
      intros [Hid _]. assert (r = r0) as -> by (apply (same_id_same_row (db w)); congruence).
      unfold in_table in *. congruence.
  - intros r Hr. split.
    + unfold in_table. by rewrite update_row_table.
    + intros Htab. unfold update_row. rewrite decide_False; [done|].
      intros [_ Hname]. unfold in_table in Htab. cbn in Hname. congruence.
Qed.

Lemma RenewDomainCertificate_keeps_certificate_rows_witness :
  ∃ w',
    RenewDomainCertificate examples.calm examples.service examples.expiring
      examples.stored
    = Return None w' ∧
    filter (in_table "certificates") (db w') = [examples.stored_certificate] ∧
    TimeParameters (row_data examples.stored_certificate) !! "valid_to"
    = Some 2000%Z.
Proof.
  destruct (RenewDomainCertificate examples.calm examples.service examples.expiring
              examples.stored) as [[e|] w'|msg w'] eqn:Hrun.
  - vm_compute in Hrun. discriminate.
  - exists w'. split; [reflexivity|]. split; [|reflexivity].
    pose proof (RenewDomainCertificate_keeps_certificate_rows examples.calm
                  examples.service examples.expiring examples.stored calm_range_ok
                  stored_ids_unique) as Hkeep.
    rewrite Hrun in Hkeep. cbn [after] in Hkeep. rewrite Hkeep; [reflexivity|].
    exists examples.stored_domain. split; [left|]. split; reflexivity.
  - vm_compute in Hrun. discriminate.
Defined.

(** ** The sweep *)


(** The round of the sweep for a domain it does not pass over. *)
Lemma sweep_renews env s now d rest w :
  ¬ passed_over now d →
  RenewExpiringCertificates_loop env s now (d :: rest) w
  = (RenewDomainCertificate env s d ≫= λ err,
       match err with
       | Some _ => log Error "Failed to renew certificate for"
       | None => mret tt
       end ≫= λ _, RenewExpiringCertificates_loop env s now rest) (triggered w).
Proof.
  intros Hdue. cbn [RenewExpiringCertificates_loop].
  destruct (decide (det_Status (Details d) = "deleted")) as [Hdel|_].
  { exfalso. apply Hdue. by left. }
  destruct (det_AutoRenew (Details d)) eqn:Hauto; cbn [negb].
  2: { exfalso. apply Hdue. right. by left. }
  unfold Time_Before, Time_Add.
  destruct (Z.ltb_spec now (det_CertValidTo (Details d) + -30 * 24 * Hour)) as [Hlt|_].
  { exfalso. apply Hdue. right. right. unfold thirty_days. lia. }
  by rewrite bind_log.
Qed.



(** X17. An error of one Renew does not stop the sweep: it is logged and
    the sweep goes on with the domains after it, from the world that Renew
    left. A panic of one Renew does: the sweep ends with that panic, and
    the domains after it are not tried. *)
Theorem RenewExpiringCertificates_error_goes_on env s now d rest w :
  ¬ passed_over now d →
  match RenewDomainCertificate env s d (triggered w) with
  | Return (Some _) w1 =>
      RenewExpiringCertificates_loop env s now (d :: rest) w
      = RenewExpiringCertificates_loop env s now rest
          (set_logged (logged w1 ++ [(Error, "Failed to renew certificate for")]) w1)
  | Return None w1 =>
      RenewExpiringCertificates_loop env s now (d :: rest) w
      = RenewExpiringCertificates_loop env s now rest w1
  | Panic msg w1 =>
      RenewExpiringCertificates_loop env s now (d :: rest) w = Panic msg w1
  end.
Proof.
  intros Hdue.
  destruct (RenewDomainCertificate env s d (triggered w)) as [[e|] w1|msg w1] eqn:Hrun;
    rewrite sweep_renews by done.
  - rewrite (bind_Return _ _ _ _ _ Hrun). by rewrite bind_log.
  - rewrite (bind_Return _ _ _ _ _ Hrun). by rewrite bind_ret.
  - by rewrite (bind_Panic _ _ _ _ _ Hrun).
Qed.

Lemma RenewExpiringCertificates_error_goes_on_witness :
  ∃ w',
    RenewExpiringCertificates_loop examples.calm examples.service 500
      [examples.unregistered; examples.expiring] examples.stored
    = Panic nil_deref w' ∧
    issued w' = [] ∧ db w' = db examples.stored.
Proof.
  assert (Hdue : ¬ passed_over 500 examples.unregistered).
  { intros [Hdel|[Hauto|Hfar]]; [done|done|]. vm_compute in Hfar. done. }
  destruct (RenewDomainCertificate examples.calm examples.service
              examples.unregistered (triggered examples.stored))
    as [ret w1|msg w1] eqn:Hrun.
  - vm_compute in Hrun. discriminate.
  - pose proof (RenewExpiringCertificates_error_goes_on examples.calm
                  examples.service 500 examples.unregistered [examples.expiring]
                  examples.stored Hdue) as Hlaw.
    rewrite Hrun in Hlaw. vm_compute in Hrun. injection Hrun as Hmsg Hw.
    subst msg. exists w1. split; [exact Hlaw|]. subst w1. split; reflexivity.
Defined.

(** ** The certificate files *)

Lemma add_path_new fs p : p ∈ add_path fs p.
Proof.
  unfold add_path. destruct (decide (p ∈ fs)); [done|].
  apply elem_of_app. right. left.
Qed.

Lemma add_path_old fs p q : q ∈ fs → q ∈ add_path fs p.
Proof.
  intros Hq. unfold add_path. destruct (decide (p ∈ fs)); [done|].
  apply elem_of_app. by left.
Qed.

Lemma add_paths_old ps : ∀ fs q, q ∈ fs → q ∈ fold_left add_path ps fs.
Proof.
  induction ps as [|p ps IH]; intros fs q Hq; [done|].
  cbn. apply IH. by apply add_path_old.
Qed.

Lemma add_paths_new ps : ∀ fs p, p ∈ ps → p ∈ fold_left add_path ps fs.
Proof.
  induction ps as [|p0 ps IH]; intros fs p Hp; [by apply elem_of_nil in Hp|].
  cbn. apply elem_of_cons in Hp as [->|Hp].
  - apply add_paths_old, add_path_new.
  - by apply IH.
Qed.

Lemma with_parents_self p : p ∈ with_parents p.
Proof.
  unfold with_parents. apply list_elem_of_fmap.
  exists (length (comps p)). split.
  - rewrite firstn_all. by destruct p.
  - apply elem_of_seq. lia.
Qed.

(** The directory and the three files of a domain with a plain name. *)
Lemma domain_paths storage domain :
  storage ≠ "" → plain domain →
  Join [storage; domain] = Some (domain_dir storage domain) ∧
  ∀ name, plain name →
    JoinTo (Join [storage; domain]) name
    = Some (file_in (domain_dir storage domain) name).
Proof.
  intros Hdir Hplain.
  pose proof (Join_plain_name storage domain Hdir Hplain) as Hjoin.
  split; [exact Hjoin|]. intros name Hname. rewrite Hjoin.
  by apply JoinTo_plain_name.
Qed.

Lemma MkdirAll_ok env q w :
  fs_fault env (FsMkdirAll (Some q)) = None →
  MkdirAll env (Some q) w
  = Return None (set_files (fold_left add_path (with_parents q) (files w)) w).
Proof. intros Hok. unfold MkdirAll. by rewrite Hok. Qed.

Lemma WriteFile_eq env q w :
  WriteFile env (Some q) w
  = match fs_fault env (FsWriteFile (Some q)) with
    | Some msg => Return (Some msg) w
    | None => Return None (set_files (add_path (files w) q) w)
    end.
Proof. unfold WriteFile. by destruct (fs_fault env (FsWriteFile (Some q))). Qed.

(** The run of [SaveCertificateFiles] when the directory, the
    certificate and the key can be written. *)
Lemma SaveCertificateFiles_run env c (domain : string) (data : CertificateData) w :
  StorageDir (cfg c) ≠ "" → plain domain →
  let dir := domain_dir (StorageDir (cfg c)) domain in
  fs_fault env (FsMkdirAll (Some dir)) = None →
  fs_fault env (FsWriteFile (Some (file_in dir "cert.pem"))) = None →
  fs_fault env (FsWriteFile (Some (file_in dir "privkey.pem"))) = None →
  Chain data = [] ∨
  fs_fault env (FsWriteFile (Some (file_in dir "chain.pem"))) = None →
  ∃ w',
    SaveCertificateFiles env (Some c) domain (Some data) w
    = Return (Some (mkCertificatePaths
                      (Path_string (file_in dir "cert.pem"))
                      (Path_string (file_in dir "privkey.pem"))
                      (Path_string (file_in dir "chain.pem"))), None) w' ∧
    same_store w w' ∧
    dir ∈ files w' ∧
    file_in dir "cert.pem" ∈ files w' ∧
    file_in dir "privkey.pem" ∈ files w' ∧
    (fs_fault env (FsWriteFile (Some (file_in dir "chain.pem"))) = None →
     file_in dir "chain.pem" ∈ files w') ∧
    (∀ p, p ∈ files w → p ∈ files w').
Proof.
  intros Hdir Hplain dir Hmk Hcert Hkey Hchain.
  destruct plain_file_names as (_ & Hpc & Hpk & Hph).
  destruct (domain_paths (StorageDir (cfg c)) domain Hdir Hplain) as [Hjoin Hfile].
  fold dir in Hjoin, Hfile.
  unfold SaveCertificateFiles. rewrite !bind_log.
  rewrite !Hfile by done. rewrite Hjoin.
  erewrite bind_Return by (by apply MkdirAll_ok).
  cbn beta iota. rewrite bind_log.
  unfold mbind at 1, Go_bind at 1. rewrite WriteFile_eq, Hcert.
  cbn beta iota. rewrite bind_log.
  unfold mbind at 1, Go_bind at 1. rewrite WriteFile_eq, Hkey.
  cbn beta iota. rewrite bind_log.
  fields.
  set (fs1 := fold_left add_path (with_parents dir) (files w)).
  set (fs2 := add_path fs1 (file_in dir "cert.pem")).
  set (fs3 := add_path fs2 (file_in dir "privkey.pem")).
  assert (Hold : ∀ p, p ∈ files w → p ∈ fs3).
  { intros p Hp. by apply add_path_old, add_path_old, add_paths_old. }
  assert (Hd : dir ∈ fs3).
  { apply add_path_old, add_path_old, add_paths_new, with_parents_self. }
  assert (Hc : file_in dir "cert.pem" ∈ fs3) by apply add_path_old, add_path_new.
  assert (Hk : file_in dir "privkey.pem" ∈ fs3) by apply add_path_new.
  unfold mbind at 1, Go_bind at 1. rewrite WriteFile_eq.
  destruct (fs_fault env (FsWriteFile (Some (file_in dir "chain.pem"))))
    as [e|] eqn:Hwrite.
  - destruct Hchain as [Hempty|Hnone]; [|done].
    cbn beta iota. rewrite Hempty. rewrite bind_log.
    eexists. split; [reflexivity|]. fields. split_and!; done.
  - cbn beta iota. rewrite bind_log.
    eexists. split; [reflexivity|]. fields.
    split_and!; try done.
    + by apply add_path_old.
    + by apply add_path_old.
    + by apply add_path_old.
    + intros _. apply add_path_new.
    + intros p Hp. by apply add_path_old, Hold.
Qed.

(** X18. Saving the files of a certificate. For a domain with a plain
    name, when the directory can be made and the certificate and the key
    can be written, [SaveCertificateFiles] returns the paths [cert.pem],
    [privkey.pem] and [chain.pem] in the directory of the domain under the
    storage directory; the directory, the certificate and the key exist
    afterwards, and every file that existed before still does. A failure to
    write the chain is an error only when the chain is not empty: with an
    empty chain it is ignored, and the path of the chain is returned all the
    same. Neither the rows nor the transactions are touched. *)
Theorem SaveCertificateFiles_saves env c (domain : string) (data : CertificateData) w :
  StorageDir (cfg c) ≠ "" → plain domain →
  let dir := domain_dir (StorageDir (cfg c)) domain in
  fs_fault env (FsMkdirAll (Some dir)) = None →
  fs_fault env (FsWriteFile (Some (file_in dir "cert.pem"))) = None →
  fs_fault env (FsWriteFile (Some (file_in dir "privkey.pem"))) = None →
  Chain data = [] ∨
  fs_fault env (FsWriteFile (Some (file_in dir "chain.pem"))) = None →
  ∃ w',
    SaveCertificateFiles env (Some c) domain (Some data) w
    = Return (Some (mkCertificatePaths
                      (Path_string (file_in dir "cert.pem"))
                      (Path_string (file_in dir "privkey.pem"))
                      (Path_string (file_in dir "chain.pem"))), None) w' ∧
    same_store w w' ∧
    dir ∈ files w' ∧
    file_in dir "cert.pem" ∈ files w' ∧
    file_in dir "privkey.pem" ∈ files w' ∧
    (fs_fault env (FsWriteFile (Some (file_in dir "chain.pem"))) = None →
     file_in dir "chain.pem" ∈ files w') ∧
    (∀ p, p ∈ files w → p ∈ files w').
Proof. apply SaveCertificateFiles_run. Qed.

Lemma plain_example_org : plain "example.org".
Proof. by vm_compute. Qed.

Lemma SaveCertificateFiles_saves_witness :
  ∃ w',
    SaveCertificateFiles examples.calm (Some examples.cloudflare) "example.org"
      (Some examples.some_certificate) examples.nothing
    = Return (Some (mkCertificatePaths "certs/example.org/cert.pem"
                      "certs/example.org/privkey.pem"
                      "certs/example.org/chain.pem"), None) w' ∧
    mkPath false ["certs"; "example.org"; "privkey.pem"] ∈ files w'.
Proof.
  destruct (SaveCertificateFiles_saves examples.calm examples.cloudflare
              "example.org" examples.some_certificate examples.nothing)
    as (w' & Hrun & _ & _ & _ & Hkey & _);
    [done|exact plain_example_org|reflexivity|reflexivity|reflexivity
    |by left|].
  exists w'. split; [exact Hrun|exact Hkey].
Defined.

Lemma under_true p q :
  under p q = true ↔ rooted p = rooted q ∧ comps p `prefix_of` comps q.
Proof. unfold under. apply bool_decide_eq_true. Qed.

(** The directories of two domains with different plain names hold no
    path in common. *)
Lemma domain_dirs_apart storage domain other p :
  other ≠ domain →
  under (domain_dir storage other) p = true →
  under (domain_dir storage domain) p = false.
Proof.
  intros Hne [_ Hother]%under_true.
  destruct (under (domain_dir storage domain) p) eqn:Hboth; [|done].
  apply under_true in Hboth as [_ Hdom]. exfalso. apply Hne.
  cbn [domain_dir comps] in Hother, Hdom.
  assert (Heq : comps (Clean storage) ++ [other] = comps (Clean storage) ++ [domain]).
  { destruct (prefix_weak_total _ _ _ Hother Hdom) as [Hp|Hp].
    - apply (prefix_length_eq _ _ Hp). rewrite !length_app. cbn. lia.
    - symmetry. apply (prefix_length_eq _ _ Hp). rewrite !length_app. cbn. lia. }
  apply app_inv_head in Heq. congruence.
Qed.

(** X19. Saving and deleting the files of a domain. After the files of a
    domain with a plain name are saved, [DeleteCertificateFiles] for that
    domain succeeds when the removal does; it leaves no path in the
    directory of the domain, keeps every path outside it that existed
    before the save, and so keeps the files of every other domain with a
    plain name. *)
Theorem DeleteCertificateFiles_after_save env c (domain : string)
  (data : CertificateData) w :
  StorageDir (cfg c) ≠ "" → plain domain →
  let dir := domain_dir (StorageDir (cfg c)) domain in
  fs_fault env (FsMkdirAll (Some dir)) = None →
  fs_fault env (FsWriteFile (Some (file_in dir "cert.pem"))) = None →
  fs_fault env (FsWriteFile (Some (file_in dir "privkey.pem"))) = None →
  Chain data = [] ∨
  fs_fault env (FsWriteFile (Some (file_in dir "chain.pem"))) = None →
  fs_fault env (FsRemoveAll (Some dir)) = None →
  ∃ paths w' v,
    SaveCertificateFiles env (Some c) domain (Some data) w
    = Return (Some paths, None) w' ∧
    DeleteCertificateFiles env (Some c) domain w' = Return None v ∧
    (∀ p, under dir p = true → p ∉ files v) ∧
    (∀ p, p ∈ files w → under dir p = false → p ∈ files v) ∧
    (∀ other p, other ≠ domain → p ∈ files w →
       under (domain_dir (StorageDir (cfg c)) other) p = true → p ∈ files v).
Proof.
  intros Hdir Hplain dir Hmk Hcert Hkey Hchain Hrm.
  destruct (SaveCertificateFiles_run env c domain data w Hdir Hplain Hmk Hcert
              Hkey Hchain) as (w' & Hsave & _ & Hd & _ & _ & _ & Hold).
  fold dir in Hsave, Hd.
  destruct (domain_paths (StorageDir (cfg c)) domain Hdir Hplain) as [Hjoin _].
  pose proof (DeleteCertificateFiles_removes env c domain dir w' Hjoin Hd Hrm)
    as Hdelete.
  eexists _, w', _. split; [exact Hsave|]. split; [exact Hdelete|].
  fields.
  assert (Hkept : ∀ p, p ∈ files w → under dir p = false →
                       p ∈ filter (λ f, under dir f = false) (files w')).
  { intros p Hp Hout. apply list_elem_of_filter. split; [done|by apply Hold]. }
  split; [|split].
  - intros p Hp. by apply removed_below.
  - exact Hkept.
  - intros other p Hne Hp Hunder. apply Hkept; [done|].
    by apply (domain_dirs_apart _ _ other).
Qed.

Lemma DeleteCertificateFiles_after_save_witness :
  ∃ paths w' v,
    SaveCertificateFiles examples.calm (Some examples.cloudflare) "example.org"
      (Some examples.some_certificate) examples.stocked
    = Return (Some paths, None) w' ∧
    DeleteCertificateFiles examples.calm (Some examples.cloudflare) "example.org" w'
    = Return None v ∧
    mkPath false ["certs"; "example.com"; "cert.pem"] ∈ files v ∧
    mkPath false ["certs"; "example.org"; "cert.pem"] ∉ files v.
Proof.
  destruct (DeleteCertificateFiles_after_save examples.calm examples.cloudflare
              "example.org" examples.some_certificate examples.stocked)
    as (paths & w' & v & Hsave & Hdelete & Hgone & _ & Hothers);
    [done|exact plain_example_org|reflexivity|reflexivity|reflexivity
    |by left|reflexivity|].
  exists paths, w', v. split; [exact Hsave|]. split; [exact Hdelete|]. split.
  - apply (Hothers "example.com"); [done| |reflexivity].
    cbn. do 3 right. left.
  - apply Hgone. reflexivity.
Defined.

Lemma DeleteCertificateFiles_missing env c (domain : string) v :
  (∀ dir, Join [StorageDir (cfg c); domain] = Some dir → dir ∉ files v) →
  DeleteCertificateFiles env (Some c) domain v
  = Return (Some ("certificate not found for domain: " +:+ domain))
      (set_logged (logged v ++ [(Info, "Deleting certificate files for domain: ")]) v).
Proof.
  intros Hmissing. unfold DeleteCertificateFiles. rewrite bind_log.
  unfold mbind, Go_bind, Stat_IsNotExist.
  destruct (Join [StorageDir (cfg c); domain]) as [dir|] eqn:Hjoin; [|done].
  unfold mbind, Go_bind, gets. fields.
  by rewrite bool_decide_eq_true_2 by (by apply Hmissing).
Qed.

(** X20. The cleanup that a Delete starts takes the first registered
    handle. When the directory of the domain does not exist it removes
    nothing: it logs a warning, and nothing but the log is touched. With no
    handle registered it panics. *)
Theorem cleanup_without_files env s (domain : string) v :
  (∀ first rest,
     client s = first :: rest →
     (∀ dir, Join [StorageDir (cfg first); domain] = Some dir → dir ∉ files v) →
     ∃ v', run env s (go_cleanup domain) v = Return tt v' ∧ only_logged v v' ∧
           (Warn, "Error deleting certificate files:") ∈ logged v') ∧
  (client s = [] →
   run env s (go_cleanup domain) v
   = Panic "runtime error: index out of range [0] with length 0" v).
Proof.
  split.
  - intros first rest Hclient Hmissing.
    unfold run, cleanup, SelectClientByName. rewrite decide_True by done.
    rewrite Hclient. rewrite bind_ret. cbn beta iota.
    erewrite bind_Return by (by apply DeleteCertificateFiles_missing).
    cbn beta iota. unfold log, modify.
    eexists. split; [reflexivity|]. split.
    + repeat apply only_logged_log. apply only_logged_refl.
    + fields. apply elem_of_app. right. left.
  - intros Hclient. unfold run, cleanup, SelectClientByName.
    rewrite decide_True by done. by rewrite Hclient.
Qed.

Lemma cleanup_without_files_witness :
  ∃ v',
    run examples.calm examples.service (go_cleanup "example.org") examples.stocked
    = Return tt v' ∧
    files v' = files examples.stocked.
Proof.
  destruct (cleanup_without_files examples.calm examples.service "example.org"
              examples.stocked) as (Hmissing & _).
  destruct (Hmissing examples.cloudflare [examples.hetzner]) as (v' & Hrun & Hlog & _);
    [reflexivity| |].
  - intros dir Hjoin. vm_compute in Hjoin. injection Hjoin as <-.
    apply (bool_decide_unpack _). vm_compute. exact I.
  - exists v'. split; [exact Hrun|]. rewrite Hlog. reflexivity.
Defined.

(** ** Start-up: the registry of provider handles *)

Lemma files_kept_refl w : files_kept w w.
Proof. by intros p. Qed.

Lemma files_kept_trans w1 w2 w3 :
  files_kept w1 w2 → files_kept w2 w3 → files_kept w1 w3.
Proof. intros H12 H23 p Hp. by apply H23, H12. Qed.

Ltac grows :=
  repeat match goal with x := _ : World |- _ => subst x end;
  unfold same_store, files_kept; fields; try done.

Lemma Stat_IsNotExist_eq p w :
  Stat_IsNotExist p w
  = Return (match p with
            | None => true
            | Some q => bool_decide (q ∉ files w)
            end) w.
Proof. by destruct p. Qed.

Lemma written_parents_self dir : Clean dir ∈ providers.written_parents dir.
Proof.
  unfold providers.written_parents. apply list_elem_of_fmap.
  exists (length (split_slash dir)). split.
  - by rewrite firstn_all.
  - apply elem_of_seq. lia.
Qed.

Lemma MkdirAll_written_cases env dir w :
  ∃ err w',
    providers.MkdirAll_written env dir w = Return err w' ∧
    same_store w w' ∧ files_kept w w' ∧ logged w' = logged w ∧
    (err = None → dir ≠ "" ∧ Clean dir ∈ files w').
Proof.
  unfold providers.MkdirAll_written.
  destruct (decide (dir = "")) as [Hempty|Hfull].
  { eexists _, w. split; [reflexivity|]. split_and!; try done.
    apply files_kept_refl. }
  destruct (fs_fault env (FsMkdirAll (Some (Clean dir)))) as [msg|].
  { eexists _, w. split; [reflexivity|]. split_and!; try done.
    apply files_kept_refl. }
  eexists _, _. split; [reflexivity|]. fields. split_and!; try done.
  - intros p Hp. by apply add_paths_old.
  - intros _. split; [done|]. apply add_paths_new, written_parents_self.
Qed.

Lemma loadOrCreatePrivateKey_cases env platform path w :
  ∃ err w',
    providers.loadOrCreatePrivateKey env platform path w = Return err w' ∧
    same_store w w' ∧ files_kept w w' ∧
    (err = None → ∀ p, path = Some p → p ∈ files w').
Proof.
  unfold providers.loadOrCreatePrivateKey. rewrite bind_log.
  erewrite bind_Return by apply Stat_IsNotExist_eq.
  set (w0 := set_logged _ w).
  destruct path as [q|].
  - destruct (bool_decide (q ∉ files w0)) eqn:Hmissing.
    + destruct (providers.GenerateKey platform) as [e|].
      { eexists _, w0. split; [reflexivity|]. split_and!; try done; grows. }
      unfold mbind at 1, Go_bind at 1. rewrite WriteFile_eq.
      destruct (fs_fault env (FsWriteFile (Some q))) as [e|].
      { eexists _, w0. split; [reflexivity|]. split_and!; try done; grows. }
      cbn beta iota. rewrite bind_log.
      eexists _, _. split; [reflexivity|]. split_and!.
      * grows.
      * subst w0. intros p Hp. fields. by apply add_path_old.
      * intros _ p [= <-]. fields. apply add_path_new.
    + apply bool_decide_eq_false in Hmissing. apply dec_stable in Hmissing.
      rewrite bind_log.
      destruct (providers.read_key platform (Some q)).
      1-3: (eexists _, _; split; [reflexivity|]; split; [grows|];
            split; [grows|]; done).
      eexists _, _. split; [reflexivity|]. split; [grows|]. split; [grows|].
      intros _ p [= <-]. by fields.
  - destruct (providers.GenerateKey platform) as [e|].
    { eexists _, w0. split; [reflexivity|]. split_and!; try done; grows. }
    unfold mbind at 1, Go_bind at 1. cbn [WriteFile]. rewrite ret_eq.
    eexists _, w0. split; [reflexivity|]. split_and!; try done; grows.
Qed.

Lemma NewClient_provider_cases platform c provider setting made vars w :
  ∃ r w',
    providers.NewClient_provider platform c provider setting made vars w
    = Return r w' ∧
    same_store w w' ∧ files w' = files w ∧
    (r = (Some c, None) ∨ ∃ e, r = (None, Some e)).
Proof.
  unfold providers.NewClient_provider. rewrite bind_log.
  destruct (providers.NewDNSProvider platform provider vars) as [e|].
  - eexists _, _. split; [reflexivity|]. split; [grows|]. split; [done|].
    right. by eexists.
  - rewrite !bind_log. eexists _, _. split; [reflexivity|].
    split; [grows|]. split; [done|]. by left.
Qed.

(** How [NewClient] ends: with the handle of its operands, for a provider
    it knows, the storage directory and the account key being in place; or
    with an error and no handle. It adds files, and touches neither the
    rows nor the transactions. *)
Lemma NewClient_cases text env platform name url key cfg w :
  ∃ r w',
    providers.NewClient text env platform name url key cfg w = Return r w' ∧
    same_store w w' ∧ files_kept w w' ∧
    ((r = (Some (mkClient name url key (utils.Certs cfg)), None) ∧
      ToLower text name ∈ supported_providers ∧
      StorageDir (utils.Certs cfg) ≠ "" ∧
      Clean (StorageDir (utils.Certs cfg)) ∈ files w' ∧
      (∀ p, acme_user_key (utils.Certs cfg) = Some p → p ∈ files w')) ∨
     ∃ e, r = (None, Some e)).
Proof.
  unfold providers.NewClient. rewrite !bind_log.
  set (w0 := set_logged _ (set_logged _ w)).
  destruct (MkdirAll_written_cases env (StorageDir (utils.Certs cfg)) w0)
    as (err & w1 & Hmk & Hstore1 & Hfiles1 & _ & Hdir).
  rewrite (bind_Return _ _ _ _ _ Hmk).
  destruct err as [e|].
  { eexists _, w1. split; [reflexivity|].
    split; [subst w0; destruct Hstore1 as (? & ? & ? & ?); grows|].
    split; [intros p Hp; by apply Hfiles1|]. right. by eexists. }
  destruct (Hdir eq_refl) as [Hfull Hclean]. clear Hdir.
  cbn beta iota zeta. rewrite bind_log.
  match goal with
  | |- context [(providers.loadOrCreatePrivateKey env platform ?p ≫= _) ?W] =>
      destruct (loadOrCreatePrivateKey_cases env platform p W)
        as (err & w2 & Hkey & Hstore2 & Hfiles2 & Hmade);
      rewrite (bind_Return _ _ _ _ _ Hkey)
  end.
  fields.
  assert (Hstore : same_store w w2).
  { destruct Hstore1 as (? & ? & ? & ?), Hstore2 as (? & ? & ? & ?).
    unfold same_store in *. subst w0. fields. split_and!; congruence. }
  assert (Hfiles : files_kept w w2).
  { intros p Hp. apply Hfiles2. fields. by apply Hfiles1. }
  destruct err as [e|].
  { eexists _, w2. split; [reflexivity|]. split; [done|]. split; [done|].
    right. by eexists. }
  specialize (Hmade eq_refl). cbn beta iota. rewrite !bind_log.
  set (w3 := set_logged _ (set_logged _ w2)).
  assert (Hfinish : ∀ provider setting made vars,
    ToLower text name ∈ supported_providers →
    ∃ r w',
      providers.NewClient_provider platform
        (mkClient name url key (utils.Certs cfg)) provider setting made vars w3
      = Return r w' ∧
      same_store w w' ∧ files_kept w w' ∧
      ((r = (Some (mkClient name url key (utils.Certs cfg)), None) ∧
        ToLower text name ∈ supported_providers ∧
        StorageDir (utils.Certs cfg) ≠ "" ∧
        Clean (StorageDir (utils.Certs cfg)) ∈ files w' ∧
        (∀ p, acme_user_key (utils.Certs cfg) = Some p → p ∈ files w')) ∨
       ∃ e, r = (None, Some e))).
  { intros provider setting made vars Hknown.
    destruct (NewClient_provider_cases platform
                (mkClient name url key (utils.Certs cfg)) provider setting made
                vars w3) as (r & w' & Hrun & Hstore3 & Hsame & Hr).
    exists r, w'. split; [done|].
    assert (Hfs : files w' = files w2) by (by rewrite Hsame).
    split.
    { destruct Hstore as (? & ? & ? & ?), Hstore3 as (? & ? & ? & ?).
      unfold same_store in *. subst w3. fields. split_and!; congruence. }
    split; [intros p Hp; rewrite Hfs; by apply Hfiles|].
    destruct Hr as [->|Hr]; [|by right]. left. rewrite Hfs.
    split_and!; try done. apply Hfiles2. by fields. }
  unfold supported_providers in Hfinish.
  destruct (decide (ToLower text name = "cloudflare")) as [Hn|_];
    [apply Hfinish; rewrite Hn; set_solver|].
  destruct (decide (ToLower text name = "hetzner")) as [Hn|_];
    [apply Hfinish; rewrite Hn; set_solver|].
  destruct (decide (ToLower text name = "digitalocean")) as [Hn|_];
    [apply Hfinish; rewrite Hn; set_solver|].
  destruct (decide (ToLower text name = "route53")) as [Hn|_];
    [apply Hfinish; rewrite Hn; set_solver|].
  rewrite bind_log. eexists _, _. split; [reflexivity|].
  split; [|split].
  - destruct Hstore as (? & ? & ? & ?). unfold same_store. subst w3. fields. done.
  - intros p Hp. subst w3. fields. by apply Hfiles.
  - right. by eexists.
Qed.

(** The loop of [CreateClients]: the handles it adds are those of
    configured APIs that are usable, in the order of the configuration. *)
Lemma CreateClients_loop_cases text env platform cfg (apis : list utils.API) :
  ∀ clients w,
    ∃ kept w',
      providers.CreateClients_loop text env platform cfg apis clients w
      = Return (clients ++ map (handle_of cfg) kept) w' ∧
      same_store w w' ∧ files_kept w w' ∧
      kept `sublist_of` apis ∧ Forall (usable text) kept ∧
      (kept ≠ [] →
       Clean (StorageDir (utils.Certs cfg)) ∈ files w' ∧
       ∀ p, acme_user_key (utils.Certs cfg) = Some p → p ∈ files w').
Proof.
  induction apis as [|api rest IH]; intros clients w.
  - exists [], w. cbn. rewrite app_nil_r.
    split; [done|]. split; [done|]. split; [apply files_kept_refl|].
    split; [done|]. split; [constructor|done].
  - cbn [providers.CreateClients_loop].
    destruct (decide (utils.api_Name api = "" ∨ utils.api_URL api = ""))
      as [Hskip|Huse].
    + rewrite bind_log.
      destruct (IH clients (set_logged (logged w ++ [(Warn, "api configuration missing something")]) w))
        as (kept & w' & Hrun & Hstore & Hfiles & Hsub & Hall & Hmade).
      exists kept, w'. split; [done|]. split; [done|]. split; [done|].
      split; [by apply sublist_cons|]. done.
    + destruct (NewClient_cases text env platform (utils.api_Name api)
                  (utils.api_URL api) (utils.api_Key api) cfg w)
        as (r & w1 & Hnew & Hstore1 & Hfiles1 & Hr).
      rewrite (bind_Return _ _ _ _ _ Hnew).
      destruct Hr as [(-> & Hknown & _ & Hdir & Hkey)|(e & ->)]; cbn beta iota.
      * destruct (IH (clients ++ [handle_of cfg api]) w1)
          as (kept & w' & Hrun & Hstore & Hfiles & Hsub & Hall & _).
        exists (api :: kept), w'. split.
        { unfold handle_of in Hrun at 1. rewrite Hrun. cbn [map].
          by rewrite <- app_assoc. }
        split; [by apply (same_store_trans w w1 w')|].
        split; [by apply (files_kept_trans w w1 w')|].
        split; [by apply sublist_skip|]. split.
        { constructor; [|done]. unfold usable. split_and!; try done.
          - intros Hn. apply Huse. by left.
          - intros Hu. apply Huse. by right. }
        intros _. split; [by apply Hfiles|]. intros p Hp. by apply Hfiles, Hkey.
      * rewrite bind_log.
        destruct (IH clients (set_logged (logged w1 ++ [(Error, "failed to create client: ")]) w1))
          as (kept & w' & Hrun & Hstore & Hfiles & Hsub & Hall & Hmade).
        exists kept, w'. split; [done|].
        split.
        { apply (same_store_trans w w1 w'); [done|].
          destruct Hstore as (? & ? & ? & ?). unfold same_store. fields. done. }
        split.
        { apply (files_kept_trans w w1 w'); [done|]. intros p Hp. by apply Hfiles. }
        split; [by apply sublist_cons|]. done.
Qed.

(** X21. The registry [CreateClients] builds. It holds a handle for
    configured APIs only, in the order of the configuration, and only for
    those that have a name and a URL and whose name, in lower case, is one
    of [cloudflare], [hetzner], [digitalocean], [route53]; each handle
    bears the name, the URL and the key of its API. It is never returned
    empty: when no handle could be made the call returns the error
    [0 clients created]. So in a service made from it the name [no]
    resolves, to the first handle. When a handle was made, the storage
    directory and the account key are in place. The call touches neither
    the rows nor the transactions, and removes no file. *)
Theorem CreateClients_registry text env platform (cfg : utils.Config) w :
  ∃ r w',
    providers.CreateClients text env platform cfg w = Return r w' ∧
    same_store w w' ∧ files_kept w w' ∧
    (r = ([], Some "0 clients created") ∨
     ∃ first others,
       r = (map (handle_of cfg) (first :: others), None) ∧
       first :: others `sublist_of` utils.APIS cfg ∧
       Forall (usable text) (first :: others) ∧
       Clean (StorageDir (utils.Certs cfg)) ∈ files w' ∧
       (∀ p, acme_user_key (utils.Certs cfg) = Some p → p ∈ files w') ∧
       ∀ s' v,
         NewService (utils.Certs cfg) (map (handle_of cfg) (first :: others))
         = (Some s', None) →
         SelectClientByName s' "no" v = Return (Some (handle_of cfg first), None) v).
Proof.
  unfold providers.CreateClients.
  destruct (CreateClients_loop_cases text env platform cfg (utils.APIS cfg) [] w)
    as (kept & w' & Hrun & Hstore & Hfiles & Hsub & Hall & Hmade).
  rewrite (bind_Return _ _ _ _ _ Hrun). cbn [app].
  destruct kept as [|first others].
  - eexists _, w'. split; [reflexivity|]. split; [done|]. split; [done|]. by left.
  - eexists _, w'. split; [reflexivity|]. split; [done|]. split; [done|]. right.
    destruct Hmade as [Hdir Hkey]; [done|].
    exists first, others. split_and!; try done.
    intros s' v [= <-]. reflexivity.
Qed.

Lemma CreateClients_registry_witness :
  ∃ w',
    providers.CreateClients examples.ascii_text examples.calm examples.willing
      examples.sample_config examples.nothing
    = Return ([mkClient "hetzner" "https://api.hetzner.com/api/v1/records" "k1"
                 examples.config;
               mkClient "Cloudflare" "https://api.cloudflare.com/client/v4" "k2"
                 examples.config], None) w' ∧
    mkPath false ["certs"; "acme_user.key"] ∈ files w'.
Proof.
  destruct (CreateClients_registry examples.ascii_text examples.calm examples.willing
              examples.sample_config examples.nothing)
    as (r & w' & Hrun & _ & _ & Hr).
  assert (Hr' : r = ([mkClient "hetzner" "https://api.hetzner.com/api/v1/records" "k1"
                        examples.config;
                      mkClient "Cloudflare" "https://api.cloudflare.com/client/v4" "k2"
                        examples.config], None)).
  { vm_compute in Hrun. by injection Hrun as <- _. }
  exists w'. split; [by rewrite Hrun, Hr'|].
  destruct Hr as [->|(first & others & _ & _ & _ & _ & Hkey & _)]; [done|].
  by apply Hkey.
Defined.

(** X22. [NewClient] ends in one of two ways, and never panics. Either
    it returns the handle that bears its operands, and then the name it was
    given is, in lower case, that of a provider it knows, the storage
    directory is not the empty path, and the storage directory and the
    account key exist; or it returns an error and no handle. So a name that
    is not that of a known provider gets no handle. It removes no file and
    touches neither the rows nor the transactions. *)
Theorem NewClient_handle_or_error text env platform (name url key : string)
  (cfg : utils.Config) w :
  ∃ r w',
    providers.NewClient text env platform name url key cfg w = Return r w' ∧
    same_store w w' ∧ files_kept w w' ∧
    ((r = (Some (mkClient name url key (utils.Certs cfg)), None) ∧
      ToLower text name ∈ supported_providers ∧
      StorageDir (utils.Certs cfg) ≠ "" ∧
      Clean (StorageDir (utils.Certs cfg)) ∈ files w' ∧
      (∀ p, acme_user_key (utils.Certs cfg) = Some p → p ∈ files w')) ∨
     ∃ e, r = (None, Some e)) ∧
    (ToLower text name ∉ supported_providers → ∃ e, r = (None, Some e)).
Proof.
  destruct (NewClient_cases text env platform name url key cfg w)
    as (r & w' & Hrun & Hstore & Hfiles & Hr).
  exists r, w'. split_and!; try done.
  intros Hunknown. destruct Hr as [(_ & Hknown & _)|Hr]; done.
Qed.

(** ** Start-up: the configuration *)

Lemma LoadConfig_keys_all text proc (apis : list utils.API) :
  (∀ api, api ∈ apis → utils.Getenv proc (key_variable text api) ≠ "") →
  utils.LoadConfig_keys text proc apis = inl (with_keys text proc apis).
Proof.
  induction apis as [|api rest IH]; intros Hset; [done|].
  cbn [utils.LoadConfig_keys with_keys map].
  fold (key_variable text api).
  rewrite decide_False by (apply Hset; left).
  rewrite IH by (intros a Ha; apply Hset; by right). done.
Qed.

Lemma LoadConfig_keys_first_missing text proc (before : list utils.API) api rest :
  (∀ a, a ∈ before → utils.Getenv proc (key_variable text a) ≠ "") →
  utils.Getenv proc (key_variable text api) = "" →
  utils.LoadConfig_keys text proc (before ++ api :: rest)
  = inr ("missing environment variable " +:+ key_variable text api
         +:+ " for API '" +:+ utils.api_Name api +:+ "'").
Proof.
  induction before as [|a before IH]; intros Hset Hmissing.
  - cbn [app utils.LoadConfig_keys]. fold (key_variable text api).
    by rewrite decide_True.
  - cbn [app utils.LoadConfig_keys]. fold (key_variable text a).
    rewrite decide_False by (apply Hset; left).
    rewrite IH; [done| |done]. intros a' Ha'. apply Hset. by right.
Qed.

Lemma LoadConfig_keys_loaded text proc (apis done : list utils.API) :
  utils.LoadConfig_keys text proc apis = inl done →
  ∀ api, api ∈ apis → utils.Getenv proc (key_variable text api) ≠ "".
Proof.
  revert done. induction apis as [|a rest IH]; intros done Hrun api Hin.
  - by apply elem_of_nil in Hin.
  - cbn [utils.LoadConfig_keys] in Hrun. fold (key_variable text a) in Hrun.
    destruct (decide (utils.Getenv proc (key_variable text a) = "")) as [|Hset];
      [done|].
    destruct (utils.LoadConfig_keys text proc rest) as [done'|] eqn:Hrest; [|done].
    apply elem_of_cons in Hin as [->|Hin]; [done|]. by apply (IH done').
Qed.

(** X23. [LoadConfig] wants a key for every configured API. With an empty
    path it fails with [config path is empty]. Once the file is found and
    read: if some configured API has no value in the variable named
    [API_KEY_] followed by its name in upper case, the call fails, and the
    error names the variable and the API of the first such entry; if every
    one has, each API gets the value of its variable as its key before the
    environment is read over the configuration. So a configuration that is
    returned had a key for each API of the file. *)
Theorem LoadConfig_wants_every_key text proc (confPath : string) :
  (confPath = "" →
   utils.LoadConfig text proc confPath = (None, Some "config path is empty")) ∧
  (∀ cfg,
     confPath ≠ "" → utils.Stat_ok proc confPath = true →
     utils.ReadConfig proc confPath = inl cfg →
     (∀ before api rest,
        utils.APIS cfg = before ++ api :: rest →
        (∀ a, a ∈ before → utils.Getenv proc (key_variable text a) ≠ "") →
        utils.Getenv proc (key_variable text api) = "" →
        utils.LoadConfig text proc confPath
        = (None, Some ("missing environment variable " +:+ key_variable text api
                       +:+ " for API '" +:+ utils.api_Name api +:+ "'"))) ∧
     ((∀ api, api ∈ utils.APIS cfg →
         utils.Getenv proc (key_variable text api) ≠ "") →
      utils.LoadConfig text proc confPath
      = match utils.ReadEnv proc
                (utils.mkConfig (with_keys text proc (utils.APIS cfg))
                   (utils.AwsConfig cfg) (utils.Certs cfg)) with
        | inl cfg' => (Some cfg', None)
        | inr e => (None, Some e)
        end)) ∧
  (∀ loaded,
     utils.LoadConfig text proc confPath = (Some loaded, None) →
     ∃ cfg, utils.ReadConfig proc confPath = inl cfg ∧
       ∀ api, api ∈ utils.APIS cfg →
         utils.Getenv proc (key_variable text api) ≠ "").
Proof.
  split_and!.
  - intros ->. reflexivity.
  - intros cfg Hpath Hstat Hread. split.
    + intros before api rest Hapis Hset Hmissing. unfold utils.LoadConfig.
      rewrite decide_False by done. rewrite Hstat, Hread. cbn [negb].
      rewrite Hapis. by rewrite LoadConfig_keys_first_missing.
    + intros Hset. unfold utils.LoadConfig.
      rewrite decide_False by done. rewrite Hstat, Hread. cbn [negb].
      rewrite LoadConfig_keys_all by done.
      by destruct (utils.ReadEnv proc _).
  - intros loaded. unfold utils.LoadConfig.
    destruct (decide (confPath = "")); [done|].
    destruct (utils.Stat_ok proc confPath); [|done]. cbn [negb].
    destruct (utils.ReadConfig proc confPath) as [cfg|]; [|done].
    destruct (utils.LoadConfig_keys text proc (utils.APIS cfg)) as [apis|] eqn:Hkeys;
      [|done].
    intros _. exists cfg. split; [done|]. by apply (LoadConfig_keys_loaded _ _ _ apis).
Qed.

Lemma LoadConfig_wants_every_key_witness :
  utils.LoadConfig examples.ascii_text examples.one_key "/etc/hephaestus.yaml"
  = (None, Some "missing environment variable API_KEY_CLOUDFLARE for API 'Cloudflare'").
Proof.
  destruct (LoadConfig_wants_every_key examples.ascii_text examples.one_key
              "/etc/hephaestus.yaml") as (_ & Hread & _).
  destruct (Hread examples.sample_config) as (Hmissing & _); [done..|].
  apply (Hmissing [utils.mkAPI "hetzner" "https://api.hetzner.com/api/v1/records" "k1"]
           (utils.mkAPI "Cloudflare" "https://api.cloudflare.com/client/v4" "k2")
           [utils.mkAPI "aws" "https://route53.amazonaws.com/" "k3";
            utils.mkAPI "digitalocean" "" "k4";
            utils.mkAPI "auth" "https://authexample.com" "k5"]).
  - reflexivity.
  - intros a Ha. apply list_elem_of_singleton in Ha as ->. by vm_compute.
  - reflexivity.
Defined.

(** ** Create: the provider, and the rows of a success *)

(** X24. A Create for a provider that has no handle is refused before
    anything is done. When the name is free and the provider of the request
    is neither [no] nor the name of a registered handle, the call returns
    the empty identifier and the error [select DNS client: client not
    found]; no order is placed, no file and no row is written, no event is
    recorded: only one line is logged. *)
Theorem CreateDomain_unknown_provider env s (req : CreateDomainReq) w :
  db_fault env (OpIsDomainExists (Domain req)) = None →
  ¬ Exists (is_live_domain (Domain req)) (db w) →
  DNSProvider req ≠ "no" →
  (∀ c, c ∈ client s → Name c ≠ DNSProvider req) →
  CreateDomain env s req w
  = Return ("", Some "select DNS client: client not found")
      (set_logged (logged w ++ [(Debug, "CreateDomain: start")]) w).
Proof.
  intros Hcheck Hfree Hname Hnone. unfold CreateDomain. rewrite bind_log.
  unfold mbind at 1, Go_bind at 1, IsDomainExists at 1. rewrite Hcheck. fields.
  rewrite bool_decide_eq_false_2 by done.
  unfold mbind at 1, Go_bind at 1, SelectClientByName at 1.
  rewrite decide_False by done. rewrite select_loop_not_found by done.
  reflexivity.
Qed.

Lemma CreateDomain_unknown_provider_witness :
  ∃ w',
    CreateDomain examples.calm examples.service
      (mkCreateDomainReq "admin" "example.org" [] "dns-01" true "" "route53")
      examples.stored
    = Return ("", Some "select DNS client: client not found") w' ∧
    db w' = db examples.stored ∧ issued w' = [] ∧ files w' = [].
Proof.
  eexists. split.
  - apply (CreateDomain_unknown_provider examples.calm examples.service
             (mkCreateDomainReq "admin" "example.org" [] "dns-01" true "" "route53")
             examples.stored); [reflexivity| |done|].
    + intros (r & Hr & _ & _ & Hn)%Exists_exists. cbn in Hr.
      apply elem_of_cons in Hr as [->|Hr]; [by vm_compute in Hn|].
      apply elem_of_cons in Hr as [->|Hr]; [by vm_compute in Hn|].
      apply elem_of_cons in Hr as [->|Hr]; [by vm_compute in Hn|].
      by apply elem_of_nil in Hr.
    + intros c Hc. cbn in Hc.
      apply elem_of_cons in Hc as [->|Hc]; [done|].
      apply elem_of_cons in Hc as [->|Hc]; [done|].
      by apply elem_of_nil in Hc.
  - split_and!; reflexivity.
Defined.

(** X25. The identifier a Create returns is that of the domain it stored.
    After a Create returned an identifier and no error, the rows hold a row
    of the domains table under that identifier, with the name and the
    provider of the request, the status [active] and no deletion instant,
    and a row of the certificates table that refers to that identifier. *)
Theorem CreateDomain_stores_under_its_identifier env s (req : CreateDomainReq)
  w id w' :
  range_ok env →
  CreateDomain env s req w = Return (id, None) w' →
  (∃ r, r ∈ db w' ∧ row_id r = id ∧ is_live_domain (Domain req) r ∧
        has_string "status" "active" r ∧
        has_string "dns_provider" (DNSProvider req) r) ∧
  (∃ c, c ∈ db w' ∧ is_certificate_of id c).
Proof.
  intros Hok Hrun.
  pose proof (CreateDomain_cases env s req w Hok) as Hcases.
  rewrite Hrun in Hcases. unfold create_outcome, created in Hcases.
  destruct Hcases as (_ & _ & alts & cid & paths & data & evs & Halts & _ & Hdb).
  rewrite !apply_writes_app in Hdb.
  destruct (apply_writes_inserts "alternative_domains" alts
              (apply_writes [WInsert id (create_domain_entity req)] (db w)) Halts)
    as (altrows & Hrows & _).
  rewrite Hrows in Hdb. cbn [apply_writes fold_left apply_write] in Hdb.
  set (activate := update_row (status_entity "domains" "active" (CreatedBy req)) id)
    in Hdb.
  split.
  - exists (activate (mkRow id (create_domain_entity req))). split.
    + rewrite Hdb. apply elem_of_app. left. apply list_elem_of_fmap.
      eexists. split; [reflexivity|].
      apply elem_of_app. left. apply elem_of_app. left.
      apply elem_of_app. right. left.
    + subst activate. unfold update_row. cbn [row_id row_data EntityName].
      rewrite decide_True by done. done.
  - exists (mkRow cid (create_certificate_entity req id paths data)). split.
    + rewrite Hdb. apply elem_of_app. left. apply list_elem_of_fmap.
      exists (mkRow cid (create_certificate_entity req id paths data)). split.
      * subst activate. unfold update_row. cbn [row_id row_data EntityName].
        rewrite decide_False; [done|]. by intros [_ ?].
      * apply elem_of_app. right. left.
    + done.
Qed.

Lemma CreateDomain_stores_under_its_identifier_witness :
  ∃ id w' r,
    CreateDomain examples.calm examples.service examples.create_request
      examples.nothing
    = Return (id, None) w' ∧
    r ∈ db w' ∧ row_id r = id ∧ has_string "status" "active" r ∧
    has_string "domain_name" "example.org" r.
Proof.
  destruct (CreateDomain examples.calm examples.service examples.create_request
              examples.nothing) as [[id [e|]] w'|msg w'] eqn:Hrun.
  - vm_compute in Hrun. discriminate.
  - destruct (CreateDomain_stores_under_its_identifier examples.calm
                examples.service examples.create_request examples.nothing id w'
                calm_range_ok Hrun) as ((r & Hr & Hid & (_ & _ & Hname) & Hactive & _) & _).
    exists id, w', r. split; [reflexivity|]. split; [exact Hr|].
    split; [exact Hid|]. split; [exact Hactive|exact Hname].
  - vm_compute in Hrun. discriminate.
Defined.

(** ** The cleanup after a Delete by name *)

(** X26. The cleanup after a Delete by name removes the files of that
    domain alone. For a plain name whose directory exists, when the removal
    succeeds, the cleanup leaves no path in the directory of the domain and
    keeps every other path: the files of every other domain, and the
    account key, unless the domain is named as the key file is. *)
Theorem cleanup_removes_one_domain env s (domain : string) first rest v :
  client s = first :: rest →
  StorageDir (cfg first) ≠ "" → plain domain →
  let dir := domain_dir (StorageDir (cfg first)) domain in
  dir ∈ files v →
  fs_fault env (FsRemoveAll (Some dir)) = None →
  ∃ v',
    run env s (go_cleanup domain) v = Return tt v' ∧
    files v' = filter (λ f, under dir f = false) (files v) ∧
    (∀ p, under dir p = true → p ∉ files v') ∧
    (∀ other p, other ≠ domain → p ∈ files v →
       under (domain_dir (StorageDir (cfg first)) other) p = true →
       p ∈ files v') ∧
    (domain ≠ "acme_user.key" →
     ∀ p, acme_user_key (cfg first) = Some p → p ∈ files v → p ∈ files v').
Proof.
  intros Hclient Hdir Hplain dir Hthere Hrm.
  destruct (domain_paths (StorageDir (cfg first)) domain Hdir Hplain) as [Hjoin _].
  unfold run, cleanup, SelectClientByName. rewrite decide_True by done.
  rewrite Hclient. rewrite bind_ret. cbn beta iota.
  erewrite bind_Return
    by (by apply (DeleteCertificateFiles_removes env first domain dir)).
  cbn beta iota. rewrite ret_eq. eexists. split; [reflexivity|]. fields.
  assert (Hothers : ∀ other p, other ≠ domain → p ∈ files v →
            under (domain_dir (StorageDir (cfg first)) other) p = true →
            p ∈ filter (λ f, under dir f = false) (files v)).
  { intros other p Hne Hp Hunder. apply list_elem_of_filter. split; [|done].
    by apply (domain_dirs_apart _ _ other). }
  split; [done|]. split; [|split].
  - intros p Hp. by apply removed_below.
  - exact Hothers.
  - intros Hkeyname p Hkey Hp.
    destruct plain_file_names as (Hplainkey & _).
    destruct (domain_paths (StorageDir (cfg first)) "acme_user.key" Hdir Hplainkey)
      as [Hkeypath _].
    unfold acme_user_key in Hkey. rewrite Hkeypath in Hkey. injection Hkey as <-.
    apply (Hothers "acme_user.key"); [done|done|].
    apply under_true. done.
Qed.

Lemma cleanup_removes_one_domain_witness :
  ∃ v',
    run examples.calm examples.service (go_cleanup "example.com") examples.stocked
    = Return tt v' ∧
    files v' = [mkPath false ["certs"];
                mkPath false ["certs"; "acme_user.key"];
                mkPath false ["certs"; "example.net"];
                mkPath false ["certs"; "example.net"; "cert.pem"];
                mkPath false ["backup"; "notes.txt"]].
Proof.
  assert (Hplain : plain "example.com") by (by vm_compute).
  destruct (cleanup_removes_one_domain examples.calm examples.service "example.com"
              examples.cloudflare [examples.hetzner] examples.stocked)
    as (v' & Hrun & Hfiles & _); [reflexivity|done|exact Hplain| |reflexivity|].
  - cbn. do 2 right. left.
  - exists v'. split; [exact Hrun|]. rewrite Hfiles. reflexivity.
Defined.

(** ** Create: when nothing fails *)

Lemma CreateDomain_subs_calm env req h domainID subs : ∀ ws w,
  (∀ op, db_fault env op = None) →
  txs w !! h = Some ws →
  ∃ w' alts,
    CreateDomain_subs env req (Some h) domainID subs w = Return None w' ∧
    db w' = db w ∧ txs w' !! h = Some (ws ++ alts).
Proof.
  induction subs as [|sub subs IH]; intros ws w Hcalm Hopen.
  - exists w, []. split; [done|]. split; [done|]. by rewrite app_nil_r.
  - cbn [CreateDomain_subs].
    erewrite bind_Return by apply new_entity_create_alternative.
    unfold mbind at 1, Go_bind at 1. rewrite (InsertTx_open _ _ _ _ _ Hopen).
    rewrite Hcalm. cbn iota.
    match goal with
    | |- context [CreateDomain_subs env req (Some h) domainID subs ?W] =>
        destruct (IH (ws ++ [WInsert (gen_id env (next_id w))
                               (create_alternative_entity req domainID sub)]) W Hcalm)
          as (w' & alts & -> & Hdb & Htx); [fields; apply lookup_insert_eq|]
    end.
    eexists w', (_ :: alts). split; [done|]. split; [by rewrite Hdb|].
    by rewrite Htx, <- app_assoc.
Qed.

(** X27. When nothing fails, a Create succeeds. If the name is free, the
    provider of the request resolves to a handle, the authority issues the
    certificate, the name is plain, and no call of the store or of the file
    system fails, then Create returns the identifier the store gave to the
    row of the domain, and no error. *)
Theorem CreateDomain_succeeds env s (req : CreateDomainReq) w c data :
  (∀ op, db_fault env op = None) → (∀ op, fs_fault env op = None) →
  ¬ Exists (is_live_domain (Domain req)) (db w) →
  SelectClientByName s (DNSProvider req) w = Return (Some c, None) w →
  acme env (Name c) (Domain req) (AltDomains req) = inl data →
  StorageDir (cfg c) ≠ "" → plain (Domain req) →
  ∃ w', CreateDomain env s req w = Return (gen_id env (next_id w), None) w'.
Proof.
  intros Hcalm Hfs Hfree Hsel Hacme Hdir Hplain.
  apply SelectClientByName_pure in Hsel as [_ Hsel].
  unfold CreateDomain. rewrite bind_log.
  unfold mbind at 1, Go_bind at 1, IsDomainExists at 1. rewrite Hcalm. fields.
  rewrite bool_decide_eq_false_2 by done.
  erewrite bind_Return by apply Hsel. cbn beta iota.
  unfold mbind at 1, Go_bind at 1. rewrite CreateCertificate_eq, Hacme.
  cbn beta iota.
  match goal with
  | |- context [(SaveCertificateFiles env (Some c) ?d (Some data) ≫= _) ?W] =>
      destruct (SaveCertificateFiles_run env c d data W Hdir Hplain)
        as (w4 & Hsave & (Hdb & Htxs & Hid & Htx) & _); try apply Hfs;
        [right; apply Hfs|]
  end.
  rewrite (bind_Return _ _ _ _ _ Hsave). cbn beta iota. fields.
  erewrite bind_Return by (by apply BeginTx_ok).
  cbn beta iota zeta. set (h := next_tx w4).
  erewrite bind_Return by apply new_entity_create_domain.
  unfold mbind at 1, Go_bind at 1.
  erewrite InsertTx_open by (fields; apply lookup_insert_eq).
  rewrite Hcalm. fields. rewrite insert_insert_eq. cbn [app].
  set (id := gen_id env (next_id w4)).
  match goal with
  | |- context [(CreateDomain_subs env req (Some h) id ?subs ≫= _) ?W] =>
      destruct (CreateDomain_subs_calm env req h id subs
                  [WInsert id (create_domain_entity req)] W Hcalm)
        as (w5 & alts & Hrun & Hdb5 & Hopen5); [fields; apply lookup_insert_eq|];
      rewrite (bind_Return _ _ _ _ _ Hrun)
  end.
  cbn beta iota. cbn [deref]. rewrite !bind_ret.
  erewrite bind_Return by apply new_entity_create_certificate.
  unfold mbind at 1, Go_bind at 1. rewrite (InsertTx_open _ _ _ _ _ Hopen5).
  rewrite Hcalm. cbn beta iota.
  erewrite bind_Return by apply new_entity_active.
  erewrite bind_Return
    by (apply (updateMany_calm env h); [done|fields; apply lookup_insert_eq]).
  cbn beta iota.
  unfold mbind at 1, Go_bind at 1.
  erewrite Commit_open by (fields; apply lookup_insert_eq).
  rewrite Hcalm. cbn beta iota.
  unfold mbind at 1, Go_bind at 1. rewrite safeWriteEvent_eq, Hcalm.
  rewrite bind_log. cbn.
  eexists. subst id. by rewrite Hid.
Qed.

Lemma CreateDomain_succeeds_witness :
  ∃ w',
    CreateDomain examples.calm examples.service examples.create_request
      examples.stored
    = Return ("id-0", None) w'.
Proof.
  apply (CreateDomain_succeeds examples.calm examples.service
           examples.create_request examples.stored examples.cloudflare
           examples.some_certificate); try done.
  intros (r & Hr & _ & _ & Hn)%Exists_exists. cbn in Hr.
  apply elem_of_cons in Hr as [->|Hr]; [by vm_compute in Hn|].
  apply elem_of_cons in Hr as [->|Hr]; [by vm_compute in Hn|].
  apply elem_of_cons in Hr as [->|Hr]; [by vm_compute in Hn|].
  by apply elem_of_nil in Hr.
Defined.
